(** * Fitness tracker: import and export of workout data

    A shallow embedding of [fitness_tracker/data_utils.py] together with the
    parts of [models.py] and [signals.py] it runs through: the two tables
    (workouts, exercises), the ORM calls used by the importers
    ([filter(...).first()], [objects.create], [save], [update]), the
    [post_save] receivers that write to the store, and the three importers
    and exporters.

    Python raises exceptions and mutates the database as it goes; both are
    kept: every operation is a function from the store to a new store and
    either a value or the raised exception, so that what was written before
    an exception is still in the store afterwards. *)

From Stdlib Require Import ZArith String Ascii List Lia Bool DecimalString.
From Stdlib Require DecimalPos.
From stdpp Require Import base option list strings gmap.

Local Open Scope string_scope.
Local Open Scope Z_scope.

(** ** Python built-ins used by the importers

    Strings are sequences of 8-bit characters; text outside ASCII is not
    modelled. *)

(** [str.isspace] on one ASCII character: tab, line feed, vertical tab, form
    feed, carriage return, the four separators 28..31 and the space. *)
Definition isspace (c : ascii) : bool :=
  let n := nat_of_ascii c in
  ((9 <=? n) && (n <=? 13) || (28 <=? n) && (n <=? 32))%nat.

Fixpoint lstrip (s : string) : string :=
  match s with
  | String c s' => if isspace c then lstrip s' else s
  | EmptyString => EmptyString
  end.

(** [rstrip] keeps a character when it is not a space or when something
    that is kept follows it. *)
Fixpoint rstrip (s : string) : string :=
  match s with
  | String c s' =>
      match rstrip s' with
      | EmptyString => if isspace c then EmptyString else String c EmptyString
      | r => String c r
      end
  | EmptyString => EmptyString
  end.

(** [s.strip()] *)
Definition strip (s : string) : string := rstrip (lstrip s).

(** [s.split(sep)] for a one-character separator: never empty, and
    [n] separators give [n + 1] fields. *)
Fixpoint split (sep : ascii) (s : string) : list string :=
  match s with
  | EmptyString => [EmptyString]
  | String c s' =>
      if Ascii.eqb c sep then EmptyString :: split sep s'
      else match split sep s' with
           | f :: fs => String c f :: fs
           | [] => [String c EmptyString]
           end
  end.

(** [s.startswith(p)] *)
Definition startswith (s p : string) : bool := String.prefix p s.

(** [s[n:]] *)
Fixpoint slice_from (n : nat) (s : string) : string :=
  match n, s with
  | O, _ => s
  | S n', String _ s' => slice_from n' s'
  | S _, EmptyString => EmptyString
  end.

Definition is_digit (c : ascii) : bool :=
  let n := nat_of_ascii c in ((48 <=? n) && (n <=? 57))%nat.

Definition digit_value (c : ascii) : Z := Z.of_nat (nat_of_ascii c) - 48.

(** The digits of an integer literal: decimal digits, where single
    underscores may stand between two digits. [after_digit] tells whether
    the previous character was a digit. *)
Fixpoint int_digits (acc : Z) (after_digit : bool) (s : string) : option Z :=
  match s with
  | EmptyString => if after_digit then Some acc else None
  | String c s' =>
      if is_digit c then int_digits (10 * acc + digit_value c) true s'
      else if Ascii.eqb c "_" then
             if after_digit then int_digits acc false s' else None
      else None
  end.

(** [int(s)] for a string, in base 10: surrounding white space is dropped,
    one sign is allowed. [None] stands for [ValueError]. *)
Definition py_int (s : string) : option Z :=
  match strip s with
  | String "-" ds => Z.opp <$> int_digits 0 false ds
  | String "+" ds => int_digits 0 false ds
  | ds => int_digits 0 false ds
  end.

(** [str(n)] for an integer. *)
Definition str_of_int (n : Z) : string := NilZero.string_of_int (Z.to_int n).

(** A Python [float] that has a short decimal writing: [digits / 10 ^ places],
    with no trailing zero in [digits] when [places > 0]. For decimals of at
    most 15 significant digits, [float(repr(x)) == x] and [repr(float(s))]
    is the normal form of [s], so that the decimal stands for the binary64
    value without loss. Infinities, NaN, the negative zero and exponent
    notation are outside this type. *)
Record pyfloat := Float { digits : Z; places : nat }.

Fixpoint float_norm (d : Z) (p : nat) : pyfloat :=
  match p with
  | O => Float d O
  | S p' => if d mod 10 =? 0 then float_norm (d / 10) p' else Float d p
  end.

(** [float(n)] for an integer. *)
Definition float_of_int (n : Z) : pyfloat := Float n 0.

(** Plain decimal digits read onto [acc]. Returns the value and the number
    of digits read. *)
Fixpoint dec_digits (acc : Z) (count : nat) (s : string) : option (Z * nat) :=
  match s with
  | EmptyString => Some (acc, count)
  | String c s' =>
      if is_digit c then dec_digits (10 * acc + digit_value c) (S count) s'
      else None
  end.

(** The unsigned part of a float literal: [ddd], [ddd.], [ddd.ddd] or
    [.ddd]. *)
Definition float_unsigned (s : string) : option pyfloat :=
  match split "." s with
  | [ip] =>
      match dec_digits 0 0 ip with
      | Some (v, S _) => Some (Float v 0)
      | _ => None
      end
  | [ip; fp] =>
      match dec_digits 0 0 ip with
      | Some (v, ni) =>
          match dec_digits v 0 fp with
          | Some (w, nf) =>
              match (ni + nf)%nat with
              | O => None
              | S _ => Some (float_norm w nf)
              end
          | None => None
          end
      | None => None
      end
  | _ => None
  end.

(** [float(s)] for a string: surrounding white space is dropped, one sign is
    allowed, then a plain decimal literal. [None] stands for [ValueError].
    Python also reads literals with an exponent or with underscores, [inf]
    and [nan]; these have no value in [pyfloat] and are not covered: they
    are answered with [None] here. *)
Definition py_float (s : string) : option pyfloat :=
  match strip s with
  | String "-" ds =>
      (fun f => Float (- digits f) (places f)) <$> float_unsigned ds
  | String "+" ds => float_unsigned ds
  | ds => float_unsigned ds
  end.

(** [x > 0] and [x == 0.0] on floats. *)
Definition float_gt0 (x : pyfloat) : bool := 0 <? digits x.
Definition float_is0 (x : pyfloat) : bool := digits x =? 0.

(** [int(n * x)] for an integer [n] and a float [x]: the product, truncated
    toward zero. *)
Definition int_of_product (n : Z) (x : pyfloat) : Z :=
  Z.quot (n * digits x) (10 ^ Z.of_nat (places x)).

Fixpoint zeros (n : nat) : string :=
  match n with
  | O => EmptyString
  | S n' => String "0" (zeros n')
  end.

(** [s] filled with zeros on the left up to [width] characters. *)
Definition zero_pad (width : nat) (s : string) : string :=
  zeros (width - String.length s) +:+ s.

(** [str(x)] for a float: the integer part, a point, and the decimals
    (["10.0"], ["72.5"]). *)
Definition str_of_float (x : pyfloat) : string :=
  let a := Z.abs (digits x) in
  let scale := 10 ^ Z.of_nat (places x) in
  let frac :=
    match places x with
    | O => "0"
    | p => zero_pad p (str_of_int (a mod scale))
    end in
  (if digits x <? 0 then "-" else "") +:+ str_of_int (a / scale) +:+ "." +:+ frac.

(** *** Calendar dates *)

Record pydate := Date { year : Z; month : Z; day : Z }.

Definition is_leap (y : Z) : bool :=
  (y mod 4 =? 0) && (negb (y mod 100 =? 0) || (y mod 400 =? 0)).

Definition days_in_month (y m : Z) : Z :=
  if m =? 2 then (if is_leap y then 29 else 28)
  else if (m =? 4) || (m =? 6) || (m =? 9) || (m =? 11) then 30
  else 31.

(** [datetime.date(y, m, d)] raises [ValueError] outside these bounds. *)
Definition valid_date (y m d : Z) : bool :=
  (1 <=? y) && (y <=? 9999) && (1 <=? m) && (m <=? 12) &&
  (1 <=? d) && (d <=? days_in_month y m).

(** The directive [%Y]: exactly four digits. *)
Definition read_Y (s : string) : option Z :=
  match dec_digits 0 0 s with
  | Some (v, 4%nat) => Some v
  | _ => None
  end.

(** The directive [%m]: [1[0-2]], [0[1-9]] or [[1-9]]. *)
Definition read_m (s : string) : option Z :=
  match dec_digits 0 0 s with
  | Some (v, 1%nat) | Some (v, 2%nat) =>
      if (1 <=? v) && (v <=? 12) then Some v else None
  | _ => None
  end.

(** The directive [%d]: [3[01]], [[12]\d], [0[1-9]], [[1-9]] or a space and
    [[1-9]]. *)
Definition read_d (s : string) : option Z :=
  match s with
  | String " " (String c EmptyString) =>
      if is_digit c && negb (Ascii.eqb c "0") then Some (digit_value c) else None
  | _ =>
      match dec_digits 0 0 s with
      | Some (v, 1%nat) | Some (v, 2%nat) =>
          if (1 <=? v) && (v <=? 31) then Some v else None
      | _ => None
      end
  end.

(** [datetime.strptime(s, '%Y-%m-%d').date()]; [None] stands for
    [ValueError]. *)
Definition strptime (s : string) : option pydate :=
  match split "-" s with
  | [ys; ms; ds] =>
      y ← read_Y ys; m ← read_m ms; d ← read_d ds;
      if valid_date y m d then Some (Date y m d) else None
  | _ => None
  end.

(** [d.strftime('%Y-%m-%d')] *)
Definition strftime (d : pydate) : string :=
  zero_pad 4 (str_of_int (year d)) +:+ "-" +:+
  zero_pad 2 (str_of_int (month d)) +:+ "-" +:+
  zero_pad 2 (str_of_int (day d)).

(** Dates compare by year, then month, then day. *)
Definition date_ltb (a b : pydate) : bool :=
  (year a <? year b) ||
  (year a =? year b) && ((month a <? month b) ||
                         (month a =? month b) && (day a <? day b)).

Definition date_eqb (a b : pydate) : bool :=
  (year a =? year b) && (month a =? month b) && (day a =? day b).


(** ** Values read from files *)

(** What [json.loads] returns: [None], [bool], [int], [float], [str],
    [list] and [dict] (string keys, in document order). *)
#[warnings="-register-all"]
Inductive json :=
| JNull
| JBool (b : bool)
| JInt (n : Z)
| JFloat (x : pyfloat)
| JStr (s : string)
| JList (items : list json)
| JDict (fields : list (string * json)).

(** One record of [csv.DictReader]: the header's column names to the
    record's fields. Records are those of a rectangular file, each with as
    many fields as the header, so that every value is a string. *)
Abbreviation csv_row := (gmap string string).

(** ** Exceptions *)

(** The exception a handler caught, as its message quotes it. *)
Inductive cause := ValueError_ | KeyError_ | IndexError_.

(** The diagnostics of [ValidationError], one constructor per message of the
    source, with the row, sub-document or line number it is built from. *)
Inductive message :=
| Invalid_CSV_data (row : csv_row) (e : cause)
| Invalid_JSON_format
| Invalid_JSON_data (workout_data : json) (e : cause)
| Workout_line_too_short (line_num : nat)
| Exercise_without_workout (line_num : nat)
| Exercise_line_too_short (line_num : nat)
| Invalid_line_format (line_num : nat) (e : cause)
| High_weight_reps.

Inductive exn :=
| ValueError
| KeyError
| IndexError
| TypeError
| AttributeError
| IntegrityError
| ValidationError (m : message).

Inductive result (A : Type) :=
| Ok (a : A)
| Raise (e : exn).
Arguments Ok {A} a.
Arguments Raise {A} e.

(** ** The record store (models.py) *)

(** The primary key of the [User] a record belongs to. *)
Definition User := nat.

Module Workout.
Record t := Build {
  pk : nat;
  user : User;
  name : string;
  workout_type : string;
  date : pydate;
  duration : Z;
  calories_burned : Z;
  notes : string }.
End Workout.

Module Exercise.
Record t := Build {
  pk : nat;
  workout : nat;
  exercise_name : string;
  category : string;
  sets : Z;
  reps : Z;
  weight : pyfloat;
  rest_time : Z;
  notes : string }.
End Exercise.

(** The two tables, rows in the order they were inserted (the order of
    [created_at]). *)
Record Store := {
  fitness_workouts : list Workout.t;
  fitness_exercises : list Exercise.t }.

Definition empty_store : Store :=
  {| fitness_workouts := []; fitness_exercises := [] |}.

(** Database work that may raise: the store after it, and the value or the
    exception. The store is returned in both cases: nothing in the source
    opens a transaction, and every statement is committed as it runs. *)
Definition M (A : Type) : Type := Store -> Store * result A.

Definition ret {A} (a : A) : M A := fun db => (db, Ok a).

Definition raise {A} (e : exn) : M A := fun db => (db, Raise e).

Definition bind {A B} (m : M A) (k : A -> M B) : M B :=
  fun db =>
    match m db with
    | (db', Ok a) => k a db'
    | (db', Raise e) => (db', Raise e)
    end.

Notation "x <- m ;; k" := (bind m (fun x => k))
  (at level 100, m at next level, right associativity).
Notation "m ;;; k" := (bind m (fun _ => k))
  (at level 100, right associativity).

(** A computation that does not touch the store. *)
Definition lift {A} (r : result A) : M A := fun db => (db, r).

(** [None] raises [e]. *)
Definition or_raise {A} (e : exn) (o : option A) : M A :=
  match o with
  | Some a => ret a
  | None => raise e
  end.

(** The truth value of an object that is either [None] or a model
    instance. *)
Definition truth {A} (o : option A) : bool :=
  match o with
  | Some _ => true
  | None => false
  end.

(** The computation leaves the store as it is. *)
Definition pure {A} (m : M A) : Prop := forall db, fst (m db) = db.

(** [try: body / except ... as e: raise ValidationError(...)]: the exceptions
    that [handler] maps to a message are raised again as that
    [ValidationError]; the others pass. *)
Definition try_except {A} (body : M A) (handler : exn -> option message) : M A :=
  fun db =>
    match body db with
    | (db', Ok a) => (db', Ok a)
    | (db', Raise e) =>
        match handler e with
        | Some m => (db', Raise (ValidationError m))
        | None => (db', Raise e)
        end
    end.

(** [for x in xs: s = body x s], stopping at the first exception. *)
Fixpoint for_each {X S} (body : X -> S -> M S) (xs : list X) (s : S) : M S :=
  match xs with
  | [] => ret s
  | x :: xs' => s' <- body x s ;; for_each body xs' s'
  end.

(** The key of a new row: one more than the highest key of the table. *)
Definition next_pk (pks : list nat) : nat := S (max_list pks).

(** The CHECK constraint ([>= 0]) that the database puts on a
    [PositiveIntegerField] column. The validators of the fields
    ([MinValueValidator], [MaxValueValidator]) and [clean] run in
    [full_clean], that is in the forms; [save] and [objects.create] do not
    call them. *)
Definition positive_integer (v : Z) : bool := 0 <=? v.

(** [Exercise.clean] *)
Definition Exercise_clean (self : Exercise.t) : result unit :=
  if float_gt0 (Exercise.weight self) && (100 <? Exercise.reps self)
  then Raise (ValidationError High_weight_reps)
  else Ok tt.

(** [Exercise.is_bodyweight] *)
Definition is_bodyweight (self : Exercise.t) : bool :=
  float_is0 (Exercise.weight self).

(** [Workout.objects.filter(user=user, name=name, date=date).first()].
    [Meta.ordering] is [-date], [-created_at]: of the rows that match, which
    have the same date, the one created last comes first. *)
Definition workout_matches (user : User) (name : string) (date : pydate)
    (w : Workout.t) : bool :=
  Nat.eqb (Workout.user w) user && String.eqb (Workout.name w) name &&
  date_eqb (Workout.date w) date.

Definition Workout_filter_first (user : User) (name : string) (date : pydate)
    : M (option Workout.t) :=
  fun db =>
    (db, Ok (last (List.filter (workout_matches user name date)
                     (fitness_workouts db)))).

(** [Workout.objects.filter(pk=pk).update(calories_burned=v)]: no signal is
    sent. *)
Definition Workout_filter_pk_update (pk : nat) (v : Z) : M unit :=
  fun db =>
    if positive_integer v then
      ({| fitness_workouts :=
            map (fun w =>
                   if Nat.eqb (Workout.pk w) pk
                   then Workout.Build (Workout.pk w) (Workout.user w)
                          (Workout.name w) (Workout.workout_type w)
                          (Workout.date w) (Workout.duration w) v
                          (Workout.notes w)
                   else w)
                (fitness_workouts db);
          fitness_exercises := fitness_exercises db |}, Ok tt)
    else (db, Raise IntegrityError).

(** ** Signal receivers (signals.py) *)

Definition calorie_rates : gmap string pyfloat :=
  list_to_map
    [("cardio", Float 8 0); ("strength", Float 6 0); ("flexibility", Float 3 0);
     ("sports", Float 7 0); ("mixed", Float 6 0); ("other", Float 5 0)].

(** [calorie_rates.get(workout_type, 5.0)] *)
Definition rate_for (workout_type : string) : pyfloat :=
  default (Float 5 0) (calorie_rates !! workout_type).

(** [auto_calculate_calories], receiver of [post_save] for [Workout]. *)
Definition auto_calculate_calories (instance : Workout.t) (created : bool)
    : M unit :=
  if (Workout.calories_burned instance =? 0) || created then
    let rate := rate_for (Workout.workout_type instance) in
    let estimated_calories := int_of_product (Workout.duration instance) rate in
    if Workout.calories_burned instance =? 0 then
      Workout_filter_pk_update (Workout.pk instance) estimated_calories
    else ret tt
  else ret tt.

(** The receivers of [post_save] for [Workout]. [check_workout_milestones]
    and [check_calories_milestones] only read the store and print. *)
Definition post_save_Workout (instance : Workout.t) (created : bool) : M unit :=
  auto_calculate_calories instance created.

(** The row of [instance] is written: UPDATE where the key exists, INSERT
    otherwise. Returns whether the row is new. *)
Definition write_workout (instance : Workout.t) : M bool :=
  fun db =>
    if existsb (fun w => Nat.eqb (Workout.pk w) (Workout.pk instance))
         (fitness_workouts db)
    then ({| fitness_workouts :=
               map (fun w =>
                      if Nat.eqb (Workout.pk w) (Workout.pk instance)
                      then instance else w)
                   (fitness_workouts db);
             fitness_exercises := fitness_exercises db |}, Ok false)
    else ({| fitness_workouts := fitness_workouts db ++ [instance];
             fitness_exercises := fitness_exercises db |}, Ok true).

(** [instance.save()] for a [Workout]. *)
Definition Workout_save (instance : Workout.t) : M unit :=
  if positive_integer (Workout.duration instance) &&
     positive_integer (Workout.calories_burned instance)
  then created <- write_workout instance ;; post_save_Workout instance created
  else raise IntegrityError.

(** [Workout.objects.create(user=user, **fields)]: the instance gets a new
    key and is saved; the instance is returned as it was built, its fields
    are not read back from the row. *)
Definition Workout_objects_create (user : User) (name workout_type : string)
    (duration calories_burned : Z) (notes : string) (date : pydate)
    : M Workout.t :=
  fun db =>
    let instance :=
      Workout.Build (next_pk (map Workout.pk (fitness_workouts db))) user name
        workout_type date duration calories_burned notes in
    (Workout_save instance ;;; ret instance) db.

(** [update_workout_on_exercise_change], receiver of [post_save] for
    [Exercise]: [instance.workout.save()], on the [Workout] object the
    exercise was built with. *)
Definition update_workout_on_exercise_change (workout : Workout.t) : M unit :=
  Workout_save workout.

(** [Exercise.objects.create(workout=workout, ...)] *)
Definition Exercise_objects_create (workout : Workout.t)
    (exercise_name category : string) (sets reps : Z) (weight : pyfloat)
    (rest_time : Z) (notes : string) : M unit :=
  if positive_integer sets && positive_integer reps && positive_integer rest_time
  then
    (fun db =>
       let instance :=
         Exercise.Build (next_pk (map Exercise.pk (fitness_exercises db)))
           (Workout.pk workout) exercise_name category sets reps weight
           rest_time notes in
       ({| fitness_workouts := fitness_workouts db;
           fitness_exercises := fitness_exercises db ++ [instance] |}, Ok tt))
    ;;; update_workout_on_exercise_change workout
  else raise IntegrityError.

(** [workout.exercises.all()], in the order of [created_at]. *)
Definition exercises_of (db : Store) (workout : Workout.t) : list Exercise.t :=
  List.filter (fun e => Nat.eqb (Exercise.workout e) (Workout.pk workout))
    (fitness_exercises db).

(** [workout.exercises.all().delete()]; the receiver of [pre_delete] only
    prints. *)
Definition Workout_exercises_delete (workout : Workout.t) : M unit :=
  fun db =>
    ({| fitness_workouts := fitness_workouts db;
        fitness_exercises :=
          List.filter
            (fun e => negb (Nat.eqb (Exercise.workout e) (Workout.pk workout)))
            (fitness_exercises db) |}, Ok tt).

(** [for key, value in fields.items(): setattr(existing, key, value)] *)
Definition set_fields (existing : Workout.t) (name workout_type : string)
    (duration calories_burned : Z) (notes : string) (date : pydate)
    : Workout.t :=
  Workout.Build (Workout.pk existing) (Workout.user existing) name workout_type
    date duration calories_burned notes.

(** [user.workouts.all()]: the user's rows, newest date first and, within a
    date, newest row first. A row is put before the first row of an earlier
    date; the rows are put in from the newest to the oldest, so that an
    older row lands behind the newer rows of its date. *)
Fixpoint insert_by_date (w : Workout.t) (sorted : list Workout.t)
    : list Workout.t :=
  match sorted with
  | [] => [w]
  | x :: rest =>
      if date_ltb (Workout.date x) (Workout.date w) then w :: sorted
      else x :: insert_by_date w rest
  end.

Definition user_workouts (db : Store) (user : User) : list Workout.t :=
  fold_right insert_by_date []
    (List.filter (fun w => Nat.eqb (Workout.user w) user)
       (fitness_workouts db)).

(** ** Import and export (data_utils.py) *)

(** The returned dict [{'imported': ..., 'exercises': ...}]; it also serves
    as the pair of counters of the loops. *)
Record counts := Counts { imported : nat; exercises : nat }.

Definition add_workout (c : counts) : counts :=
  Counts (S (imported c)) (exercises c).

Definition add_exercise (c : counts) : counts :=
  Counts (imported c) (S (exercises c)).

(** *** Delimited text *)

(** [int(row.get(key, default))] with an integer default. *)
Definition int_get (row : csv_row) (key : string) (dflt : Z) : M Z :=
  match row !! key with
  | Some s => or_raise ValueError (py_int s)
  | None => ret dflt
  end.

(** [float(row.get(key, default))] with an integer default. *)
Definition float_get (row : csv_row) (key : string) (dflt : Z) : M pyfloat :=
  match row !! key with
  | Some s => or_raise ValueError (py_float s)
  | None => ret (float_of_int dflt)
  end.

(** [except (ValueError, KeyError) as e] of [import_csv_data]. *)
Definition csv_handler (row : csv_row) (e : exn) : option message :=
  match e with
  | ValueError => Some (Invalid_CSV_data row ValueError_)
  | KeyError => Some (Invalid_CSV_data row KeyError_)
  | _ => None
  end.

(** The body of the loop of [import_csv_data]; returning the counters as
    they are is the [continue]. *)
Definition import_csv_row (user : User) (overwrite_existing : bool)
    (row : csv_row) (c : counts) : M counts :=
  try_except
    (date_field <- or_raise KeyError (row !! "date") ;;
     workout_date <- or_raise ValueError (strptime date_field) ;;
     existing_workout <-
       (if negb overwrite_existing then
          name <- or_raise KeyError (row !! "name") ;;
          Workout_filter_first user name workout_date
        else ret None) ;;
     if truth existing_workout && negb overwrite_existing
     then ret c
     else
       name <- or_raise KeyError (row !! "name") ;;
       let workout_type := default "other" (row !! "workout_type") in
       duration_field <- or_raise KeyError (row !! "duration") ;;
       duration <- or_raise ValueError (py_int duration_field) ;;
       calories_burned <- int_get row "calories_burned" 0 ;;
       let notes := default "" (row !! "notes") in
       created <-
         match existing_workout, overwrite_existing with
         | Some existing, true =>
             let updated :=
               set_fields existing name workout_type duration calories_burned
                 notes workout_date in
             Workout_save updated ;;; ret (updated, c)
         | _, _ =>
             workout <- Workout_objects_create user name workout_type duration
                          calories_burned notes workout_date ;;
             ret (workout, add_workout c)
         end ;;
       let '(workout, c1) := created in
       match row !! "exercise_name" with
       | Some (String a rest) =>
           let category := default "other" (row !! "category") in
           sets <- int_get row "sets" 1 ;;
           reps <- int_get row "reps" 1 ;;
           weight <- float_get row "weight" 0 ;;
           rest_time <- int_get row "rest_time" 60 ;;
           let exercise_notes := default "" (row !! "exercise_notes") in
           Exercise_objects_create workout (String a rest) category sets reps
             weight rest_time exercise_notes ;;;
           ret (add_exercise c1)
       | _ => ret c1
       end)
    (csv_handler row).

(** [import_csv_data(user, file_content, overwrite_existing)], on the
    records that [csv.DictReader] reads from the file. *)
Definition import_csv_data (user : User) (csv_reader : list csv_row)
    (overwrite_existing : bool) : M counts :=
  for_each (import_csv_row user overwrite_existing) csv_reader (Counts 0 0).

(** *** Hierarchical document *)

(** The value of a key in the items of a dict. *)
Fixpoint dict_lookup (key : string) (fields : list (string * json))
    : option json :=
  match fields with
  | [] => None
  | (k, v) :: rest => if String.eqb k key then Some v else dict_lookup key rest
  end.

(** [d[key]]: [KeyError] when a dict lacks the key, [TypeError] when [d] is
    not a dict. *)
Definition getitem (d : json) (key : string) : M json :=
  match d with
  | JDict fields => or_raise KeyError (dict_lookup key fields)
  | _ => raise TypeError
  end.

(** [d.get(key, default)]: [AttributeError] when [d] is not a dict. *)
Definition dict_get (d : json) (key : string) (dflt : json) : M json :=
  match d with
  | JDict fields => ret (default dflt (dict_lookup key fields))
  | _ => raise AttributeError
  end.

(** [for x in v]: the items of a list, the keys of a dict, the characters
    of a string; the other values are not iterable. *)
Definition iterate (v : json) : M (list json) :=
  match v with
  | JList items => ret items
  | JDict fields => ret (map (fun kv => JStr (fst kv)) fields)
  | JStr s =>
      ret (map (fun c => JStr (String c EmptyString)) (list_ascii_of_string s))
  | _ => raise TypeError
  end.

(** A field as the type the exporter writes it with. A value of another
    JSON type is answered with [TypeError]; the conversions that Django's
    fields would try on it are not modelled. *)
Definition as_str (v : json) : M string :=
  match v with
  | JStr s => ret s
  | _ => raise TypeError
  end.

Definition as_int (v : json) : M Z :=
  match v with
  | JInt n => ret n
  | _ => raise TypeError
  end.

Definition as_float (v : json) : M pyfloat :=
  match v with
  | JFloat x => ret x
  | JInt n => ret (float_of_int n)
  | _ => raise TypeError
  end.

(** [except (ValueError, KeyError) as e] of [import_json_data]. *)
Definition json_handler (workout_data : json) (e : exn) : option message :=
  match e with
  | ValueError => Some (Invalid_JSON_data workout_data ValueError_)
  | KeyError => Some (Invalid_JSON_data workout_data KeyError_)
  | _ => None
  end.

(** The body of the inner loop: one entry of ["exercises"]. *)
Definition import_json_exercise (workout : Workout.t) (exercise_data : json)
    (c : counts) : M counts :=
  exercise_name <- getitem exercise_data "exercise_name" ;;
  category <- dict_get exercise_data "category" (JStr "other") ;;
  sets <- dict_get exercise_data "sets" (JInt 1) ;;
  reps <- dict_get exercise_data "reps" (JInt 1) ;;
  weight <- dict_get exercise_data "weight" (JInt 0) ;;
  rest_time <- dict_get exercise_data "rest_time" (JInt 60) ;;
  notes <- dict_get exercise_data "notes" (JStr "") ;;
  exercise_name <- as_str exercise_name ;;
  category <- as_str category ;;
  sets <- as_int sets ;;
  reps <- as_int reps ;;
  weight <- as_float weight ;;
  rest_time <- as_int rest_time ;;
  notes <- as_str notes ;;
  Exercise_objects_create workout exercise_name category sets reps weight
    rest_time notes ;;;
  ret (add_exercise c).

(** The body of the outer loop: one entry of ["workouts"]. *)
Definition import_json_workout (user : User) (overwrite_existing : bool)
    (workout_data : json) (c : counts) : M counts :=
  try_except
    (date_field <- getitem workout_data "date" ;;
     date_field <- as_str date_field ;;
     workout_date <- or_raise ValueError (strptime date_field) ;;
     existing_workout <-
       (if negb overwrite_existing then
          name <- getitem workout_data "name" ;;
          name <- as_str name ;;
          Workout_filter_first user name workout_date
        else ret None) ;;
     if truth existing_workout && negb overwrite_existing
     then ret c
     else
       name <- getitem workout_data "name" ;;
       workout_type <- dict_get workout_data "workout_type" (JStr "other") ;;
       duration <- getitem workout_data "duration" ;;
       calories_burned <- dict_get workout_data "calories_burned" (JInt 0) ;;
       notes <- dict_get workout_data "notes" (JStr "") ;;
       name <- as_str name ;;
       workout_type <- as_str workout_type ;;
       duration <- as_int duration ;;
       calories_burned <- as_int calories_burned ;;
       notes <- as_str notes ;;
       created <-
         match existing_workout, overwrite_existing with
         | Some existing, true =>
             let updated :=
               set_fields existing name workout_type duration calories_burned
                 notes workout_date in
             Workout_save updated ;;;
             Workout_exercises_delete updated ;;;
             ret (updated, c)
         | _, _ =>
             workout <- Workout_objects_create user name workout_type duration
                          calories_burned notes workout_date ;;
             ret (workout, add_workout c)
         end ;;
       let '(workout, c1) := created in
       exercises_data <- dict_get workout_data "exercises" (JList []) ;;
       exercises_data <- iterate exercises_data ;;
       for_each (import_json_exercise workout) exercises_data c1)
    (json_handler workout_data).

(** [import_json_data] after [json.loads]: on the parsed document. *)
Definition import_json_document (user : User) (data : json)
    (overwrite_existing : bool) : M counts :=
  workouts_data <- dict_get data "workouts" (JList []) ;;
  workouts_data <- iterate workouts_data ;;
  for_each (import_json_workout user overwrite_existing) workouts_data
    (Counts 0 0).

(** [import_json_data(user, file_content, overwrite_existing)]. The file is
    given by what [json.loads] makes of it: [None] when it raises
    [JSONDecodeError]. *)
Definition import_json_data (user : User) (file_content : option json)
    (overwrite_existing : bool) : M counts :=
  match file_content with
  | None => raise (ValidationError Invalid_JSON_format)
  | Some data => import_json_document user data overwrite_existing
  end.

(** *** Structured text *)

(** The state of the loop of [import_text_data]. *)
Record text_state := TextState {
  current_workout : option Workout.t;
  tally : counts }.

(** [[part.strip() for part in s.split('|')]] *)
Definition parts_of (s : string) : list string := map strip (split "|" s).

(** [except (ValueError, IndexError) as e] of [import_text_data]. *)
Definition text_handler (line_num : nat) (e : exn) : option message :=
  match e with
  | ValueError => Some (Invalid_line_format line_num ValueError_)
  | IndexError => Some (Invalid_line_format line_num IndexError_)
  | _ => None
  end.

(** [parts[i]] *)
Definition item (parts : list string) (i : nat) : M string :=
  or_raise IndexError (parts !! i).

(** The branch of a line that starts with [WORKOUT:]. *)
Definition import_workout_line (user : User) (overwrite_existing : bool)
    (line_num : nat) (line : string) (st : text_state) : M text_state :=
  let workout_parts := parts_of (slice_from 8 line) in
  if (length workout_parts <? 4)%nat
  then raise (ValidationError (Workout_line_too_short line_num))
  else
    workout_name <- item workout_parts 0 ;;
    workout_type <- (if (1 <? length workout_parts)%nat
                     then item workout_parts 1 else ret "other") ;;
    date_field <- item workout_parts 2 ;;
    workout_date <- or_raise ValueError (strptime date_field) ;;
    duration_field <- item workout_parts 3 ;;
    duration <- or_raise ValueError (py_int duration_field) ;;
    calories <- (if (4 <? length workout_parts)%nat
                 then calories_field <- item workout_parts 4 ;;
                      or_raise ValueError (py_int calories_field)
                 else ret 0) ;;
    notes <- (if (5 <? length workout_parts)%nat
              then item workout_parts 5 else ret "") ;;
    existing_workout <-
      (if negb overwrite_existing
       then Workout_filter_first user workout_name workout_date
       else ret None) ;;
    match existing_workout, overwrite_existing with
    | Some existing, false => ret (TextState (Some existing) (tally st))
    | Some existing, true =>
        let updated :=
          set_fields existing workout_name workout_type duration calories
            notes workout_date in
        Workout_save updated ;;;
        Workout_exercises_delete updated ;;;
        ret (TextState (Some updated) (tally st))
    | None, _ =>
        workout <- Workout_objects_create user workout_name workout_type
                     duration calories notes workout_date ;;
        ret (TextState (Some workout) (add_workout (tally st)))
    end.

(** The branch of a line that starts with [EXERCISE:]. *)
Definition import_exercise_line (line_num : nat) (line : string)
    (st : text_state) : M text_state :=
  match current_workout st with
  | None => raise (ValidationError (Exercise_without_workout line_num))
  | Some workout =>
      let exercise_parts := parts_of (slice_from 9 line) in
      if (length exercise_parts <? 4)%nat
      then raise (ValidationError (Exercise_line_too_short line_num))
      else
        exercise_name <- item exercise_parts 0 ;;
        category <- (if (1 <? length exercise_parts)%nat
                     then item exercise_parts 1 else ret "other") ;;
        sets_field <- item exercise_parts 2 ;;
        sets <- or_raise ValueError (py_int sets_field) ;;
        reps_field <- item exercise_parts 3 ;;
        reps <- or_raise ValueError (py_int reps_field) ;;
        weight <- (if (4 <? length exercise_parts)%nat
                   then weight_field <- item exercise_parts 4 ;;
                        or_raise ValueError (py_float weight_field)
                   else ret (float_of_int 0)) ;;
        rest_time <- (if (5 <? length exercise_parts)%nat
                      then rest_field <- item exercise_parts 5 ;;
                           or_raise ValueError (py_int rest_field)
                      else ret 60) ;;
        notes <- (if (6 <? length exercise_parts)%nat
                  then item exercise_parts 6 else ret "") ;;
        Exercise_objects_create workout exercise_name category sets reps
          weight rest_time notes ;;;
        ret (TextState (Some workout) (add_exercise (tally st)))
  end.

(** The body of the loop of [import_text_data], on a numbered line. *)
Definition import_text_line (user : User) (overwrite_existing : bool)
    (numbered : nat * string) (st : text_state) : M text_state :=
  let line_num := fst numbered in
  let line := strip (snd numbered) in
  if bool_decide (line = "") || startswith line "#" then ret st
  else
    try_except
      (if startswith line "WORKOUT:"
       then import_workout_line user overwrite_existing line_num line st
       else if startswith line "EXERCISE:"
       then import_exercise_line line_num line st
       else ret st)
      (text_handler line_num).

(** [enumerate(xs, start)] *)
Fixpoint enumerate {A} (xs : list A) (start : nat) : list (nat * A) :=
  match xs with
  | [] => []
  | x :: xs' => (start, x) :: enumerate xs' (S start)
  end.

Definition newline : ascii := ascii_of_nat 10.

(** [import_text_data(user, file_content, overwrite_existing)] *)
Definition import_text_data (user : User) (file_content : string)
    (overwrite_existing : bool) : M counts :=
  let lines := split newline (strip file_content) in
  st <- for_each (import_text_line user overwrite_existing)
          (enumerate lines 1) (TextState None (Counts 0 0)) ;;
  ret (tally st).

(** *** The view [import_data]: choice of the importer *)

(** The uploaded file with its declared type, each as its importer reads
    it. *)
Inductive upload :=
| csv (csv_reader : list csv_row)
| json_file (loads : option json)
| txt (file_content : string).

(** The call that [import_data] makes for [file_type]. The view catches
    whatever is raised and shows it as a message; it undoes nothing. *)
Definition import_data (user : User) (data_file : upload)
    (overwrite_existing : bool) : M counts :=
  match data_file with
  | csv csv_reader => import_csv_data user csv_reader overwrite_existing
  | json_file loads => import_json_data user loads overwrite_existing
  | txt file_content => import_text_data user file_content overwrite_existing
  end.

(** *** Export *)

(** [export_json_data(workouts)]: the document handed to [json.dumps]. *)
Definition export_json_exercise (exercise : Exercise.t) : json :=
  JDict [("exercise_name", JStr (Exercise.exercise_name exercise));
         ("category", JStr (Exercise.category exercise));
         ("sets", JInt (Exercise.sets exercise));
         ("reps", JInt (Exercise.reps exercise));
         ("weight", JFloat (Exercise.weight exercise));
         ("rest_time", JInt (Exercise.rest_time exercise));
         ("notes", JStr (Exercise.notes exercise))].

Definition export_json_workout (db : Store) (workout : Workout.t) : json :=
  JDict [("name", JStr (Workout.name workout));
         ("date", JStr (strftime (Workout.date workout)));
         ("workout_type", JStr (Workout.workout_type workout));
         ("duration", JInt (Workout.duration workout));
         ("calories_burned", JInt (Workout.calories_burned workout));
         ("notes", JStr (Workout.notes workout));
         ("exercises", JList (map export_json_exercise (exercises_of db workout)))].

Definition export_json_data (db : Store) (workouts : list Workout.t) : json :=
  JDict [("workouts", JList (map (export_json_workout db) workouts))].

(** [export_csv_data(workouts)]: the rows handed to [csv.writer], the header
    first. *)
Definition csv_header : list string :=
  ["date"; "name"; "workout_type"; "duration"; "calories_burned"; "notes";
   "exercise_name"; "category"; "sets"; "reps"; "weight"; "rest_time";
   "exercise_notes"].

Definition csv_workout_fields (workout : Workout.t) : list string :=
  [strftime (Workout.date workout); Workout.name workout;
   Workout.workout_type workout; str_of_int (Workout.duration workout);
   str_of_int (Workout.calories_burned workout); Workout.notes workout].

Definition csv_exercise_fields (exercise : Exercise.t) : list string :=
  [Exercise.exercise_name exercise; Exercise.category exercise;
   str_of_int (Exercise.sets exercise); str_of_int (Exercise.reps exercise);
   str_of_float (Exercise.weight exercise);
   str_of_int (Exercise.rest_time exercise); Exercise.notes exercise].

Definition export_csv_workout (db : Store) (workout : Workout.t)
    : list (list string) :=
  match exercises_of db workout with
  | [] => [(csv_workout_fields workout ++ [""; ""; ""; ""; ""; ""; ""])%list]
  | exercises =>
      map (fun exercise =>
             (csv_workout_fields workout ++ csv_exercise_fields exercise)%list)
        exercises
  end.

Definition export_csv_data (db : Store) (workouts : list Workout.t)
    : list (list string) :=
  csv_header :: concat (map (export_csv_workout db) workouts).

(** [csv.DictReader] on the rows of a file: the first row gives the keys of
    the others, and rows without any field are skipped. *)
Definition dict_of_row (fieldnames row : list string) : csv_row :=
  fold_left (fun d kv => <[fst kv := snd kv]> d) (zip fieldnames row) ∅.

Definition DictReader (rows : list (list string)) : list csv_row :=
  match rows with
  | [] => []
  | fieldnames :: records =>
      map (dict_of_row fieldnames)
        (List.filter (fun r => negb (bool_decide (r = []))) records)
  end.

(** [export_text_data(workouts)]: the lines, then joined by line feeds. *)
Definition sep : string := " | ".

Definition export_text_exercise (exercise : Exercise.t) : string :=
  "EXERCISE: " +:+ Exercise.exercise_name exercise +:+ sep +:+
  Exercise.category exercise +:+ sep +:+
  str_of_int (Exercise.sets exercise) +:+ sep +:+
  str_of_int (Exercise.reps exercise) +:+ sep +:+
  str_of_float (Exercise.weight exercise) +:+ sep +:+
  str_of_int (Exercise.rest_time exercise) +:+
  (if bool_decide (Exercise.notes exercise = "") then ""
   else sep +:+ Exercise.notes exercise).

Definition export_text_workout (db : Store) (workout : Workout.t)
    : list string :=
  ("WORKOUT: " +:+ Workout.name workout +:+ sep +:+
   Workout.workout_type workout +:+ sep +:+
   strftime (Workout.date workout) +:+ sep +:+
   str_of_int (Workout.duration workout) +:+ sep +:+
   str_of_int (Workout.calories_burned workout) +:+
   (if bool_decide (Workout.notes workout = "") then ""
    else sep +:+ Workout.notes workout))
  :: (map export_text_exercise (exercises_of db workout) ++ [""])%list.

(** ['\n'.join(lines)] *)
Fixpoint join_lines (lines : list string) : string :=
  match lines with
  | [] => ""
  | [l] => l
  | l :: rest => l +:+ String newline (join_lines rest)
  end.

Definition export_text_data (db : Store) (workouts : list Workout.t) : string :=
  join_lines
    (["# Fitness Tracker Data Export";
      "# Format: WORKOUT: name | type | date | duration | calories | notes";
      "#         EXERCISE: name | category | sets | reps | weight | rest_time | notes";
      ""]
     ++ concat (map (export_text_workout db) workouts))%list.

(** The view [export_data]: the user's workouts in the requested format, as
    the importer of that format reads the file back. *)
Inductive file_type := csv_format | json_format | txt_format.

Definition export_data (db : Store) (user : User) (format : file_type) : upload :=
  let workouts := user_workouts db user in
  match format with
  | csv_format => csv (DictReader (export_csv_data db workouts))
  | json_format => json_file (Some (export_json_data db workouts))
  | txt_format => txt (export_text_data db workouts)
  end.

(** ** Notions used in the statements *)

(** A postcondition for database work: started in a store that satisfies
    [P], a returned value and the store it leaves satisfy [Q], and the store
    that an exception leaves satisfies [E]. *)
Definition triple {A} (P : Store -> Prop) (m : M A) (Q : A -> Store -> Prop)
    (E : Store -> Prop) : Prop :=
  forall db, P db ->
    match m db with
    | (db', Ok a) => Q a db'
    | (db', Raise _) => E db'
    end.

(** The loop over [xs] stops at an item: the items before it ran from [db]
    to [db1] without exception, and the body raised [e] on the item and left
    [db']. *)
Definition stops_at {X S} (body : X -> S -> M S) (xs : list X) (s0 : S)
    (db db' : Store) (e : exn) : Prop :=
  exists pre x post s1 db1,
    xs = (pre ++ x :: post)%list /\
    for_each body pre s0 db = (db1, Ok s1) /\
    body x s1 db1 = (db', Raise e).

(** The highest key of the workouts table. *)
Definition top_pk (db : Store) : nat :=
  max_list (map Workout.pk (fitness_workouts db)).

(** [db] is [db0] with rows added: the rows of [db0] come first in both
    tables, as they were, and what follows has workout keys that [db0] does
    not have, so that no added exercise belongs to a workout of [db0]. *)
Definition extends (db0 db : Store) : Prop :=
  exists ws es,
    fitness_workouts db = (fitness_workouts db0 ++ ws)%list /\
    fitness_exercises db = (fitness_exercises db0 ++ es)%list /\
    Forall (fun w => (top_pk db0 < Workout.pk w)%nat) ws /\
    Forall (fun e => (top_pk db0 < Exercise.workout e)%nat) es.

(** Some workout of [user] has this name and date. *)
Definition has_workout (db : Store) (user : User) (name : string)
    (date : pydate) : bool :=
  existsb (workout_matches user name date) (fitness_workouts db).

(** The row names a workout that [user] has in [db]. *)
Definition row_known (user : User) (db : Store) (row : csv_row) : Prop :=
  exists date_field d name,
    row !! "date" = Some date_field /\ strptime date_field = Some d /\
    row !! "name" = Some name /\ has_workout db user name d = true.

(** The columns of the tables that carry a CHECK constraint hold what it
    asks. *)
Definition workout_checked (w : Workout.t) : Prop :=
  0 <= Workout.duration w /\ 0 <= Workout.calories_burned w.

(** The line number that a diagnostic of the structured-text importer
    reports. *)
Definition line_number (m : message) : option nat :=
  match m with
  | Workout_line_too_short n | Exercise_without_workout n
  | Exercise_line_too_short n | Invalid_line_format n _ => Some n
  | _ => None
  end.

(** The fields that [import_text_data] reads from a line after its
    [WORKOUT:] marker: name, type, date, duration, calories and notes.
    [None] when the line has fewer than four fields or when the date, the
    duration or the calories do not convert. *)
Definition read_workout_line (line : string)
    : option (string * string * pydate * Z * Z * string) :=
  let parts := parts_of (slice_from 8 line) in
  if (length parts <? 4)%nat then None
  else
    name ← parts !! 0%nat;
    workout_type ← parts !! 1%nat;
    date_field ← parts !! 2%nat;
    d ← strptime date_field;
    duration_field ← parts !! 3%nat;
    duration ← py_int duration_field;
    calories ← (if (4 <? length parts)%nat
                 then parts !! 4%nat ≫= py_int else Some 0);
    notes ← (if (5 <? length parts)%nat then parts !! 5%nat else Some "");
    Some (name, workout_type, d, duration, calories, notes).

(** The fields read after an [EXERCISE:] marker: name, category, sets,
    reps, weight, rest time and notes. *)
Definition read_exercise_line (line : string)
    : option (string * string * Z * Z * pyfloat * Z * string) :=
  let parts := parts_of (slice_from 9 line) in
  if (length parts <? 4)%nat then None
  else
    name ← parts !! 0%nat;
    category ← parts !! 1%nat;
    sets_field ← parts !! 2%nat;
    sets ← py_int sets_field;
    reps_field ← parts !! 3%nat;
    reps ← py_int reps_field;
    weight ← (if (4 <? length parts)%nat
               then parts !! 4%nat ≫= py_float else Some (float_of_int 0));
    rest_time ← (if (5 <? length parts)%nat
                  then parts !! 5%nat ≫= py_int else Some 60);
    notes ← (if (6 <? length parts)%nat then parts !! 6%nat else Some "");
    Some (name, category, sets, reps, weight, rest_time, notes).

(** A line that carries a marker and is not a record the importer can
    read, given the workout that is active when the line is reached. *)
Definition malformed_record (active : option Workout.t) (line : string) : Prop :=
  (startswith line "WORKOUT:" = true /\ read_workout_line line = None) \/
  (startswith line "EXERCISE:" = true /\
   (active = None \/ read_exercise_line line = None)).

(** The lines of a payload as [import_text_data] numbers them. *)
Definition numbered_lines (file_content : string) : list (nat * string) :=
  enumerate (split newline (strip file_content)) 1.

(** One step of a computation whose tests and conversions are known: the
    binds, the indexing and the length tests are reduced. *)
Ltac run_read :=
  cbv beta iota delta [bind or_raise ret raise];
  cbn [lookup list_lookup length Nat.ltb Nat.leb mbind option_bind].

(** *** Sample data *)

Definition leg_day_row : csv_row :=
  list_to_map
    [("date", "2024-01-01"); ("name", "Leg Day"); ("workout_type", "strength");
     ("duration", "50"); ("calories_burned", "400"); ("notes", "");
     ("exercise_name", "Squat"); ("category", "legs"); ("sets", "3");
     ("reps", "10"); ("weight", "60.5"); ("rest_time", "90");
     ("exercise_notes", "")].

(** A row whose exercise columns do not convert, and a row without
    exercise. *)
Definition squat_row_bad_sets : csv_row :=
  list_to_map
    [("date", "2024-01-01"); ("name", "Leg Day"); ("workout_type", "strength");
     ("duration", "45"); ("calories_burned", "300"); ("notes", "");
     ("exercise_name", "Squat"); ("category", "legs"); ("sets", "three");
     ("reps", "10"); ("weight", "60"); ("rest_time", "90");
     ("exercise_notes", "")].

Definition run_row : csv_row :=
  list_to_map
    [("date", "2024-01-02"); ("name", "Morning Run"); ("workout_type", "cardio");
     ("duration", "30"); ("calories_burned", "0"); ("notes", "");
     ("exercise_name", ""); ("category", ""); ("sets", ""); ("reps", "");
     ("weight", ""); ("rest_time", ""); ("exercise_notes", "")].

(** A row with a date that is no date. *)
Definition bad_date_row : csv_row :=
  list_to_map
    [("date", "01/03/2024"); ("name", "Swim"); ("workout_type", "cardio");
     ("duration", "40"); ("calories_burned", "0"); ("notes", "");
     ("exercise_name", ""); ("category", ""); ("sets", ""); ("reps", "");
     ("weight", ""); ("rest_time", ""); ("exercise_notes", "")].

(** A document of two workouts, the second without its date. *)
Definition second_workout_undated : json :=
  JDict
    [("workouts",
      JList
        [JDict [("name", JStr "Leg Day"); ("date", JStr "2024-01-01");
                ("workout_type", JStr "strength"); ("duration", JInt 45)];
         JDict [("name", JStr "Swim"); ("duration", JInt 40)]])].

(** A row with 150 repetitions of a weighted exercise, and the same row for
    a bodyweight exercise. *)
Definition heavy_row : csv_row :=
  list_to_map
    [("date", "2024-01-01"); ("name", "Leg Day"); ("workout_type", "strength");
     ("duration", "45"); ("calories_burned", "300"); ("notes", "");
     ("exercise_name", "Squat"); ("category", "legs"); ("sets", "3");
     ("reps", "150"); ("weight", "10"); ("rest_time", "90");
     ("exercise_notes", "")].

Definition bodyweight_row : csv_row := <["weight" := "0"]> heavy_row.

(** The lines of a text payload, joined by line feeds. *)
Definition lines_of (lines : list string) : string :=
  String.concat (String newline EmptyString) lines.

(** A store in which user 1 has a workout "Leg Day" of 2024-01-01 with one
    exercise. *)
Definition leg_day_store : Store :=
  {| fitness_workouts :=
       [Workout.Build 1 1%nat "Leg Day" "strength" (Date 2024 1 1) 45 270 ""];
     fitness_exercises :=
       [Exercise.Build 1 1 "Squat" "legs" 3 10 (Float 60 0) 90 ""] |}.

(** ** Counting the exercises of a workout (models.py) *)

(** [Workout.get_exercise_count] *)
Definition get_exercise_count (db : Store) (self : Workout.t) : nat :=
  length (exercises_of db self).

(** [Workout.get_total_sets]: [sum] adds the sets to 0, from the left. *)
Definition get_total_sets (db : Store) (self : Workout.t) : Z :=
  fold_left Z.add (map Exercise.sets (exercises_of db self)) 0.

(** ** Milestones (signals.py)

    The two receivers of [post_save] that check milestones read the store
    and send a signal whose receiver prints; what is kept of them is whether
    the signal is sent, and with which values. *)

(** [user.workouts.count()] *)
Definition workouts_count (db : Store) (user : User) : nat :=
  length (List.filter (fun w => Nat.eqb (Workout.user w) user)
            (fitness_workouts db)).

Definition workout_milestones : list nat := [1; 5; 10; 25; 50; 100; 250; 500]%nat.

(** [check_workout_milestones]: the [milestone] that
    [workout_milestone_reached] is sent with, [None] when it is not sent. *)
Definition check_workout_milestones (db : Store) (instance : Workout.t)
    (created : bool) : option nat :=
  if created then
    let total_workouts := workouts_count db (Workout.user instance) in
    if existsb (Nat.eqb total_workouts) workout_milestones
    then Some total_workouts
    else None
  else None.

(** [user.workouts.aggregate(total=Sum('calories_burned'))['total'] or 0]:
    the sum is [None] over no row, and 0 then. *)
Definition total_calories (db : Store) (user : User) : Z :=
  fold_left Z.add
    (map Workout.calories_burned
       (List.filter (fun w => Nat.eqb (Workout.user w) user)
          (fitness_workouts db)))
    0.

Definition calorie_milestones : list Z :=
  [1000; 5000; 10000; 25000; 50000; 100000].

(** The loop of [check_calories_milestones]: the milestones are gone
    through in order, up to the first that the total has not reached. *)
Fixpoint highest_reached (total_calories : Z) (reached_milestone : option Z)
    (milestones : list Z) : option Z :=
  match milestones with
  | [] => reached_milestone
  | milestone :: rest =>
      if milestone <=? total_calories
      then highest_reached total_calories (Some milestone) rest
      else reached_milestone
  end.

(** [check_calories_milestones]: the [milestone] and [total_calories] that
    [calories_milestone_reached] is sent with, [None] when it is not sent.
    [instance.calories_burned] is the value of the instance in memory, which
    the receiver that fills the calories in does not change. *)
Definition check_calories_milestones (db : Store) (instance : Workout.t)
    (created : bool) : option (Z * Z) :=
  if created && (0 <? Workout.calories_burned instance) then
    let total := total_calories db (Workout.user instance) in
    match highest_reached total None calorie_milestones with
    | Some reached_milestone =>
        if reached_milestone =? 0 then None
        else
          let previous_total := total - Workout.calories_burned instance in
          if previous_total <? reached_milestone
          then Some (reached_milestone, total)
          else None
    | None => None
    end
  else None.

(** ** The store as a whole *)

(** The keys of the workouts table. *)
Definition keys (db : Store) : list nat := map Workout.pk (fitness_workouts db).

(** The row that [save] leaves for an instance: calories of 0 are replaced
    by what [auto_calculate_calories] estimates. *)
Definition stored_row (w : Workout.t) : Workout.t :=
  Workout.Build (Workout.pk w) (Workout.user w) (Workout.name w)
    (Workout.workout_type w) (Workout.date w) (Workout.duration w)
    (if Workout.calories_burned w =? 0
     then int_of_product (Workout.duration w) (rate_for (Workout.workout_type w))
     else Workout.calories_burned w)
    (Workout.notes w).

(** A row is put into the table under its key: in the place of the row
    that has the key, or at the end. *)
Definition upsert (row : Workout.t) (rows : list Workout.t) : list Workout.t :=
  if existsb (fun w => Nat.eqb (Workout.pk w) (Workout.pk row)) rows
  then map (fun w => if Nat.eqb (Workout.pk w) (Workout.pk row) then row else w)
         rows
  else (rows ++ [row])%list.

Definition exercise_checked (e : Exercise.t) : Prop :=
  0 <= Exercise.sets e /\ 0 <= Exercise.reps e /\ 0 <= Exercise.rest_time e.

(** What the database and [save] make of the two tables: keys are unique,
    every exercise belongs to a workout of the table, the columns with a
    CHECK constraint are not negative, and no row is left with calories of 0
    that the receiver of [post_save] would replace. *)
Record integrity (db : Store) : Prop := Integrity {
  workout_keys : NoDup (keys db);
  exercise_keys : NoDup (map Exercise.pk (fitness_exercises db));
  foreign_keys :
    Forall (fun e => In (Exercise.workout e) (keys db)) (fitness_exercises db);
  workout_checks : Forall workout_checked (fitness_workouts db);
  exercise_checks : Forall exercise_checked (fitness_exercises db);
  calories_filled : Forall (fun w => stored_row w = w) (fitness_workouts db) }.

(** [db] is [db0] with rows added for [user]: the rows of [db0] come first
    in both tables, as they were; the workouts that follow are workouts of
    [user], and the exercises that follow belong to workouts of [user]. *)
Definition adds_for (user : User) (db0 db : Store) : Prop :=
  exists ws es,
    fitness_workouts db = (fitness_workouts db0 ++ ws)%list /\
    fitness_exercises db = (fitness_exercises db0 ++ es)%list /\
    Forall (fun w => Workout.user w = user) ws /\
    Forall (fun e => exists w, In w (fitness_workouts db) /\
                               Workout.pk w = Exercise.workout e /\
                               Workout.user w = user) es.

(** The active workout of the structured-text importer satisfies [K]. *)
Definition current_ok (K : Workout.t -> Store -> Prop) (st : text_state)
    (db : Store) : Prop :=
  forall w, current_workout st = Some w -> K w db.

(** ** Copies of records *)

(** [c in s] for a character. *)
Fixpoint has_char (c : ascii) (s : string) : bool :=
  match s with
  | EmptyString => false
  | String a s' => Ascii.eqb a c || has_char c s'
  end.

(** The date is one of the calendar, as [datetime.date] has them, in a year
    of four digits ([strftime] writes [%Y] with four digits for these years
    on every platform). *)
Definition dated (w : Workout.t) : Prop :=
  valid_date (year (Workout.date w)) (month (Workout.date w))
    (day (Workout.date w)) = true /\
  1000 <= year (Workout.date w).

(** The name and the date by which the importers look a workout up. *)
Definition name_and_date (w : Workout.t) : string * pydate :=
  (Workout.name w, Workout.date w).

(** What [overwrite_existing] off asks of workouts for all of them to be
    created: no two have the same name and date, and [user] has none of
    that name and date in [db]. *)
Definition all_new (db : Store) (user : User) (workouts : list Workout.t)
    : Prop :=
  NoDup (map name_and_date workouts) /\
  Forall (fun w => has_workout db user (Workout.name w) (Workout.date w) = false)
    workouts.

(** The scalar fields of [w'] are those of [w]. *)
Definition same_workout (w w' : Workout.t) : Prop :=
  Workout.name w' = Workout.name w /\
  Workout.workout_type w' = Workout.workout_type w /\
  Workout.date w' = Workout.date w /\
  Workout.duration w' = Workout.duration w /\
  Workout.calories_burned w' = Workout.calories_burned w /\
  Workout.notes w' = Workout.notes w.

Definition same_exercise (e e' : Exercise.t) : Prop :=
  Exercise.exercise_name e' = Exercise.exercise_name e /\
  Exercise.category e' = Exercise.category e /\
  Exercise.sets e' = Exercise.sets e /\
  Exercise.reps e' = Exercise.reps e /\
  Exercise.weight e' = Exercise.weight e /\
  Exercise.rest_time e' = Exercise.rest_time e /\
  Exercise.notes e' = Exercise.notes e.

(** The rows that are written when the exercises [es] are created again,
    in order, for the workout of key [workout], the first under the key
    [pk]. *)
Fixpoint copy_exercises (pk workout : nat) (es : list Exercise.t)
    : list Exercise.t :=
  match es with
  | [] => []
  | e :: es' =>
      Exercise.Build pk workout (Exercise.exercise_name e) (Exercise.category e)
        (Exercise.sets e) (Exercise.reps e) (Exercise.weight e)
        (Exercise.rest_time e) (Exercise.notes e)
      :: copy_exercises (S pk) workout es'
  end.

(** The store after a workout with the fields of [w] was created for
    [user], and then exercises with the fields of [es]. *)
Definition copied_store (user : User) (w : Workout.t) (es : list Exercise.t)
    (db : Store) : Store :=
  let key := next_pk (keys db) in
  {| fitness_workouts :=
       fitness_workouts db ++
       [Workout.Build key user (Workout.name w) (Workout.workout_type w)
          (Workout.date w) (Workout.duration w)
          (Workout.calories_burned (stored_row w)) (Workout.notes w)];
     fitness_exercises :=
       fitness_exercises db ++
       copy_exercises (next_pk (map Exercise.pk (fitness_exercises db))) key es |}.

(** [w'], in [db'], is a copy of [w], in [db], for the user [user]: it is a
    workout of [user] with the scalar fields of [w] and, in order,
    exercises with the fields of the exercises of [w]. *)
Definition copy_of (db db' : Store) (user : User) (w w' : Workout.t) : Prop :=
  Workout.user w' = user /\ same_workout w w' /\
  Forall2 same_exercise (exercises_of db w) (exercises_of db' w').

(** The same, for a workout of which the exercises [es] are copied. *)
Definition copy_with (es : list Exercise.t) (db' : Store) (user : User)
    (w w' : Workout.t) : Prop :=
  Workout.user w' = user /\ same_workout w w' /\
  Forall2 same_exercise es (exercises_of db' w').

(** The exercises of a workout that the importer of CSV reads from the rows
    of the workout: the first, when it has a name. *)
Definition csv_kept (db : Store) (w : Workout.t) : list Exercise.t :=
  match exercises_of db w with
  | e :: _ => if bool_decide (Exercise.exercise_name e = "") then [] else [e]
  | [] => []
  end.

(** The workout and its exercises, created one after the other, as each
    importer does for the records that it reads. *)
Definition create_exercise_again (instance : Workout.t) (e : Exercise.t)
    (c : counts) : M counts :=
  Exercise_objects_create instance (Exercise.exercise_name e)
    (Exercise.category e) (Exercise.sets e) (Exercise.reps e)
    (Exercise.weight e) (Exercise.rest_time e) (Exercise.notes e) ;;;
  ret (add_exercise c).

Definition create_again (user : User) (w : Workout.t) (es : list Exercise.t)
    (c : counts) : M counts :=
  instance <- Workout_objects_create user (Workout.name w)
                (Workout.workout_type w) (Workout.duration w)
                (Workout.calories_burned w) (Workout.notes w) (Workout.date w) ;;
  for_each (create_exercise_again instance) es (add_workout c).

(** ** Numbers as they are written *)

(** Every character of [s] satisfies [p]. *)
Fixpoint only (p : ascii -> bool) (s : string) : bool :=
  match s with
  | EmptyString => true
  | String c s' => p c && only p s'
  end.

(** The number that decimal digits stand for, read from the left onto
    [acc]. *)
Fixpoint uint_value (acc : Z) (u : Decimal.uint) : Z :=
  match u with
  | Decimal.Nil => acc
  | Decimal.D0 u' => uint_value (10 * acc + 0) u'
  | Decimal.D1 u' => uint_value (10 * acc + 1) u'
  | Decimal.D2 u' => uint_value (10 * acc + 2) u'
  | Decimal.D3 u' => uint_value (10 * acc + 3) u'
  | Decimal.D4 u' => uint_value (10 * acc + 4) u'
  | Decimal.D5 u' => uint_value (10 * acc + 5) u'
  | Decimal.D6 u' => uint_value (10 * acc + 6) u'
  | Decimal.D7 u' => uint_value (10 * acc + 7) u'
  | Decimal.D8 u' => uint_value (10 * acc + 8) u'
  | Decimal.D9 u' => uint_value (10 * acc + 9) u'
  end.

(** A float that [str] writes in positional notation and that is read back
    as it is: in normal form, with at most four decimals and fewer than 16
    digits. *)
Definition plain (x : pyfloat) : Prop :=
  float_norm (digits x) (places x) = x /\
  (places x <= 4)%nat /\ Z.abs (digits x) < 10 ^ 15.

(** A field of a line of the structured text that is read back as it is:
    no white space at its ends, no [|] and no line feed. *)
Definition clean (s : string) : Prop :=
  strip s = s /\ has_char "|" s = false /\ has_char newline s = false.

(** The characters of the numbers and dates that the exporters write. *)
Definition numeric (c : ascii) : bool :=
  is_digit c || Ascii.eqb c "-" || Ascii.eqb c ".".

(** ** Lines as they are written *)

(** The fields of a line of the structured text as [export_text_data] lays
    them out after the marker: a space before each, and [ |] between
    two. *)
Fixpoint padded_fields (fields : list string) : string :=
  match fields with
  | [] => ""
  | [f] => " " +:+ f
  | f :: rest => " " +:+ f +:+ " |" +:+ padded_fields rest
  end.

(** The lines that [export_text_data] writes before the workouts. *)
Definition text_header : list string :=
  ["# Fitness Tracker Data Export";
   "# Format: WORKOUT: name | type | date | duration | calories | notes";
   "#         EXERCISE: name | category | sets | reps | weight | rest_time | notes";
   ""].

(** The texts of a workout, and the texts and the weight of an exercise,
    are read back from a line as they are. *)
Definition writable (w : Workout.t) : Prop :=
  clean (Workout.name w) /\ clean (Workout.workout_type w) /\
  clean (Workout.notes w).

Definition writable_exercise (e : Exercise.t) : Prop :=
  clean (Exercise.exercise_name e) /\ clean (Exercise.category e) /\
  clean (Exercise.notes e) /\ plain (Exercise.weight e).

(** The fields that [export_text_data] writes for a workout and for an
    exercise; the notes only when there are some. *)
Definition workout_fields (w : Workout.t) : list string :=
  [Workout.name w; Workout.workout_type w; strftime (Workout.date w);
   str_of_int (Workout.duration w); str_of_int (Workout.calories_burned w)]
  ++ (if bool_decide (Workout.notes w = "") then [] else [Workout.notes w]).

Definition exercise_fields (e : Exercise.t) : list string :=
  [Exercise.exercise_name e; Exercise.category e;
   str_of_int (Exercise.sets e); str_of_int (Exercise.reps e);
   str_of_float (Exercise.weight e); str_of_int (Exercise.rest_time e)]
  ++ (if bool_decide (Exercise.notes e = "") then [] else [Exercise.notes e]).

(** ** Records of the CSV file *)

(** The record holds the fields of the workout [w]. *)
Definition record_of_workout (row : csv_row) (w : Workout.t) : Prop :=
  row !! "date" = Some (strftime (Workout.date w)) /\
  row !! "name" = Some (Workout.name w) /\
  row !! "workout_type" = Some (Workout.workout_type w) /\
  row !! "duration" = Some (str_of_int (Workout.duration w)) /\
  row !! "calories_burned" = Some (str_of_int (Workout.calories_burned w)) /\
  row !! "notes" = Some (Workout.notes w).

(** The record holds the fields of the exercise [e]. *)
Definition record_of_exercise (row : csv_row) (e : Exercise.t) : Prop :=
  row !! "exercise_name" = Some (Exercise.exercise_name e) /\
  row !! "category" = Some (Exercise.category e) /\
  row !! "sets" = Some (str_of_int (Exercise.sets e)) /\
  row !! "reps" = Some (str_of_int (Exercise.reps e)) /\
  row !! "weight" = Some (str_of_float (Exercise.weight e)) /\
  row !! "rest_time" = Some (str_of_int (Exercise.rest_time e)) /\
  row !! "exercise_notes" = Some (Exercise.notes e).

(** ** The totals of the dashboard (views.py) *)

(** The exercise belongs to a workout of [user]: the condition
    [workout__user=user] of a query on the exercises. *)
Definition owned_by (db : Store) (user : User) (e : Exercise.t) : bool :=
  existsb (fun w => Nat.eqb (Workout.pk w) (Exercise.workout e) &&
                    Nat.eqb (Workout.user w) user)
    (fitness_workouts db).

(** [total_workouts] and [total_exercises] of [dashboard]:
    [user.workouts.count()] and
    [Exercise.objects.filter(workout__user=user).count()]. *)
Definition total_workouts (db : Store) (user : User) : nat :=
  workouts_count db user.

Definition total_exercises (db : Store) (user : User) : nat :=
  length (List.filter (owned_by db user) (fitness_exercises db)).

(** ** Entries of a document that name a workout of the store *)

(** The entry is an object whose date and name are those of a workout
    that [user] has in [db]. *)
Definition json_known (user : User) (db : Store) (workout_data : json) : Prop :=
  exists fields date_field d name,
    workout_data = JDict fields /\
    dict_lookup "date" fields = Some (JStr date_field) /\
    strptime date_field = Some d /\
    dict_lookup "name" fields = Some (JStr name) /\
    has_workout db user name d = true.

(** *** More sample data *)

(** A text payload of two workouts, the first with two exercises. *)
Definition two_workouts_text : string :=
  lines_of ["WORKOUT: Leg Day | strength | 2024-01-01 | 50 | 400";
            "EXERCISE: Squat | legs | 3 | 10 | 60.5 | 90";
            "EXERCISE: Lunge | legs | 3 | 12";
            "WORKOUT: Morning Run | cardio | 2024-01-02 | 30"].

(** A store of two users: "Leg Day" of user 1 and "Swim" of user 2, each
    with one exercise. *)
Definition two_users_store : Store :=
  {| fitness_workouts :=
       [Workout.Build 1 1%nat "Leg Day" "strength" (Date 2024 1 1) 45 270 "";
        Workout.Build 2 2%nat "Swim" "cardio" (Date 2024 1 3) 40 320 "easy"];
     fitness_exercises :=
       [Exercise.Build 1 1 "Squat" "legs" 3 10 (Float 60 0) 90 "";
        Exercise.Build 2 2 "Crawl" "cardio" 4 1 (Float 0 0) 30 ""] |}.

(** The journal of user 1: two workouts, the first with notes and with two
    exercises, one of them with a weight of 72.5. *)
Definition journal_store : Store :=
  {| fitness_workouts :=
       [Workout.Build 1 1%nat "Leg Day" "strength" (Date 2024 1 1) 45 270
          "felt strong";
        Workout.Build 2 1%nat "Morning Run" "cardio" (Date 2024 1 2) 30 240 ""];
     fitness_exercises :=
       [Exercise.Build 1 1 "Squat" "legs" 3 10 (Float 725 1) 90 "slow";
        Exercise.Build 2 1 "Lunge" "legs" 3 12 (Float 0 0) 60 ""] |}.

(** The integrity of a store that is written out: every condition is
    evaluated on its rows. *)
Ltac sound_store :=
  split; cbn;
  [ apply (bool_decide_unpack _); vm_compute; exact I
  | apply (bool_decide_unpack _); vm_compute; exact I
  | repeat (apply Forall_cons_2 || apply Forall_nil_2); cbn; auto
  | repeat (apply Forall_cons_2 || apply Forall_nil_2); split; cbn; lia
  | repeat (apply Forall_cons_2 || apply Forall_nil_2); repeat split; cbn; lia
  | repeat (apply Forall_cons_2 || apply Forall_nil_2); reflexivity ].

(** * Checks on sample inputs *)

Example py_int_samples :
  py_int " 30 " = Some 30 /\ py_int "-5" = Some (-5) /\ py_int "1_000" = Some 1000 /\
  py_int "" = None /\ py_int "abc" = None /\ py_int "1__0" = None /\ py_int "3.5" = None.
Proof. vm_compute. repeat split. Qed.

Example py_float_samples :
  py_float "10" = Some (Float 10 0) /\ py_float "10.0" = Some (Float 10 0) /\
  py_float "72.50" = Some (Float 725 1) /\ py_float ".5" = Some (Float 5 1) /\
  py_float "-2.25" = Some (Float (-225) 2) /\ py_float "." = None /\
  py_float "" = None /\ py_float "x" = None.
Proof. vm_compute. repeat split. Qed.

Example str_samples :
  str_of_float (Float 10 0) = "10.0" /\ str_of_float (Float 725 1) = "72.5" /\
  str_of_float (Float 5 2) = "0.05" /\ str_of_int 240 = "240" /\
  strftime (Date 2024 1 1) = "2024-01-01".
Proof. vm_compute. repeat split. Qed.

Example strptime_samples :
  strptime "2024-01-01" = Some (Date 2024 1 1) /\
  strptime "2024-1-5" = Some (Date 2024 1 5) /\
  strptime "2024-02-29" = Some (Date 2024 2 29) /\
  strptime "2023-02-29" = None /\ strptime "2024-13-01" = None /\
  strptime "24-01-01" = None /\ strptime "2024/01/01" = None /\
  strptime "2024-01-01 " = None.
Proof. vm_compute. repeat split. Qed.

Example split_strip_samples :
  split "|" " a | b |c" = [" a "; " b "; "c"] /\ split "|" "" = [""] /\
  strip "  x y  " = "x y" /\ strip "   " = "" /\
  startswith "WORKOUT: a" "WORKOUT:" = true /\ slice_from 8 "WORKOUT: a" = " a".
Proof. vm_compute. repeat split. Qed.

(** The scenario of the specification: one workout line and one exercise
    line, imported into an empty store. *)
Example morning_run_scenario :
  import_text_data 1%nat
    (lines_of ["WORKOUT: Morning Run | cardio | 2024-01-01 | 30 | 300";
               "EXERCISE: Running | cardio | 1 | 1 | 0 | 0"; ""])
    false empty_store =
  ({| fitness_workouts :=
        [Workout.Build 1 1%nat "Morning Run" "cardio" (Date 2024 1 1) 30 300 ""];
      fitness_exercises :=
        [Exercise.Build 1 1 "Running" "cardio" 1 1 (Float 0 0) 0 ""] |},
   Ok (Counts 1 1)).
Proof. vm_compute. reflexivity. Qed.

(** The order of an export: newest date first, and the newer of two rows of
    one date first. *)
Example export_order :
  map Workout.pk
    (user_workouts
       {| fitness_workouts :=
            [Workout.Build 1 1%nat "a" "other" (Date 2024 1 2) 10 50 "";
             Workout.Build 2 1%nat "b" "other" (Date 2024 1 1) 10 50 "";
             Workout.Build 3 2%nat "c" "other" (Date 2024 1 3) 10 50 "";
             Workout.Build 4 1%nat "d" "other" (Date 2024 1 2) 10 50 "";
             Workout.Build 5 1%nat "e" "other" (Date 2024 1 3) 10 50 ""];
          fitness_exercises := [] |} 1%nat) =
  [5; 4; 1; 2]%nat.
Proof. vm_compute. reflexivity. Qed.

(** What the three exporters write for a workout with one exercise. *)
Example export_samples :
  export_text_data leg_day_store (user_workouts leg_day_store 1%nat) =
    lines_of
      ["# Fitness Tracker Data Export";
       "# Format: WORKOUT: name | type | date | duration | calories | notes";
       "#         EXERCISE: name | category | sets | reps | weight | rest_time | notes";
       "";
       "WORKOUT: Leg Day | strength | 2024-01-01 | 45 | 270";
       "EXERCISE: Squat | legs | 3 | 10 | 60.0 | 90";
       ""] /\
  export_csv_data leg_day_store (user_workouts leg_day_store 1%nat) =
    [csv_header;
     ["2024-01-01"; "Leg Day"; "strength"; "45"; "270"; "";
      "Squat"; "legs"; "3"; "10"; "60.0"; "90"; ""]].
Proof. vm_compute. split; reflexivity. Qed.

(** * Reasoning about database work *)

Section Monad.
Context {A B : Type}.

Lemma bind_ok (m : M A) (k : A -> M B) db db' a :
  m db = (db', Ok a) -> bind m k db = k a db'.
Proof. intros H. unfold bind. now rewrite H. Qed.

Lemma bind_raise (m : M A) (k : A -> M B) db db' e :
  m db = (db', Raise e) -> bind m k db = (db', Raise e).
Proof. intros H. unfold bind. now rewrite H. Qed.

Lemma bind_inv (m : M A) (k : A -> M B) db db2 r :
  bind m k db = (db2, r) ->
  (exists db1 a, m db = (db1, Ok a) /\ k a db1 = (db2, r)) \/
  (exists e, m db = (db2, Raise e) /\ r = Raise e).
Proof.
  unfold bind. destruct (m db) as [db1 [a|e]]; intros H.
  - left. eauto.
  - right. inversion H; subst. eauto.
Qed.

End Monad.

Lemma or_raise_some {A} (e : exn) (o : option A) (a : A) db :
  o = Some a -> or_raise e o db = (db, Ok a).
Proof. now intros ->. Qed.

Lemma or_raise_none {A} (e : exn) (o : option A) db :
  o = None -> or_raise e o db = (db, @Raise A e).
Proof. now intros ->. Qed.

(** *** Loops *)

Section Loops.
Context {X S : Type} (body : X -> S -> M S).

Lemma for_each_app (xs ys : list X) (s : S) (db : Store) :
  for_each body (xs ++ ys) s db =
  match for_each body xs s db with
  | (db1, Ok s1) => for_each body ys s1 db1
  | (db1, Raise e) => (db1, Raise e)
  end.
Proof.
  revert s db. induction xs as [|x xs IH]; intros s db; simpl.
  - reflexivity.
  - unfold bind. destruct (body x s db) as [db1 [s1|e]]; [apply IH | reflexivity].
Qed.

(** A loop that raises has run a prefix of its items and stopped in the
    item that follows. *)
Lemma for_each_stops (xs : list X) (s : S) (db db' : Store) (e : exn) :
  for_each body xs s db = (db', Raise e) -> stops_at body xs s db db' e.
Proof.
  revert s db. induction xs as [|x xs IH]; intros s db H; simpl in H.
  - discriminate.
  - apply bind_inv in H as [(db1 & s1 & Hx & Hrest) | (e' & Hx & He)].
    + destruct (IH _ _ Hrest) as (pre & y & post & s2 & db2 & -> & Hpre & Hy).
      exists (x :: pre), y, post, s2, db2. repeat split; trivial.
      simpl. now rewrite (bind_ok _ _ _ _ _ Hx).
    + inversion He; subst e'. exists [], x, xs, s, db. now repeat split.
Qed.

(** The converse: a prefix that runs and an item that raises make the loop
    raise there. *)
Lemma stops_for_each (pre post : list X) (x : X) (s s1 : S)
    (db db1 db' : Store) (e : exn) :
  for_each body pre s db = (db1, Ok s1) ->
  body x s1 db1 = (db', Raise e) ->
  for_each body (pre ++ x :: post) s db = (db', Raise e).
Proof.
  intros Hpre Hx. rewrite for_each_app, Hpre. simpl.
  now apply bind_raise.
Qed.

End Loops.

(** *** Rules for postconditions *)

Section Triples.
Context {A : Type}.
Implicit Types (P E : Store -> Prop) (Q : A -> Store -> Prop).

Lemma triple_ret P Q E (a : A) :
  (forall db, P db -> Q a db) -> triple P (ret a) Q E.
Proof. intros H db HP. now apply H. Qed.

Lemma triple_raise P Q E (e : exn) :
  (forall db, P db -> E db) -> triple P (@raise A e) Q E.
Proof. intros H db HP. now apply H. Qed.

Lemma triple_or_raise P Q E (e : exn) (o : option A) :
  (forall db, P db -> E db) ->
  (forall a db, o = Some a -> P db -> Q a db) ->
  triple P (or_raise e o) Q E.
Proof.
  intros HE HQ. destruct o as [a|]; simpl.
  - apply triple_ret. intros. now apply HQ.
  - now apply triple_raise.
Qed.

Lemma triple_bind {B} P (R : B -> Store -> Prop) Q E (m : M B) (k : B -> M A) :
  triple P m R E -> (forall b, triple (R b) (k b) Q E) ->
  triple P (bind m k) Q E.
Proof.
  intros Hm Hk db HP. specialize (Hm db HP). unfold bind.
  destruct (m db) as [db1 [b|e]]; [now apply Hk | exact Hm].
Qed.

Lemma triple_try P Q E (body : M A) (handler : exn -> option message) :
  triple P body Q E -> triple P (try_except body handler) Q E.
Proof.
  intros H db HP. specialize (H db HP). unfold try_except.
  destruct (body db) as [db1 [a|e]]; [exact H |].
  now destruct (handler e).
Qed.

Lemma triple_weaken P P' Q Q' E E' (m : M A) :
  triple P' m Q' E' ->
  (forall db, P db -> P' db) ->
  (forall a db, Q' a db -> Q a db) ->
  (forall db, E' db -> E db) ->
  triple P m Q E.
Proof.
  intros H HP HQ HE db Hdb. specialize (H db (HP db Hdb)).
  destruct (m db) as [db1 [a|e]]; auto.
Qed.

End Triples.

(** The invariant rule for loops. *)
Lemma triple_for_each {X S} (I : S -> Store -> Prop) (E : Store -> Prop)
    (body : X -> S -> M S) (xs : list X) :
  (forall x s, In x xs -> triple (I s) (body x s) I E) ->
  forall s, triple (I s) (for_each body xs s) I E.
Proof.
  induction xs as [|x xs IH]; intros Hbody s; simpl.
  - now apply triple_ret.
  - eapply triple_bind.
    + apply Hbody. now left.
    + intros s'. apply IH. intros y s2 Hy. apply Hbody. now right.
Qed.

(** * The store under the ORM calls *)

Lemma max_list_app_max (l1 l2 : list nat) :
  max_list (l1 ++ l2) = Nat.max (max_list l1) (max_list l2).
Proof.
  induction l1 as [|x l1 IH]; simpl; [reflexivity | rewrite IH; lia].
Qed.

Lemma pk_le_top (db : Store) (w : Workout.t) :
  In w (fitness_workouts db) -> (Workout.pk w <= top_pk db)%nat.
Proof.
  intros Hw. unfold top_pk. apply max_list_elem_of_le.
  apply list_elem_of_In, in_map, Hw.
Qed.

Lemma next_pk_fresh (db : Store) (w : Workout.t) :
  In w (fitness_workouts db) ->
  Nat.eqb (Workout.pk w) (next_pk (map Workout.pk (fitness_workouts db))) = false.
Proof.
  intros Hw. apply pk_le_top in Hw. apply Nat.eqb_neq.
  unfold next_pk, top_pk in *. lia.
Qed.

Lemma map_unchanged {T} (f : T -> T) (l : list T) :
  (forall x, In x l -> f x = x) -> map f l = l.
Proof.
  induction l as [|x l IH]; intros H; simpl; [reflexivity |].
  rewrite H by now left. f_equal. apply IH. intros y Hy. apply H. now right.
Qed.

Lemma existsb_pk_fresh (db : Store) (p : nat) :
  (top_pk db < p)%nat ->
  existsb (fun w => Nat.eqb (Workout.pk w) p) (fitness_workouts db) = false.
Proof.
  intros Hp. apply not_true_is_false. intros H.
  apply existsb_exists in H as (w & Hw & Heq).
  apply Nat.eqb_eq in Heq. apply pk_le_top in Hw. lia.
Qed.

(** *** Stores that only grow *)

Lemma extends_refl (db : Store) : extends db db.
Proof.
  exists [], []. now rewrite !app_nil_r.
Qed.

Lemma extends_top (db0 db : Store) :
  extends db0 db -> (top_pk db0 <= top_pk db)%nat.
Proof.
  intros (ws & es & Hw & _). unfold top_pk. rewrite Hw, map_app, max_list_app_max. lia.
Qed.

Lemma extends_trans (db0 db1 db2 : Store) :
  extends db0 db1 -> extends db1 db2 -> extends db0 db2.
Proof.
  intros H01 H12. pose proof (extends_top _ _ H01) as Htop.
  destruct H01 as (ws & es & Hw & He & Fw & Fe).
  destruct H12 as (ws' & es' & Hw' & He' & Fw' & Fe').
  exists (ws ++ ws')%list, (es ++ es')%list.
  rewrite Hw', He', Hw, He, <- !app_assoc. repeat split; trivial.
  - apply Forall_app. split; [exact Fw |].
    eapply Forall_impl; [exact Fw' |]. simpl. intros; lia.
  - apply Forall_app. split; [exact Fe |].
    eapply Forall_impl; [exact Fe' |]. simpl. intros; lia.
Qed.

(** The exercises of a workout of [db0] are the same in a store that
    extends it. *)
Lemma extends_exercises_of (db0 db : Store) (w : Workout.t) :
  extends db0 db -> In w (fitness_workouts db0) ->
  exercises_of db w = exercises_of db0 w.
Proof.
  intros (ws & es & _ & He & _ & Fe) Hw. unfold exercises_of.
  rewrite He, List.filter_app.
  replace (List.filter _ es) with (@nil Exercise.t); [now rewrite app_nil_r |].
  symmetry. apply pk_le_top in Hw. clear He.
  induction Fe as [|e es' Hlt _ IH]; simpl; [reflexivity |].
  destruct (Nat.eqb_spec (Exercise.workout e) (Workout.pk w)); [lia | exact IH].
Qed.

Lemma extends_has_workout (db0 db : Store) user name d :
  extends db0 db -> has_workout db0 user name d = true ->
  has_workout db user name d = true.
Proof.
  intros (ws & _ & Hw & _) H. unfold has_workout in *.
  rewrite Hw, existsb_app, H. reflexivity.
Qed.

(** A row of a key above those of [db0] is written. *)
Lemma write_workout_extends (db0 db : Store) (instance : Workout.t) :
  (top_pk db0 < Workout.pk instance)%nat ->
  extends db0 db -> extends db0 (fst (write_workout instance db)).
Proof.
  intros Hpk (ws & es & Hw & He & Fw & Fe). unfold write_workout.
  destruct (existsb _ _); simpl.
  - exists (map (fun w => if Nat.eqb (Workout.pk w) (Workout.pk instance)
                          then instance else w) ws), es.
    repeat split; trivial.
    + rewrite Hw, map_app. simpl. f_equal. apply map_unchanged.
      intros w Hin. apply pk_le_top in Hin.
      destruct (Nat.eqb_spec (Workout.pk w) (Workout.pk instance)); [lia | reflexivity].
    + apply Forall_map. eapply Forall_impl; [exact Fw |]. simpl. intros w Hlt.
      now destruct (Nat.eqb (Workout.pk w) (Workout.pk instance)).
  - exists (ws ++ [instance])%list, es. rewrite Hw, <- app_assoc.
    repeat split; trivial. apply Forall_app. split; [exact Fw |].
    now constructor.
Qed.

Lemma update_extends (db0 db : Store) (p : nat) (v : Z) :
  (top_pk db0 < p)%nat ->
  extends db0 db -> extends db0 (fst (Workout_filter_pk_update p v db)).
Proof.
  intros Hpk Hext. unfold Workout_filter_pk_update.
  destruct (positive_integer v); simpl; [| exact Hext].
  destruct Hext as (ws & es & Hw & He & Fw & Fe).
  eexists (map _ ws), es. repeat split; trivial.
  - rewrite Hw, map_app. simpl. f_equal. apply map_unchanged.
    intros w Hin. apply pk_le_top in Hin.
    destruct (Nat.eqb_spec (Workout.pk w) p); [lia | reflexivity].
  - apply Forall_map. eapply Forall_impl; [exact Fw |]. simpl. intros w Hlt.
    now destruct (Nat.eqb (Workout.pk w) p).
Qed.

(** *** Computations that do not write *)

Lemma pure_ret {A} (a : A) : pure (ret a).
Proof. now intros db. Qed.

Lemma pure_raise {A} (e : exn) : pure (@raise A e).
Proof. now intros db. Qed.

Lemma pure_or_raise {A} (e : exn) (o : option A) : pure (or_raise e o).
Proof. now destruct o; intros db. Qed.

Lemma pure_bind {A B} (m : M A) (k : A -> M B) :
  pure m -> (forall a, pure (k a)) -> pure (bind m k).
Proof.
  intros Hm Hk db. unfold bind. specialize (Hm db).
  destruct (m db) as [db1 [a|e]]; simpl in *; subst db1; [apply Hk | reflexivity].
Qed.

Lemma pure_filter_first user name d : pure (Workout_filter_first user name d).
Proof. now intros db. Qed.

Lemma pure_int_get row key dflt : pure (int_get row key dflt).
Proof. unfold int_get. destruct (row !! key); [apply pure_or_raise | apply pure_ret]. Qed.

Lemma pure_float_get row key dflt : pure (float_get row key dflt).
Proof. unfold float_get. destruct (row !! key); [apply pure_or_raise | apply pure_ret]. Qed.

Lemma pure_getitem d key : pure (getitem d key).
Proof. destruct d; simpl; try apply pure_raise. apply pure_or_raise. Qed.

Lemma pure_dict_get d key dflt : pure (dict_get d key dflt).
Proof. destruct d; simpl; try apply pure_raise. apply pure_ret. Qed.

Lemma pure_iterate v : pure (iterate v).
Proof. destruct v; simpl; try apply pure_raise; apply pure_ret. Qed.

Lemma pure_as_str v : pure (as_str v).
Proof. destruct v; simpl; try apply pure_raise; apply pure_ret. Qed.

Lemma pure_as_int v : pure (as_int v).
Proof. destruct v; simpl; try apply pure_raise; apply pure_ret. Qed.

Lemma pure_as_float v : pure (as_float v).
Proof. destruct v; simpl; try apply pure_raise; apply pure_ret. Qed.

Lemma pure_item parts i : pure (item parts i).
Proof. apply pure_or_raise. Qed.

Create HintDb pure_db.
#[local] Hint Resolve pure_ret pure_raise pure_or_raise pure_filter_first
  pure_int_get pure_float_get pure_getitem pure_dict_get pure_iterate pure_as_str
  pure_as_int pure_as_float pure_item : pure_db.

(** What a pure computation returns, it returns in the store it started
    from. *)
Lemma pure_run {A} (m : M A) db db' r : pure m -> m db = (db', r) -> db' = db.
Proof. intros Hm H. specialize (Hm db). rewrite H in Hm. exact Hm. Qed.

Lemma triple_pure {A} (P : Store -> Prop) (m : M A) :
  pure m -> triple P m (fun _ => P) P.
Proof.
  intros Hm db HP. specialize (Hm db).
  destruct (m db) as [db1 [a|e]]; simpl in Hm; now subst db1.
Qed.

(** A postcondition that only looks at the store. *)
Lemma triple_store {A} (P R : Store -> Prop) (m : M A) :
  (forall db, P db -> R (fst (m db))) -> triple P m (fun _ => R) R.
Proof.
  intros H db HP. specialize (H db HP). now destruct (m db) as [db1 [a|e]].
Qed.

(** *** The ORM calls on rows above a base store *)

Section Frame.
Variable db0 : Store.

Lemma auto_calculate_extends (instance : Workout.t) (created : bool) :
  (top_pk db0 < Workout.pk instance)%nat ->
  triple (extends db0) (auto_calculate_calories instance created)
    (fun _ => extends db0) (extends db0).
Proof.
  intros Hpk. unfold auto_calculate_calories.
  destruct (_ || _); [| now apply triple_pure, pure_ret].
  destruct (_ =? _); [| now apply triple_pure, pure_ret].
  apply triple_store. intros db. now apply update_extends.
Qed.

Lemma save_extends (instance : Workout.t) :
  (top_pk db0 < Workout.pk instance)%nat ->
  triple (extends db0) (Workout_save instance) (fun _ => extends db0) (extends db0).
Proof.
  intros Hpk. unfold Workout_save.
  destruct (_ && _); [| now apply triple_pure, pure_raise].
  eapply triple_bind.
  - apply triple_store. intros db. now apply write_workout_extends.
  - intros created. now apply auto_calculate_extends.
Qed.

Lemma create_extends user name workout_type duration calories notes d :
  triple (extends db0)
    (Workout_objects_create user name workout_type duration calories notes d)
    (fun w db => extends db0 db /\ (top_pk db0 < Workout.pk w)%nat)
    (extends db0).
Proof.
  intros db Hext. unfold Workout_objects_create.
  set (instance := Workout.Build _ _ _ _ _ _ _ _).
  assert (Hpk : (top_pk db0 < Workout.pk instance)%nat).
  { apply extends_top in Hext. unfold instance, next_pk, top_pk in *. simpl. lia. }
  pose proof (save_extends instance Hpk db Hext) as Hsave. unfold bind.
  destruct (Workout_save instance db) as [db1 [[]|e]]; simpl; auto.
Qed.

Lemma exercise_create_extends (workout : Workout.t) name category sets reps
    weight rest_time notes :
  (top_pk db0 < Workout.pk workout)%nat ->
  triple (extends db0)
    (Exercise_objects_create workout name category sets reps weight rest_time notes)
    (fun _ => extends db0) (extends db0).
Proof.
  intros Hpk. unfold Exercise_objects_create.
  destruct (_ && _); [| now apply triple_pure, pure_raise].
  eapply triple_bind.
  - apply (triple_store (extends db0) (extends db0)).
    intros db (ws & es & Hw & He & Fw & Fe). simpl.
    exists ws, (es ++ [Exercise.Build
                         (next_pk (map Exercise.pk (fitness_exercises db)))
                         (Workout.pk workout) name category sets reps weight
                         rest_time notes])%list.
    simpl. rewrite He, <- app_assoc. repeat split; trivial.
    apply Forall_app. split; [exact Fe |]. now constructor.
  - intros ?. now apply save_extends.
Qed.

(** With [overwrite_existing] off, a row of the delimited-text importer
    only adds rows to the store, whether it returns or raises. *)
Lemma import_csv_row_extends user row c :
  triple (extends db0) (import_csv_row user false row c)
    (fun _ => extends db0) (extends db0).
Proof.
  unfold import_csv_row. apply triple_try. simpl negb.
  eapply triple_bind; [apply triple_pure; auto with pure_db | intros date_field].
  eapply triple_bind; [apply triple_pure; auto with pure_db | intros d].
  eapply triple_bind.
  { apply triple_pure. apply pure_bind; auto with pure_db. }
  intros existing. destruct existing as [w|]; simpl.
  { now apply triple_pure, pure_ret. }
  eapply triple_bind; [apply triple_pure; auto with pure_db | intros name].
  eapply triple_bind; [apply triple_pure; auto with pure_db | intros dur_field].
  eapply triple_bind; [apply triple_pure; auto with pure_db | intros dur].
  eapply triple_bind; [apply triple_pure; auto with pure_db | intros cal].
  apply (triple_bind _
           (fun p db => extends db0 db /\ (top_pk db0 < Workout.pk (fst p))%nat)).
  { eapply triple_bind; [apply create_extends |].
    intros w. apply triple_ret. intros db H. exact H. }
  intros [w c1]. simpl.
  apply (triple_weaken (fun db => extends db0 db /\ (top_pk db0 < Workout.pk w)%nat)
           (fun db => extends db0 db /\ (top_pk db0 < Workout.pk w)%nat)
           (fun _ => extends db0) (fun _ db => extends db0 db /\ (top_pk db0 < Workout.pk w)%nat)
           (extends db0) (fun db => extends db0 db /\ (top_pk db0 < Workout.pk w)%nat));
    [| auto | intros ? ? []; auto | intros ? []; auto].
  assert (Hex : forall name category sets reps weight rest_time notes,
             triple (fun db => extends db0 db /\ (top_pk db0 < Workout.pk w)%nat)
               (Exercise_objects_create w name category sets reps weight rest_time notes)
               (fun _ db => extends db0 db /\ (top_pk db0 < Workout.pk w)%nat)
               (fun db => extends db0 db /\ (top_pk db0 < Workout.pk w)%nat)).
  { intros. intros db [Hext Hpk].
    pose proof (exercise_create_extends w name0 category sets reps weight
                  rest_time notes Hpk db Hext) as H.
    destruct (Exercise_objects_create _ _ _ _ _ _ _ _ db) as [db1 [[]|e]]; auto. }
  destruct (row !! "exercise_name") as [[|a rest]|];
    try (now apply triple_pure, pure_ret).
  eapply triple_bind; [apply triple_pure; auto with pure_db | intros sets].
  eapply triple_bind; [apply triple_pure; auto with pure_db | intros reps].
  eapply triple_bind; [apply triple_pure; auto with pure_db | intros weight].
  eapply triple_bind; [apply triple_pure; auto with pure_db | intros rest_time].
  eapply triple_bind; [apply Hex | intros ?].
  now apply triple_pure, pure_ret.
Qed.

End Frame.

(** The whole import, with [overwrite_existing] off, only adds rows. *)
Lemma import_csv_data_extends user rows db db' r :
  import_csv_data user rows false db = (db', r) -> extends db db'.
Proof.
  intros H.
  pose proof (triple_for_each (fun _ => extends db) (extends db)
                (import_csv_row user false) rows
                (fun row c _ => import_csv_row_extends db user row c)
                (Counts 0 0) db (extends_refl db)) as Ht.
  unfold import_csv_data in H. rewrite H in Ht. now destruct r.
Qed.

(** *** Steps that keep the precondition *)

Lemma triple_bind_or_raise {A B} (P E : Store -> Prop) (Q : B -> Store -> Prop)
    (e : exn) (o : option A) (k : A -> M B) :
  (forall db, P db -> E db) ->
  (forall a, o = Some a -> triple P (k a) Q E) ->
  triple P (bind (or_raise e o) k) Q E.
Proof.
  intros HE Hk. destruct o as [a|]; intros db HP; unfold bind; simpl.
  - now apply Hk.
  - now apply HE.
Qed.

Lemma triple_bind_pure {A B} (P E : Store -> Prop) (Q : B -> Store -> Prop)
    (m : M A) (k : A -> M B) :
  pure m ->
  (forall db, P db -> E db) ->
  (forall a, triple P (k a) Q E) ->
  triple P (bind m k) Q E.
Proof.
  intros Hm HE Hk db HP. unfold bind. specialize (Hm db).
  destruct (m db) as [db1 [a|e]]; simpl in Hm; subst db1.
  - now apply Hk.
  - now apply HE.
Qed.

(** *** Looking a workout up *)

Lemma truth_last_cons {T} (x : T) (l : list T) : truth (last (x :: l)) = true.
Proof.
  revert x. induction l as [|y l IH]; intros x; [reflexivity | apply (IH y)].
Qed.

Lemma filter_last_truth {T} (f : T -> bool) (l : list T) :
  truth (last (List.filter f l)) = existsb f l.
Proof.
  induction l as [|x l IH]; simpl; [reflexivity |].
  destruct (f x); simpl; [apply truth_last_cons | exact IH].
Qed.

Lemma filter_first_found user name d db :
  has_workout db user name d = true ->
  exists w, Workout_filter_first user name d db = (db, Ok (Some w)).
Proof.
  unfold has_workout, Workout_filter_first. rewrite <- filter_last_truth.
  destruct (last _) as [w|]; [eauto | discriminate].
Qed.

Lemma workout_matches_refl pk user name ty d dur cal notes :
  workout_matches user name d (Workout.Build pk user name ty d dur cal notes) = true.
Proof.
  unfold workout_matches, date_eqb. simpl.
  now rewrite Nat.eqb_refl, String.eqb_refl, !Z.eqb_refl.
Qed.

(** *** A key that stays in the store *)

Section Key.
Variables (user : User) (name : string) (d : pydate).

Lemma update_has_workout p v db :
  has_workout (fst (Workout_filter_pk_update p v db)) user name d =
  has_workout db user name d.
Proof.
  unfold Workout_filter_pk_update, has_workout.
  destruct (positive_integer v); simpl; [| reflexivity].
  induction (fitness_workouts db) as [|w l IH]; simpl; [reflexivity |].
  rewrite IH. f_equal. now destruct (Nat.eqb (Workout.pk w) p).
Qed.

Lemma write_has_workout instance db :
  workout_matches user name d instance = true ->
  has_workout (fst (write_workout instance db)) user name d = true.
Proof.
  intros Hm. unfold write_workout, has_workout.
  destruct (existsb (fun w => Nat.eqb (Workout.pk w) (Workout.pk instance))
              (fitness_workouts db)) eqn:Hex; simpl.
  - apply existsb_exists in Hex as (w & Hw & Hpk).
    apply existsb_exists. exists instance. split; [| exact Hm].
    apply in_map_iff. exists w. now rewrite Hpk.
  - rewrite existsb_app. simpl. rewrite Hm. now rewrite orb_true_r.
Qed.

Lemma save_has_workout instance :
  workout_matches user name d instance = true ->
  triple (fun _ => True) (Workout_save instance)
    (fun _ db => has_workout db user name d = true) (fun _ => True).
Proof.
  intros Hm db _. unfold Workout_save.
  destruct (_ && _); [| exact I]. unfold bind.
  pose proof (write_has_workout instance db Hm) as Hw.
  destruct (write_workout instance db) as [db1 [created|e]]; [| exact I].
  simpl in Hw. unfold post_save_Workout, auto_calculate_calories.
  destruct (_ || _); [| exact Hw].
  destruct (Workout.calories_burned instance =? 0); [| exact Hw].
  pose proof (update_has_workout (Workout.pk instance)
                (int_of_product (Workout.duration instance)
                   (rate_for (Workout.workout_type instance))) db1) as Hu.
  destruct (Workout_filter_pk_update _ _ db1) as [db2 [[]|e]]; [| exact I].
  simpl in Hu. now rewrite Hu.
Qed.

Lemma create_has_workout ty dur cal notes :
  triple (fun _ => True) (Workout_objects_create user name ty dur cal notes d)
    (fun w db => has_workout db user name d = true /\
                 workout_matches user name d w = true)
    (fun _ => True).
Proof.
  intros db _. unfold Workout_objects_create.
  set (instance := Workout.Build _ _ _ _ _ _ _ _).
  assert (Hm : workout_matches user name d instance = true)
    by apply workout_matches_refl.
  pose proof (save_has_workout instance Hm db I) as Hs. unfold bind.
  destruct (Workout_save instance db) as [db1 [[]|e]]; simpl; auto.
Qed.

Lemma exercise_create_has_workout workout ename category sets reps weight
    rest_time notes :
  workout_matches user name d workout = true ->
  triple (fun _ => True)
    (Exercise_objects_create workout ename category sets reps weight rest_time notes)
    (fun _ db => has_workout db user name d = true) (fun _ => True).
Proof.
  intros Hm. unfold Exercise_objects_create.
  destruct (_ && _); [| now apply triple_raise].
  eapply triple_bind.
  - apply (triple_store (fun _ => True) (fun _ => True)). trivial.
  - intros ?. now apply save_has_workout.
Qed.

End Key.

(** A row that ran with [overwrite_existing] off names a workout that the
    store has afterwards. *)
Lemma import_csv_row_known user row c :
  triple (fun _ => True) (import_csv_row user false row c)
    (fun _ db => row_known user db row) (fun _ => True).
Proof.
  unfold import_csv_row. apply triple_try. simpl negb.
  apply triple_bind_or_raise; [trivial | intros date_field Hdate].
  apply triple_bind_or_raise; [trivial | intros d Hd].
  apply (triple_bind _
           (fun existing db =>
              truth existing = true ->
              exists name, row !! "name" = Some name /\
                           has_workout db user name d = true)).
  { intros db _. unfold bind.
    destruct (row !! "name") as [name|] eqn:Hname; simpl; [| trivial].
    intros Ht. exists name. split; [reflexivity |].
    unfold has_workout. now rewrite <- filter_last_truth. }
  intros existing. destruct existing as [w|]; simpl.
  { apply triple_ret. intros db Hk. destruct (Hk eq_refl) as (name & Hname & Hhas).
    now exists date_field, d, name. }
  apply (triple_weaken _ (fun _ => True) _
           (fun _ db => row_known user db row) _ (fun _ => True)); auto.
  apply triple_bind_or_raise; [trivial | intros name Hname].
  apply triple_bind_or_raise; [trivial | intros dur_field _].
  apply triple_bind_or_raise; [trivial | intros dur _].
  apply triple_bind_pure; [auto with pure_db | trivial | intros cal].
  assert (Hknown : forall db, has_workout db user name d = true ->
                              row_known user db row).
  { intros db Hhas. now exists date_field, d, name. }
  apply (triple_bind _
           (fun p db => has_workout db user name d = true /\
                        workout_matches user name d (fst p) = true)).
  { eapply triple_bind; [apply create_has_workout |].
    intros w. apply triple_ret. trivial. }
  intros [w c1]. simpl.
  destruct (row !! "exercise_name") as [[|a rest]|];
    try (apply triple_ret; intros db [Hhas _]; now apply Hknown).
  intros db [Hhas Hm]. revert db Hhas.
  change (triple (fun db => has_workout db user name d = true)
            (sets <- int_get row "sets" 1 ;;
             reps <- int_get row "reps" 1 ;;
             weight <- float_get row "weight" 0 ;;
             rest_time <- int_get row "rest_time" 60 ;;
             Exercise_objects_create w (String a rest)
               (default "other" (row !! "category")) sets reps weight rest_time
               (default "" (row !! "exercise_notes")) ;;;
             ret (add_exercise c1))
            (fun _ db => row_known user db row) (fun _ => True)).
  apply triple_bind_pure; [auto with pure_db | trivial | intros sets].
  apply triple_bind_pure; [auto with pure_db | trivial | intros reps].
  apply triple_bind_pure; [auto with pure_db | trivial | intros weight].
  apply triple_bind_pure; [auto with pure_db | trivial | intros rest_time].
  apply (triple_bind _ (fun _ db => has_workout db user name d = true)).
  - intros db _.
    pose proof (exercise_create_has_workout user name d w (String a rest)
                  (default "other" (row !! "category")) sets reps weight
                  rest_time (default "" (row !! "exercise_notes")) Hm db I) as H.
    now destruct (Exercise_objects_create _ _ _ _ _ _ _ _ db) as [db1 [[]|e]].
  - intros ?. apply triple_ret. intros db Hhas. now apply Hknown.
Qed.

(** A row that names a workout of the store is passed over. *)
Lemma import_csv_row_skip user row c db :
  row_known user db row -> import_csv_row user false row c db = (db, Ok c).
Proof.
  intros (date_field & d & name & Hdate & Hd & Hname & Hhas).
  destruct (filter_first_found _ _ _ _ Hhas) as (w & Hw).
  unfold import_csv_row, try_except. simpl negb.
  rewrite (bind_ok _ _ db db date_field) by now apply or_raise_some.
  rewrite (bind_ok _ _ db db d) by now apply or_raise_some.
  rewrite (bind_ok _ _ db db (Some w)); [reflexivity |].
  now rewrite (bind_ok _ _ db db name) by now apply or_raise_some.
Qed.

(** * The delimited-text importer with [overwrite_existing] off *)

Lemma csv_loop_extends user rows c db db' r :
  for_each (import_csv_row user false) rows c db = (db', r) -> extends db db'.
Proof.
  intros H.
  pose proof (triple_for_each (fun _ => extends db) (extends db)
                (import_csv_row user false) rows
                (fun row c _ => import_csv_row_extends db user row c)
                c db (extends_refl db)) as Ht.
  rewrite H in Ht. now destruct r.
Qed.

Lemma row_known_extends user db db' row :
  extends db db' -> row_known user db row -> row_known user db' row.
Proof.
  intros Hext (date_field & d & name & Hdate & Hd & Hname & Hhas).
  exists date_field, d, name. repeat split; trivial.
  now apply (extends_has_workout db).
Qed.

(** After a run without exception, every row names a workout of the
    store. *)
Lemma csv_loop_known user rows c db db' c' :
  for_each (import_csv_row user false) rows c db = (db', Ok c') ->
  Forall (row_known user db') rows.
Proof.
  revert c db. induction rows as [|row rows IH]; intros c db H; [constructor |].
  simpl in H. apply bind_inv in H as [(db1 & c1 & Hrow & Hrest) | (e & _ & He)];
    [| discriminate].
  constructor; [| now apply (IH c1 db1)].
  apply (row_known_extends user db1); [now apply (csv_loop_extends user rows c1 _ _ (Ok c')) |].
  pose proof (import_csv_row_known user row c db I) as Hk.
  now rewrite Hrow in Hk.
Qed.

Lemma csv_loop_skip user rows c db :
  Forall (row_known user db) rows ->
  for_each (import_csv_row user false) rows c db = (db, Ok c).
Proof.
  induction 1 as [|row rows Hrow _ IH]; simpl; [reflexivity |].
  now rewrite (bind_ok _ _ db db c) by now apply import_csv_row_skip.
Qed.

(** C6. A row of a delimited-text import with [overwrite_existing] off
    whose name and date are those of a workout that the user has is passed
    over: the store, with that workout's fields and exercises, and the two
    counters are returned as they were. Over a whole import, the rows that
    the store held before are a prefix of both tables afterwards, and every
    workout of before has the exercises it had. *)
Theorem csv_skip_leaves_existing_workout (user : User) (row : csv_row)
    (c : counts) (db : Store) (date_field name : string) (d : pydate) :
  row !! "date" = Some date_field ->
  strptime date_field = Some d ->
  row !! "name" = Some name ->
  has_workout db user name d = true ->
  import_csv_row user false row c db = (db, Ok c) /\
  (forall rows db' r,
      import_csv_data user rows false db = (db', r) ->
      extends db db' /\
      forall w, In w (fitness_workouts db) ->
                exercises_of db' w = exercises_of db w).
Proof.
  intros Hdate Hd Hname Hhas. split.
  - apply import_csv_row_skip. now exists date_field, d, name.
  - intros rows db' r Hrun.
    assert (Hext : extends db db') by exact (import_csv_data_extends _ _ _ _ _ Hrun).
    split; [exact Hext |]. intros w Hw. now apply extends_exercises_of.
Qed.

Lemma csv_skip_leaves_existing_workout_witness :
  has_workout leg_day_store 1%nat "Leg Day" (Date 2024 1 1) = true /\
  import_csv_row 1%nat false leg_day_row (Counts 0 0) leg_day_store =
    (leg_day_store, Ok (Counts 0 0)).
Proof.
  split; [reflexivity |].
  apply (csv_skip_leaves_existing_workout 1%nat leg_day_row (Counts 0 0)
           leg_day_store "2024-01-01" "Leg Day" (Date 2024 1 1));
    vm_compute; reflexivity.
Defined.

(** C5, as stated, fails: when the first import raises in the exercise
    columns of a row, the workout of that row is already stored; the second
    import passes over that row, goes on, and stores the workout of the next
    row. *)
Lemma csv_reimport_after_failure_adds_records :
  let payload := [squat_row_bad_sets; run_row] in
  let first := import_csv_data 1%nat payload false empty_store in
  let second := import_csv_data 1%nat payload false (fst first) in
  snd first =
    Raise (ValidationError (Invalid_CSV_data squat_row_bad_sets ValueError_)) /\
  length (fitness_workouts (fst first)) = 1%nat /\
  snd second = Ok (Counts 1 0) /\
  length (fitness_workouts (fst second)) = 2%nat.
Proof. vm_compute. repeat split. Qed.

(** C5, amended. When a delimited-text import with [overwrite_existing]
    off returns, importing the same payload again for the same user with
    [overwrite_existing] off returns too, reports no workout and no
    exercise, and leaves the store as the first import left it. *)
Theorem csv_reimport_is_noop (user : User) (rows : list csv_row)
    (db db1 : Store) (c : counts) :
  import_csv_data user rows false db = (db1, Ok c) ->
  import_csv_data user rows false db1 = (db1, Ok (Counts 0 0)).
Proof.
  intros H. apply csv_loop_skip. exact (csv_loop_known _ _ _ _ _ _ H).
Qed.

Lemma csv_reimport_is_noop_witness :
  let first := import_csv_data 1%nat [leg_day_row; run_row] false empty_store in
  snd first = Ok (Counts 2 1) /\
  import_csv_data 1%nat [leg_day_row; run_row] false (fst first) =
    (fst first, Ok (Counts 0 0)).
Proof.
  split; [vm_compute; reflexivity |].
  apply (csv_reimport_is_noop 1%nat [leg_day_row; run_row] empty_store _ (Counts 2 1)).
  vm_compute. reflexivity.
Defined.

(** * The hierarchical-document importer *)

(** C10. A document that is an object without a ["workouts"] key is
    imported without error, for every user and either value of
    [overwrite_existing]: both counters are 0 and the store is left as it
    was. *)
Theorem json_without_workouts_key (user : User) (overwrite_existing : bool)
    (fields : list (string * json)) (db : Store) :
  dict_lookup "workouts" fields = None ->
  import_json_data user (Some (JDict fields)) overwrite_existing db =
    (db, Ok (Counts 0 0)).
Proof.
  intros H. unfold import_json_data, import_json_document, bind. simpl.
  now rewrite H.
Qed.

Lemma json_without_workouts_key_witness :
  dict_lookup "workouts" [("version", JInt 1)] = None /\
  import_json_data 1%nat (Some (JDict [("version", JInt 1)])) true leg_day_store =
    (leg_day_store, Ok (Counts 0 0)).
Proof.
  split; [reflexivity |].
  apply (json_without_workouts_key 1%nat true [("version", JInt 1)] leg_day_store).
  reflexivity.
Defined.

(** * Calories of a new workout *)

Lemma int_of_product_whole (n r : Z) : int_of_product n (Float r 0) = n * r.
Proof. unfold int_of_product. simpl. apply Z.quot_1_r. Qed.

(** The table of [auto_calculate_calories], with 5 for a type that is not in
    it. *)
Lemma rate_for_table (ty : string) :
  rate_for ty =
  Float (if String.eqb ty "cardio" then 8
         else if String.eqb ty "strength" then 6
         else if String.eqb ty "flexibility" then 3
         else if String.eqb ty "sports" then 7
         else if String.eqb ty "mixed" then 6
         else 5) 0.
Proof.
  unfold rate_for, calorie_rates.
  destruct (String.eqb_spec ty "cardio") as [->|H1]; [reflexivity |].
  destruct (String.eqb_spec ty "strength") as [->|H2]; [reflexivity |].
  destruct (String.eqb_spec ty "flexibility") as [->|H3]; [reflexivity |].
  destruct (String.eqb_spec ty "sports") as [->|H4]; [reflexivity |].
  destruct (String.eqb_spec ty "mixed") as [->|H5]; [reflexivity |].
  destruct (String.eqb_spec ty "other") as [->|H6]; [reflexivity |].
  unfold list_to_map. cbn [foldr fst snd uncurry].
  now rewrite !lookup_insert_ne, lookup_empty by congruence.
Qed.

Lemma rate_for_nonneg (ty : string) (n : Z) :
  0 <= n -> 0 <= int_of_product n (rate_for ty).
Proof.
  intros Hn. rewrite rate_for_table, int_of_product_whole.
  repeat destruct (String.eqb _ _); lia.
Qed.

Section NewRow.
Variables (db : Store) (instance : Workout.t).
Hypothesis fresh : (top_pk db < Workout.pk instance)%nat.

Lemma old_rows_kept (f : Workout.t -> Workout.t) :
  (forall w, Nat.eqb (Workout.pk w) (Workout.pk instance) = false -> f w = w) ->
  map f (fitness_workouts db) = fitness_workouts db.
Proof.
  intros Hf. apply map_unchanged. intros w Hw. apply Hf.
  apply pk_le_top in Hw. apply Nat.eqb_neq. lia.
Qed.

(** The new row is appended. *)
Lemma write_workout_new :
  write_workout instance db =
    ({| fitness_workouts := fitness_workouts db ++ [instance];
        fitness_exercises := fitness_exercises db |}, Ok true).
Proof. unfold write_workout. now rewrite existsb_pk_fresh. Qed.

(** The row of [instance], last in the table, is written again. *)
Lemma write_workout_last (row : Workout.t) :
  Workout.pk row = Workout.pk instance ->
  write_workout instance
    {| fitness_workouts := fitness_workouts db ++ [row];
       fitness_exercises := fitness_exercises db |} =
    ({| fitness_workouts := fitness_workouts db ++ [instance];
        fitness_exercises := fitness_exercises db |}, Ok false).
Proof.
  intros Hpk. unfold write_workout. simpl.
  rewrite existsb_app. simpl. rewrite Hpk, Nat.eqb_refl, orb_true_r. simpl.
  rewrite map_app. simpl. rewrite Hpk, Nat.eqb_refl.
  rewrite old_rows_kept; [reflexivity |].
  intros w Hw. now rewrite Hw.
Qed.

(** The calories of the row of [instance], last in the table, are
    updated. *)
Lemma update_last (v : Z) :
  0 <= v ->
  Workout_filter_pk_update (Workout.pk instance) v
    {| fitness_workouts := fitness_workouts db ++ [instance];
       fitness_exercises := fitness_exercises db |} =
    ({| fitness_workouts :=
          fitness_workouts db ++
          [Workout.Build (Workout.pk instance) (Workout.user instance)
             (Workout.name instance) (Workout.workout_type instance)
             (Workout.date instance) (Workout.duration instance) v
             (Workout.notes instance)];
        fitness_exercises := fitness_exercises db |}, Ok tt).
Proof.
  intros Hv. unfold Workout_filter_pk_update, positive_integer.
  rewrite (proj2 (Z.leb_le 0 v) Hv). simpl.
  rewrite map_app. simpl. rewrite Nat.eqb_refl.
  rewrite old_rows_kept; [reflexivity |].
  intros w Hw. now rewrite Hw.
Qed.

(** The receiver on the row of [instance], last in the table. *)
Lemma auto_calculate_last (created : bool) :
  0 <= Workout.duration instance ->
  auto_calculate_calories instance created
    {| fitness_workouts := fitness_workouts db ++ [instance];
       fitness_exercises := fitness_exercises db |} =
    ({| fitness_workouts :=
          fitness_workouts db ++
          [Workout.Build (Workout.pk instance) (Workout.user instance)
             (Workout.name instance) (Workout.workout_type instance)
             (Workout.date instance) (Workout.duration instance)
             (if Workout.calories_burned instance =? 0
              then int_of_product (Workout.duration instance)
                     (rate_for (Workout.workout_type instance))
              else Workout.calories_burned instance)
             (Workout.notes instance)];
        fitness_exercises := fitness_exercises db |}, Ok tt).
Proof.
  intros Hdur. unfold auto_calculate_calories.
  destruct (Workout.calories_burned instance =? 0) eqn:Hz.
  - rewrite orb_true_l. apply update_last. now apply rate_for_nonneg.
  - destruct instance. simpl in *. now destruct created.
Qed.

End NewRow.



(** * The structured-text importer *)

Lemma enumerate_app {A} (xs ys : list A) (start : nat) :
  enumerate (xs ++ ys) start =
  (enumerate xs start ++ enumerate ys (start + length xs))%list.
Proof.
  revert start. induction xs as [|x xs IH]; intros start; simpl.
  - now rewrite Nat.add_0_r.
  - rewrite IH. now rewrite Nat.add_succ_r.
Qed.

(** A line with a marker is neither blank nor a comment, and the two
    markers exclude each other. *)
Lemma workout_marker (line : string) :
  startswith line "WORKOUT:" = true ->
  bool_decide (line = "") || startswith line "#" = false.
Proof.
  destruct line as [|a l]; [intros H; vm_compute in H; discriminate |].
  unfold startswith. cbn -[ascii_dec].
  destruct (ascii_dec "W" a) as [<-|]; [| intros; discriminate].
  intros _. rewrite bool_decide_eq_false_2 by discriminate.
  now destruct (ascii_dec "#" "W").
Qed.

Lemma exercise_marker (line : string) :
  startswith line "EXERCISE:" = true ->
  bool_decide (line = "") || startswith line "#" = false /\
  startswith line "WORKOUT:" = false.
Proof.
  destruct line as [|a l]; [intros H; vm_compute in H; discriminate |].
  unfold startswith. cbn -[ascii_dec].
  destruct (ascii_dec "E" a) as [<-|]; [| intros; discriminate].
  intros _. rewrite bool_decide_eq_false_2 by discriminate.
  destruct (ascii_dec "#" "E"); [discriminate |].
  now destruct (ascii_dec "W" "E").
Qed.

(** The body of the loop on a line with a marker. *)
Lemma import_text_line_workout user ow n line st :
  startswith (strip line) "WORKOUT:" = true ->
  import_text_line user ow (n, line) st =
  try_except (import_workout_line user ow n (strip line) st) (text_handler n).
Proof.
  intros H. unfold import_text_line. simpl fst. simpl snd.
  now rewrite (workout_marker _ H), H.
Qed.

Lemma import_text_line_exercise user ow n line st :
  startswith (strip line) "EXERCISE:" = true ->
  import_text_line user ow (n, line) st =
  try_except (import_exercise_line n (strip line) st) (text_handler n).
Proof.
  intros H. unfold import_text_line. simpl fst. simpl snd.
  destruct (exercise_marker _ H) as [H1 H2]. now rewrite H1, H2, H.
Qed.

(** At least four fields. *)
Lemma four_parts (parts : list string) :
  (length parts <? 4)%nat = false ->
  exists p0 p1 p2 p3 rest, parts = p0 :: p1 :: p2 :: p3 :: rest.
Proof.
  intros H. apply Nat.ltb_ge in H.
  destruct parts as [|p0 [|p1 [|p2 [|p3 rest]]]]; simpl in H; try lia.
  now exists p0, p1, p2, p3, rest.
Qed.

(** *** A workout line that cannot be read *)

Lemma workout_line_unreadable user ow n line st db :
  read_workout_line line = None ->
  exists m,
    try_except (import_workout_line user ow n line st) (text_handler n) db =
      (db, Raise (ValidationError m)) /\
    line_number m = Some n.
Proof.
  unfold read_workout_line, import_workout_line, try_except.
  destruct (length (parts_of (slice_from 8 line)) <? 4)%nat eqn:Hlen.
  { intros _. now exists (Workout_line_too_short n). }
  destruct (four_parts _ Hlen) as (p0 & p1 & p2 & p3 & rest & ->).
  intros H. exists (Invalid_line_format n ValueError_). split; [| reflexivity].
  unfold item, bind. simpl in *.
  destruct (strptime p2) as [d|]; simpl in *; [| reflexivity].
  destruct (py_int p3) as [dur|]; simpl in *; [| reflexivity].
  destruct rest as [|p4 rest]; simpl in *; [discriminate |].
  destruct (py_int p4) as [cal|]; simpl in *; [| reflexivity].
  destruct rest as [|p5 rest]; simpl in *; discriminate.
Qed.

(** *** An exercise line that cannot be read *)

Lemma exercise_line_unreadable n line st db workout :
  current_workout st = Some workout ->
  read_exercise_line line = None ->
  exists m,
    try_except (import_exercise_line n line st) (text_handler n) db =
      (db, Raise (ValidationError m)) /\
    line_number m = Some n.
Proof.
  intros Hcur. unfold read_exercise_line, import_exercise_line, try_except.
  rewrite Hcur.
  destruct (length (parts_of (slice_from 9 line)) <? 4)%nat eqn:Hlen.
  { intros _. now exists (Exercise_line_too_short n). }
  destruct (four_parts _ Hlen) as (p0 & p1 & p2 & p3 & rest & ->).
  intros H. exists (Invalid_line_format n ValueError_). split; [| reflexivity].
  unfold item, bind. simpl in *.
  destruct (py_int p2) as [sets|]; simpl in *; [| reflexivity].
  destruct (py_int p3) as [reps|]; simpl in *; [| reflexivity].
  destruct rest as [|p4 rest]; simpl in *; [discriminate |].
  destruct (py_float p4) as [weight|]; simpl in *; [| reflexivity].
  destruct rest as [|p5 rest]; simpl in *; [discriminate |].
  destruct (py_int p5) as [rest_time|]; simpl in *; [| reflexivity].
  destruct rest as [|p6 rest]; simpl in *; discriminate.
Qed.

Lemma exercise_line_orphan n line st db :
  current_workout st = None ->
  try_except (import_exercise_line n line st) (text_handler n) db =
    (db, Raise (ValidationError (Exercise_without_workout n))).
Proof.
  intros Hcur. unfold import_exercise_line, try_except. now rewrite Hcur.
Qed.

(** A malformed record raises on its line, before anything is written. *)
Lemma malformed_record_raises user ow n line st db :
  malformed_record (current_workout st) (strip line) ->
  exists m,
    import_text_line user ow (n, line) st db = (db, Raise (ValidationError m)) /\
    line_number m = Some n.
Proof.
  intros [[Hmark Hread] | [Hmark Hbad]].
  - rewrite (import_text_line_workout _ _ _ _ _ Hmark).
    now apply workout_line_unreadable.
  - rewrite (import_text_line_exercise _ _ _ _ _ Hmark).
    destruct (current_workout st) as [workout|] eqn:Hcur.
    + destruct Hbad as [Hnone | Hread]; [discriminate |].
      now apply (exercise_line_unreadable n _ st db workout).
    + exists (Exercise_without_workout n). split; [| reflexivity].
      now apply exercise_line_orphan.
Qed.

(** *** Lines that can be read *)

Lemma workout_line_readable user ow n line st db name ty d dur cal notes :
  read_workout_line line = Some (name, ty, d, dur, cal, notes) ->
  import_workout_line user ow n line st db =
  (existing_workout <-
     (if negb ow then Workout_filter_first user name d else ret None) ;;
   match existing_workout, ow with
   | Some existing, false => ret (TextState (Some existing) (tally st))
   | Some existing, true =>
       let updated := set_fields existing name ty dur cal notes d in
       Workout_save updated ;;;
       Workout_exercises_delete updated ;;;
       ret (TextState (Some updated) (tally st))
   | None, _ =>
       workout <- Workout_objects_create user name ty dur cal notes d ;;
       ret (TextState (Some workout) (add_workout (tally st)))
   end) db.
Proof.
  unfold read_workout_line, import_workout_line.
  destruct (length (parts_of (slice_from 8 line)) <? 4)%nat eqn:Hlen;
    [discriminate |].
  destruct (four_parts _ Hlen) as (p0 & p1 & p2 & p3 & rest & ->).
  unfold item. run_read.
  destruct (strptime p2) as [d'|]; [| discriminate]. run_read.
  destruct (py_int p3) as [dur'|]; [| discriminate]. run_read.
  destruct rest as [|p4 rest]; run_read.
  { intros H. inversion H; subst. reflexivity. }
  destruct (py_int p4) as [cal'|]; [| discriminate]. run_read.
  destruct rest as [|p5 rest]; run_read; intros H; inversion H; subst;
    reflexivity.
Qed.

Lemma exercise_line_readable n line st db workout name category sets reps
    weight rest_time notes :
  current_workout st = Some workout ->
  read_exercise_line line =
    Some (name, category, sets, reps, weight, rest_time, notes) ->
  import_exercise_line n line st db =
  (Exercise_objects_create workout name category sets reps weight rest_time
     notes ;;;
   ret (TextState (Some workout) (add_exercise (tally st)))) db.
Proof.
  intros Hcur. unfold read_exercise_line, import_exercise_line. rewrite Hcur.
  destruct (length (parts_of (slice_from 9 line)) <? 4)%nat eqn:Hlen;
    [discriminate |].
  destruct (four_parts _ Hlen) as (p0 & p1 & p2 & p3 & rest & ->).
  unfold item. run_read.
  destruct (py_int p2) as [sets'|]; [| discriminate]. run_read.
  destruct (py_int p3) as [reps'|]; [| discriminate]. run_read.
  destruct rest as [|p4 rest]; run_read.
  { intros H. inversion H; subst. reflexivity. }
  destruct (py_float p4) as [weight'|]; [| discriminate]. run_read.
  destruct rest as [|p5 rest]; run_read.
  { intros H. inversion H; subst. reflexivity. }
  destruct (py_int p5) as [rest'|]; [| discriminate]. run_read.
  destruct rest as [|p6 rest]; run_read; intros H; inversion H; subst;
    reflexivity.
Qed.

(** *** Saving a row that passes the checks *)

Lemma save_checked (w : Workout.t) (db : Store) :
  workout_checked w ->
  exists db', Workout_save w db = (db', Ok tt) /\
              fitness_exercises db' = fitness_exercises db.
Proof.
  intros [Hdur Hcal]. unfold Workout_save, positive_integer.
  rewrite (proj2 (Z.leb_le _ _) Hdur), (proj2 (Z.leb_le _ _) Hcal). cbn [andb].
  cbv beta iota delta [bind].
  assert (Hw : exists db1 created, write_workout w db = (db1, Ok created) /\
                                   fitness_exercises db1 = fitness_exercises db).
  { unfold write_workout. destruct (existsb _ _); eauto. }
  destruct Hw as (db1 & created & -> & He1).
  unfold post_save_Workout, auto_calculate_calories.
  destruct (_ || _); [| now exists db1].
  destruct (Workout.calories_burned w =? 0); [| now exists db1].
  unfold Workout_filter_pk_update, positive_integer.
  rewrite (proj2 (Z.leb_le _ _) (rate_for_nonneg _ _ Hdur)).
  eexists. split; [reflexivity | exact He1].
Qed.

Lemma exercise_create_checked (w : Workout.t) name category sets reps weight
    rest_time notes (db : Store) :
  workout_checked w -> 0 <= sets -> 0 <= reps -> 0 <= rest_time ->
  exists db',
    Exercise_objects_create w name category sets reps weight rest_time notes db =
      (db', Ok tt) /\
    fitness_exercises db' =
      (fitness_exercises db ++
       [Exercise.Build (next_pk (map Exercise.pk (fitness_exercises db)))
          (Workout.pk w) name category sets reps weight rest_time notes])%list.
Proof.
  intros Hw Hsets Hreps Hrest. unfold Exercise_objects_create, positive_integer.
  rewrite (proj2 (Z.leb_le _ _) Hsets), (proj2 (Z.leb_le _ _) Hreps),
    (proj2 (Z.leb_le _ _) Hrest). cbn [andb].
  cbv beta iota delta [bind update_workout_on_exercise_change].
  match goal with
  | |- context [Workout_save w ?s] =>
      destruct (save_checked w s Hw) as (db' & -> & He)
  end.
  exists db'. split; [reflexivity | exact He].
Qed.






(** * An import that fails *)




(** * Imports that the code lets through *)

(** C1, on the code: with [overwrite_existing] on, the workout is not
    looked up, so the branch that updates is never taken. The user has
    "Leg Day" of 2024-01-01; each importer, given that workout again, adds a
    second row with the same name and date and counts one imported
    workout. *)
Theorem overwrite_adds_second_workout :
  let again_csv := csv [leg_day_row] in
  let again_json :=
    json_file (Some (JDict [("workouts",
      JList [JDict [("name", JStr "Leg Day"); ("date", JStr "2024-01-01");
                    ("workout_type", JStr "strength"); ("duration", JInt 50);
                    ("calories_burned", JInt 400)]])])) in
  let again_txt := txt "WORKOUT: Leg Day | strength | 2024-01-01 | 50 | 400" in
  Forall
    (fun data_file =>
       let run := import_data 1%nat data_file true leg_day_store in
       imported <$> match snd run with Ok c => Some c | Raise _ => None end = Some 1%nat /\
       map (fun w => (Workout.pk w, Workout.name w, Workout.date w,
                      Workout.duration w))
         (fitness_workouts (fst run)) =
         [(1%nat, "Leg Day", Date 2024 1 1, 45);
          (2%nat, "Leg Day", Date 2024 1 1, 50)])
    [again_csv; again_json; again_txt].
Proof.
  intros again_csv again_json again_txt.
  repeat (constructor; [vm_compute; split; reflexivity |]).
  constructor.
Qed.

(** C3, on the code: the importers store what [Exercise.clean] refuses.
    A row with 150 repetitions at weight 10 is imported and its exercise is
    stored, although [clean] raises on that exercise; the same row at weight
    0 is imported too, and [clean] accepts it. *)
Theorem import_skips_exercise_clean :
  let heavy := import_data 1%nat (csv [heavy_row]) false empty_store in
  let light := import_data 1%nat (csv [bodyweight_row]) false empty_store in
  let stored := Exercise.Build 1 1 "Squat" "legs" 3 150 (Float 10 0) 90 "" in
  let stored0 := Exercise.Build 1 1 "Squat" "legs" 3 150 (Float 0 0) 90 "" in
  snd heavy = Ok (Counts 1 1) /\
  fitness_exercises (fst heavy) = [stored] /\
  Exercise_clean stored = Raise (ValidationError High_weight_reps) /\
  snd light = Ok (Counts 1 1) /\
  fitness_exercises (fst light) = [stored0] /\
  Exercise_clean stored0 = Ok tt /\
  is_bodyweight stored0 = true.
Proof. vm_compute. repeat split. Qed.

(** C4, on the code: what [export_data] writes for the user, imported back
    with [overwrite_existing] on, does not meet the workout it came from:
    from one workout with one exercise the store goes to two workouts and
    two exercises, in each of the three formats. *)
Theorem export_then_import_doubles_records :
  Forall
    (fun format =>
       let run :=
         import_data 1%nat (export_data leg_day_store 1%nat format) true
           leg_day_store in
       snd run = Ok (Counts 1 1) /\
       length (user_workouts leg_day_store 1%nat) = 1%nat /\
       length (user_workouts (fst run) 1%nat) = 2%nat /\
       length (fitness_exercises (fst run)) = 2%nat)
    [csv_format; json_format; txt_format].
Proof.
  repeat (constructor; [vm_compute; repeat split |]).
  constructor.
Qed.

(** * What every importer keeps *)

Lemma triple_bind_ret {A B} (P E : Store -> Prop) (Q : B -> Store -> Prop)
    (a : A) (k : A -> M B) :
  triple P (k a) Q E -> triple P (bind (ret a) k) Q E.
Proof. intros H db HP. exact (H db HP). Qed.

Lemma pure_if {A} (b : bool) (m1 m2 : M A) :
  pure m1 -> pure m2 -> pure (if b then m1 else m2).
Proof. now destruct b. Qed.

#[local] Hint Resolve pure_if pure_bind : pure_db.

(** The three loop bodies and the view run on the four ORM calls. A
    property of the counters and the store that the calls keep is kept by a
    whole import: [I] relates the counters to the store, [K] says of a
    workout instance what the store knows of it, and [E] is what is left to
    hold when an exception is raised. *)
Section Importers.
Variable user : User.
Variable I : counts -> Store -> Prop.
Variable K : Workout.t -> Store -> Prop.
Variable E : Store -> Prop.

Hypothesis I_E : forall c db, I c db -> E db.
Hypothesis found_K : forall c name d db w,
  I c db -> Workout_filter_first user name d db = (db, Ok (Some w)) -> K w db.
Hypothesis create_I : forall c name ty dur cal notes d,
  triple (I c) (Workout_objects_create user name ty dur cal notes d)
    (fun w db => I (add_workout c) db /\ K w db) E.
Hypothesis exercise_I : forall c w name category sets reps weight rest_time notes,
  triple (fun db => I c db /\ K w db)
    (Exercise_objects_create w name category sets reps weight rest_time notes)
    (fun _ db => I (add_exercise c) db /\ K w db) E.

Let IK (w : Workout.t) (c : counts) (db : Store) : Prop := I c db /\ K w db.

Lemma IK_E w c db : IK w c db -> E db.
Proof. intros [HI _]. exact (I_E c db HI). Qed.

Lemma csv_exercise_keeps row w c1 :
  triple (IK w c1)
    (match row !! "exercise_name" with
     | Some (String a rest) =>
         let category := default "other" (row !! "category") in
         sets <- int_get row "sets" 1 ;;
         reps <- int_get row "reps" 1 ;;
         weight <- float_get row "weight" 0 ;;
         rest_time <- int_get row "rest_time" 60 ;;
         let exercise_notes := default "" (row !! "exercise_notes") in
         Exercise_objects_create w (String a rest) category sets reps
           weight rest_time exercise_notes ;;;
         ret (add_exercise c1)
     | _ => ret c1
     end) I E.
Proof.
  destruct (row !! "exercise_name") as [[|a rest]|];
    try (apply triple_ret; intros db [HI _]; exact HI).
  cbv zeta.
  apply triple_bind_pure; [auto with pure_db | apply IK_E | intros sets].
  apply triple_bind_pure; [auto with pure_db | apply IK_E | intros reps].
  apply triple_bind_pure; [auto with pure_db | apply IK_E | intros weight].
  apply triple_bind_pure; [auto with pure_db | apply IK_E | intros rest_time].
  eapply triple_bind; [apply exercise_I | intros ?].
  apply triple_ret. intros db [HI _]. exact HI.
Qed.

Lemma csv_create_keeps row c d :
  triple (I c)
    (name <- or_raise KeyError (row !! "name") ;;
     let workout_type := default "other" (row !! "workout_type") in
     duration_field <- or_raise KeyError (row !! "duration") ;;
     duration <- or_raise ValueError (py_int duration_field) ;;
     calories_burned <- int_get row "calories_burned" 0 ;;
     let notes := default "" (row !! "notes") in
     created <-
       (workout <- Workout_objects_create user name workout_type duration
                     calories_burned notes d ;;
        ret (workout, add_workout c)) ;;
     let '(workout, c1) := created in
     match row !! "exercise_name" with
     | Some (String a rest) =>
         let category := default "other" (row !! "category") in
         sets <- int_get row "sets" 1 ;;
         reps <- int_get row "reps" 1 ;;
         weight <- float_get row "weight" 0 ;;
         rest_time <- int_get row "rest_time" 60 ;;
         let exercise_notes := default "" (row !! "exercise_notes") in
         Exercise_objects_create workout (String a rest) category sets reps
           weight rest_time exercise_notes ;;;
         ret (add_exercise c1)
     | _ => ret c1
     end) I E.
Proof.
  apply triple_bind_or_raise; [apply I_E | intros name _].
  cbv zeta.
  apply triple_bind_or_raise; [apply I_E | intros dur_field _].
  apply triple_bind_or_raise; [apply I_E | intros dur _].
  apply triple_bind_pure; [auto with pure_db | apply I_E | intros cal].
  apply (triple_bind _ (fun p db => IK (fst p) (snd p) db)).
  { eapply triple_bind; [apply create_I | intros w].
    apply triple_ret. intros db H. exact H. }
  intros [w c1]. apply csv_exercise_keeps.
Qed.

(** A row of the delimited-text importer. With [overwrite_existing] on, no
    workout is looked up, and the branch that updates a workout and the one
    that creates it are the same. *)
Lemma csv_row_keeps ow row c :
  triple (I c) (import_csv_row user ow row c) I E.
Proof.
  unfold import_csv_row. apply triple_try.
  apply triple_bind_or_raise; [apply I_E | intros date_field _].
  apply triple_bind_or_raise; [apply I_E | intros d _].
  destruct ow; simpl negb.
  - apply triple_bind_ret. apply csv_create_keeps.
  - apply triple_bind_pure; [auto with pure_db | apply I_E | intros [w|]].
    + apply triple_ret. trivial.
    + apply csv_create_keeps.
Qed.

(** The hierarchical-document importer. *)
Lemma json_exercise_keeps w exercise_data c :
  triple (IK w c) (import_json_exercise w exercise_data c) (IK w) E.
Proof.
  unfold import_json_exercise.
  do 14 (apply triple_bind_pure; [auto with pure_db | apply IK_E | intros ?]).
  eapply triple_bind; [apply exercise_I | intros ?].
  apply triple_ret. intros db H. exact H.
Qed.

Lemma json_workout_keeps ow workout_data c :
  triple (I c) (import_json_workout user ow workout_data c) I E.
Proof.
  unfold import_json_workout. apply triple_try.
  do 3 (apply triple_bind_pure; [auto with pure_db | apply I_E | intros ?]).
  destruct ow; cbn [negb];
    [apply triple_bind_ret
    | apply triple_bind_pure;
      [auto with pure_db | apply I_E
      | intros [w|]; [apply triple_ret; trivial |]]];
    cbn [truth andb].
  all: do 10 (apply triple_bind_pure; [auto with pure_db | apply I_E | intros ?]).
  all: apply (triple_bind _ (fun p db => IK (fst p) (snd p) db));
    [eapply triple_bind; [apply create_I | intros w];
     apply triple_ret; intros db H; exact H |].
  all: intros [w c1]; cbn [fst snd].
  all: do 2 (apply triple_bind_pure; [auto with pure_db | apply IK_E | intros ?]).
  all: eapply triple_weaken;
    [apply (triple_for_each (IK w) E); intros; apply json_exercise_keeps
    | trivial | intros c2 db [HI _]; exact HI | trivial].
Qed.

(** The structured-text importer: the active workout is one that the store
    knows. *)
Lemma text_line_keeps ow numbered st :
  triple (fun db => I (tally st) db /\ current_ok K st db)
    (import_text_line user ow numbered st)
    (fun st' db => I (tally st') db /\ current_ok K st' db) E.
Proof.
  assert (HE : forall db, I (tally st) db /\ current_ok K st db -> E db).
  { intros db [HI _]. exact (I_E _ _ HI). }
  unfold import_text_line.
  destruct (_ || _); [apply triple_ret; trivial |].
  apply triple_try.
  destruct (startswith _ "WORKOUT:");
    [| destruct (startswith _ "EXERCISE:"); [| apply triple_ret; trivial]].
  - (* a workout line *)
    apply (triple_weaken _ (I (tally st)) _
             (fun st' db => I (tally st') db /\ current_ok K st' db) _ E);
      [| intros db [HI _]; exact HI | trivial | trivial].
    unfold import_workout_line.
    destruct (_ <? _)%nat; [apply triple_raise; apply I_E |].
    apply triple_bind_pure; [auto with pure_db | apply I_E | intros name].
    apply triple_bind_pure; [auto with pure_db | apply I_E | intros ty].
    apply triple_bind_pure; [auto with pure_db | apply I_E | intros date_field].
    apply triple_bind_pure; [auto with pure_db | apply I_E | intros d].
    do 4 (apply triple_bind_pure; [auto with pure_db | apply I_E | intros ?]).
    destruct ow; cbn [negb].
    + apply triple_bind_ret.
      eapply triple_bind; [apply create_I | intros w].
      apply triple_ret. intros db [HI HK]. split; [exact HI |].
      intros w' [= <-]. exact HK.
    + apply (triple_bind _
               (fun ex db => I (tally st) db /\ forall w, ex = Some w -> K w db)).
      { intros db HI. unfold Workout_filter_first. split; [exact HI |].
        intros w Hw. apply (found_K (tally st) name d db w HI).
        unfold Workout_filter_first. now rewrite Hw. }
      intros [w|].
      * apply triple_ret. intros db [HI HK]. split; [exact HI |].
        intros w' [= <-]. now apply HK.
      * eapply triple_bind.
        { eapply triple_weaken; [apply create_I | intros db [HI _]; exact HI
                                | intros w db H; exact H | trivial]. }
        intros w. apply triple_ret. intros db [HI HK]. split; [exact HI |].
        intros w' [= <-]. exact HK.
  - (* an exercise line *)
    unfold import_exercise_line.
    destruct (current_workout st) as [workout|] eqn:Hcur;
      [| apply triple_raise; exact HE].
    apply (triple_weaken _ (IK workout (tally st)) _
             (fun st' db => I (tally st') db /\ current_ok K st' db) _ E);
      [| intros db [HI HK]; split; [exact HI | now apply HK]
       | trivial | trivial].
    destruct (_ <? _)%nat; [apply triple_raise; apply IK_E |].
    do 9 (apply triple_bind_pure; [auto with pure_db | apply IK_E | intros ?]).
    eapply triple_bind; [apply exercise_I | intros ?].
    apply triple_ret. intros db [HI HK]. split; [exact HI |].
    intros w' [= <-]. exact HK.
Qed.

(** The view, for the three kinds of file. *)
Lemma import_data_keeps data_file ow :
  triple (I (Counts 0 0)) (import_data user data_file ow) I E.
Proof.
  destruct data_file as [csv_reader | [data|] | file_content]; simpl.
  - apply triple_for_each. intros. apply csv_row_keeps.
  - unfold import_json_document.
    do 2 (apply triple_bind_pure; [auto with pure_db | apply I_E | intros ?]).
    apply triple_for_each. intros. apply json_workout_keeps.
  - apply triple_raise. apply I_E.
  - unfold import_text_data.
    apply (triple_bind _ (fun st db => I (tally st) db /\ current_ok K st db)).
    + eapply triple_weaken;
        [apply (triple_for_each
                  (fun st db => I (tally st) db /\ current_ok K st db) E);
         intros; apply text_line_keeps
        | | trivial | trivial].
      intros db HI. split; [exact HI | intros w Hw; discriminate].
    + intros st. apply triple_ret. intros db [HI _]. exact HI.
Qed.

End Importers.

(** * What the ORM calls leave in the store *)

Lemma stored_row_nonzero (w : Workout.t) :
  (Workout.calories_burned w =? 0) = false -> stored_row w = w.
Proof. intros H. destruct w. unfold stored_row. simpl in *. now rewrite H. Qed.

Lemma stored_row_idem (w : Workout.t) : stored_row (stored_row w) = stored_row w.
Proof.
  unfold stored_row. simpl.
  destruct (Workout.calories_burned w =? 0) eqn:Hz; [| now rewrite Hz].
  destruct (int_of_product _ _ =? 0) eqn:He; [| reflexivity].
  apply Z.eqb_eq in He. now rewrite He.
Qed.

Lemma stored_row_checked (w : Workout.t) :
  workout_checked w -> workout_checked (stored_row w).
Proof.
  intros [Hdur Hcal]. split; simpl; [exact Hdur |].
  destruct (_ =? 0); [now apply rate_for_nonneg | exact Hcal].
Qed.

Lemma checks_pass (w : Workout.t) :
  positive_integer (Workout.duration w) &&
  positive_integer (Workout.calories_burned w) = true <-> workout_checked w.
Proof.
  unfold positive_integer, workout_checked.
  rewrite andb_true_iff, !Z.leb_le. reflexivity.
Qed.

(** [save] on a workout, with the receiver of [post_save]: the instance
    does not pass the checks, and nothing is written; or its row, with the
    calories filled in, is put under its key. *)
Lemma save_result (w : Workout.t) (db db' : Store) (r : result unit) :
  Workout_save w db = (db', r) ->
  (r = Raise IntegrityError /\ db' = db /\ ~ workout_checked w) \/
  (r = Ok tt /\ workout_checked w /\
   db' = {| fitness_workouts := upsert (stored_row w) (fitness_workouts db);
            fitness_exercises := fitness_exercises db |}).
Proof.
  unfold Workout_save.
  destruct (_ && _) eqn:Hchk.
  2:{ intros [= <- <-]. left. repeat split; trivial.
      rewrite <- checks_pass, Hchk. discriminate. }
  apply checks_pass in Hchk. intros H. right.
  assert (Hest : positive_integer
                   (int_of_product (Workout.duration w)
                      (rate_for (Workout.workout_type w))) = true).
  { apply Z.leb_le, rate_for_nonneg, Hchk. }
  revert H. unfold bind, write_workout, upsert. cbn [stored_row Workout.pk].
  destruct (existsb _ _) eqn:Hex;
    unfold post_save_Workout, auto_calculate_calories;
    destruct (Workout.calories_burned w =? 0) eqn:Hz; cbn [orb];
    unfold Workout_filter_pk_update; try rewrite Hest; cbn [fitness_workouts fitness_exercises];
    intros [= <- <-]; (split; [reflexivity | split; [exact Hchk | f_equal]]).
  - rewrite map_map. apply map_ext. intros x.
    destruct (Nat.eqb (Workout.pk x) (Workout.pk w)) eqn:Hx.
    + rewrite Nat.eqb_refl. unfold stored_row. now rewrite Hz.
    + now rewrite Hx.
  - now rewrite (stored_row_nonzero w Hz).
  - rewrite map_app. cbn [map]. rewrite Nat.eqb_refl. f_equal.
    + apply map_unchanged. intros x Hin.
      destruct (Nat.eqb (Workout.pk x) (Workout.pk w)) eqn:Hx; [| reflexivity].
      assert (existsb (fun w0 => Nat.eqb (Workout.pk w0) (Workout.pk w))
                (fitness_workouts db) = true) as Hc
        by (apply existsb_exists; eauto).
      congruence.
    + unfold stored_row. now rewrite Hz.
  - now rewrite (stored_row_nonzero w Hz).
Qed.

(** *** Rows put under a key *)

Lemma existsb_pk_In (p : nat) (rows : list Workout.t) :
  existsb (fun w => Nat.eqb (Workout.pk w) p) rows = true <->
  In p (map Workout.pk rows).
Proof.
  rewrite existsb_exists, in_map_iff. split.
  - intros (w & Hw & Hp). apply Nat.eqb_eq in Hp. eauto.
  - intros (w & Hp & Hw). exists w. split; [exact Hw | now apply Nat.eqb_eq].
Qed.

Lemma next_pk_not_in (pks : list nat) : ~ In (next_pk pks) pks.
Proof.
  intros H. apply list_elem_of_In, max_list_elem_of_le in H.
  unfold next_pk in H. lia.
Qed.

Lemma upsert_fresh (row : Workout.t) (rows : list Workout.t) :
  ~ In (Workout.pk row) (map Workout.pk rows) ->
  upsert row rows = (rows ++ [row])%list.
Proof.
  intros H. unfold upsert.
  destruct (existsb _ rows) eqn:Hex; [| reflexivity].
  now apply existsb_pk_In in Hex.
Qed.

Lemma upsert_known (row : Workout.t) (rows : list Workout.t) :
  In (Workout.pk row) (map Workout.pk rows) ->
  upsert row rows =
  map (fun w => if Nat.eqb (Workout.pk w) (Workout.pk row) then row else w) rows.
Proof.
  intros H. unfold upsert. apply existsb_pk_In in H. now rewrite H.
Qed.

(** A row that the table holds, put under its key again, leaves the table
    as it is. *)
Lemma upsert_present (row : Workout.t) (rows : list Workout.t) :
  NoDup (map Workout.pk rows) -> In row rows -> upsert row rows = rows.
Proof.
  intros Hnd Hin. rewrite upsert_known by now apply in_map.
  apply map_unchanged. intros x Hx.
  destruct (Nat.eqb_spec (Workout.pk x) (Workout.pk row)) as [Heq|]; [| reflexivity].
  clear -Hnd Hin Hx Heq. induction rows as [|y rows IH]; [contradiction |].
  simpl in Hnd. apply NoDup_cons in Hnd as [Hy Hnd].
  destruct Hin as [->|Hin], Hx as [->|Hx]; trivial.
  - exfalso. apply Hy. rewrite <- Heq. apply list_elem_of_In. now apply in_map.
  - exfalso. apply Hy. rewrite Heq. apply list_elem_of_In. now apply in_map.
  - now apply IH.
Qed.

Lemma upsert_keys (row : Workout.t) (rows : list Workout.t) :
  map Workout.pk (upsert row rows) =
  if existsb (fun w => Nat.eqb (Workout.pk w) (Workout.pk row)) rows
  then map Workout.pk rows
  else (map Workout.pk rows ++ [Workout.pk row])%list.
Proof.
  unfold upsert. destruct (existsb _ rows).
  - rewrite map_map. apply map_ext. intros x.
    destruct (Nat.eqb_spec (Workout.pk x) (Workout.pk row)); congruence.
  - now rewrite map_app.
Qed.

(** [Workout.objects.create]: the checks refuse the values and nothing is
    written, or the row of the new instance, with the calories filled in,
    is added at the end. *)
Lemma create_result user name ty dur cal notes d db db' r :
  Workout_objects_create user name ty dur cal notes d db = (db', r) ->
  let instance := Workout.Build (next_pk (keys db)) user name ty d dur cal notes in
  (r = Raise IntegrityError /\ db' = db) \/
  (r = Ok instance /\ workout_checked instance /\
   db' = {| fitness_workouts := (fitness_workouts db ++ [stored_row instance])%list;
            fitness_exercises := fitness_exercises db |}).
Proof.
  unfold Workout_objects_create, keys. cbv zeta.
  set (instance := Workout.Build _ _ _ _ _ _ _ _). intros H.
  unfold bind in H.
  destruct (Workout_save instance db) as [db1 [[]|e]] eqn:Hs;
    apply save_result in Hs as [(H1 & H2 & _) | (H1 & H2 & H3)];
    try discriminate; injection H as <- <-.
  - right. repeat split; try apply H2. rewrite H3. f_equal.
    apply upsert_fresh. apply next_pk_not_in.
  - left. injection H1 as ->. split; [reflexivity | exact H2].
Qed.

(** [Exercise.objects.create]: the checks refuse the counts and nothing is
    written; or the exercise is added at the end and its workout is saved,
    which the checks on the workout may refuse in turn. *)
Lemma exercise_create_result w name category sets reps weight rest_time notes
    db db' r :
  Exercise_objects_create w name category sets reps weight rest_time notes db =
    (db', r) ->
  let e := Exercise.Build (next_pk (map Exercise.pk (fitness_exercises db)))
             (Workout.pk w) name category sets reps weight rest_time notes in
  (r = Raise IntegrityError /\ db' = db) \/
  (exercise_checked e /\
   ((r = Raise IntegrityError /\ ~ workout_checked w /\
     db' = {| fitness_workouts := fitness_workouts db;
              fitness_exercises := (fitness_exercises db ++ [e])%list |}) \/
    (r = Ok tt /\ workout_checked w /\
     db' = {| fitness_workouts := upsert (stored_row w) (fitness_workouts db);
              fitness_exercises := (fitness_exercises db ++ [e])%list |}))).
Proof.
  unfold Exercise_objects_create. cbv zeta.
  set (e := Exercise.Build _ _ _ _ _ _ _ _ _). intros H.
  destruct (_ && _) eqn:Hchk.
  2:{ injection H as <- <-. now left. }
  right. split.
  { unfold exercise_checked, positive_integer in *. simpl.
    rewrite !andb_true_iff, !Z.leb_le in Hchk. tauto. }
  unfold bind, update_workout_on_exercise_change in H. fold e in H.
  match type of H with
  | context [Workout_save w ?s] =>
      destruct (Workout_save w s) as [db1 [[]|ex]] eqn:Hs
  end; apply save_result in Hs as [(H1 & H2 & H3) | (H1 & H2 & H3)];
    try discriminate; injection H as <- <-.
  - right. repeat split; try apply H2. exact H3.
  - left. injection H1 as ->. repeat split; trivial.
Qed.

(** * The counters and the rows that an import adds *)

Lemma filter_first_in user name d db w :
  Workout_filter_first user name d db = (db, Ok (Some w)) ->
  In w (fitness_workouts db) /\ workout_matches user name d w = true.
Proof.
  unfold Workout_filter_first. intros [= H].
  apply last_Some in H as [l' Hl].
  apply filter_In. rewrite Hl. apply in_or_app. right. now left.
Qed.

Section Counting.
Variables (user : User) (n0 m0 : nat).

(** The tables have grown by what the counters say. *)
Let counted (c : counts) (db : Store) : Prop :=
  length (fitness_workouts db) = (n0 + imported c)%nat /\
  length (fitness_exercises db) = (m0 + exercises c)%nat.

Let key_known (w : Workout.t) (db : Store) : Prop := In (Workout.pk w) (keys db).

Lemma found_key_known c name d db w :
  counted c db -> Workout_filter_first user name d db = (db, Ok (Some w)) ->
  key_known w db.
Proof.
  intros _ H. apply filter_first_in in H as [Hin _]. now apply in_map.
Qed.

Lemma create_counted c name ty dur cal notes d :
  triple (counted c) (Workout_objects_create user name ty dur cal notes d)
    (fun w db => counted (add_workout c) db /\ key_known w db) (fun _ => True).
Proof.
  intros db [Hw He].
  destruct (Workout_objects_create _ _ _ _ _ _ _ db) as [db' r] eqn:Hc.
  apply create_result in Hc as [[-> ->] | (-> & _ & ->)]; [exact I |].
  unfold counted, key_known, keys. simpl.
  rewrite length_app, map_app, Hw. simpl. repeat split; [lia | exact He |].
  apply in_or_app. right. now left.
Qed.

Lemma exercise_counted c w name category sets reps weight rest_time notes :
  triple (fun db => counted c db /\ key_known w db)
    (Exercise_objects_create w name category sets reps weight rest_time notes)
    (fun _ db => counted (add_exercise c) db /\ key_known w db) (fun _ => True).
Proof.
  intros db [[Hw He] Hk].
  destruct (Exercise_objects_create _ _ _ _ _ _ _ _ db) as [db' r] eqn:Hc.
  apply exercise_create_result in Hc
    as [[-> ->] | (_ & [(-> & _ & ->) | (-> & _ & ->)])]; try exact I.
  assert (Hkey : In (Workout.pk (stored_row w)) (map Workout.pk (fitness_workouts db)))
    by exact Hk.
  unfold counted, key_known, keys. simpl.
  rewrite upsert_keys, (proj2 (existsb_pk_In _ _) Hkey).
  rewrite (upsert_known _ _ Hkey), length_map, length_app, Hw, He. simpl.
  repeat split; [lia | exact Hk].
Qed.

Lemma import_counted data_file ow :
  triple (counted (Counts 0 0)) (import_data user data_file ow) counted
    (fun _ => True).
Proof.
  apply (import_data_keeps user counted key_known (fun _ => True)).
  - trivial.
  - exact found_key_known.
  - exact create_counted.
  - exact exercise_counted.
Qed.

End Counting.

(** X1. An import that returns has added as many rows to the two tables as
    it reports: the workouts table is longer by the number of imported
    workouts and the exercises table by the number of imported exercises,
    in the three formats and with either value of [overwrite_existing]. *)
Theorem import_counts_rows_added (user : User) (data_file : upload)
    (overwrite_existing : bool) (db db' : Store) (c : counts) :
  import_data user data_file overwrite_existing db = (db', Ok c) ->
  length (fitness_workouts db') =
    (length (fitness_workouts db) + imported c)%nat /\
  length (fitness_exercises db') =
    (length (fitness_exercises db) + exercises c)%nat.
Proof.
  intros H.
  pose proof (import_counted user (length (fitness_workouts db))
                (length (fitness_exercises db)) data_file overwrite_existing db)
    as Ht.
  rewrite H in Ht. apply Ht. simpl. split; lia.
Qed.

Lemma import_counts_rows_added_witness :
  let run := import_data 1%nat (txt two_workouts_text) false leg_day_store in
  snd run = Ok (Counts 1 2) /\
  length (fitness_workouts (fst run)) = 2%nat /\
  length (fitness_exercises (fst run)) = 3%nat.
Proof.
  split; [vm_compute; reflexivity |].
  apply (import_counts_rows_added 1%nat (txt two_workouts_text) false
           leg_day_store _ (Counts 1 2)).
  vm_compute. reflexivity.
Defined.

(** * The integrity of the store under an import *)

Lemma integrity_add_workout (db : Store) (row : Workout.t) :
  integrity db -> workout_checked row -> stored_row row = row ->
  ~ In (Workout.pk row) (keys db) ->
  integrity {| fitness_workouts := fitness_workouts db ++ [row];
               fitness_exercises := fitness_exercises db |}.
Proof.
  intros [Hwk Hek Hfk Hwc Hec Hcf] Hrow Hfilled Hfresh.
  split; unfold keys in *; simpl; trivial.
  - rewrite map_app. apply NoDup_app. repeat split; trivial.
    + intros p Hp Hq. apply list_elem_of_singleton in Hq. subst p.
      now apply Hfresh, list_elem_of_In.
    + apply NoDup_singleton.
  - eapply Forall_impl; [exact Hfk |]. simpl. intros e He.
    rewrite map_app. apply in_or_app. now left.
  - apply Forall_app. split; [exact Hwc | now constructor].
  - apply Forall_app. split; [exact Hcf | now constructor].
Qed.

Lemma integrity_add_exercise (db : Store) (e : Exercise.t) :
  integrity db -> exercise_checked e ->
  Exercise.pk e = next_pk (map Exercise.pk (fitness_exercises db)) ->
  In (Exercise.workout e) (keys db) ->
  integrity {| fitness_workouts := fitness_workouts db;
               fitness_exercises := fitness_exercises db ++ [e] |}.
Proof.
  intros [Hwk Hek Hfk Hwc Hec Hcf] He Hpk Hw.
  split; unfold keys in *; simpl; trivial.
  - rewrite map_app. apply NoDup_app. repeat split; trivial.
    + intros p Hp Hq. apply list_elem_of_In in Hp.
      apply list_elem_of_singleton in Hq. subst p. simpl in Hp.
      rewrite Hpk in Hp. now apply next_pk_not_in in Hp.
    + apply NoDup_singleton.
  - apply Forall_app. split; [exact Hfk | now constructor].
  - apply Forall_app. split; [exact Hec | now constructor].
Qed.

Lemma same_key_same_row (rows : list Workout.t) (a b : Workout.t) :
  NoDup (map Workout.pk rows) -> In a rows -> In b rows ->
  Workout.pk a = Workout.pk b -> a = b.
Proof.
  induction rows as [|y rows IH]; [contradiction |].
  simpl. intros [Hy Hnd]%NoDup_cons [->|Ha] [->|Hb] Heq; trivial.
  - exfalso. apply Hy. rewrite Heq. apply list_elem_of_In. now apply in_map.
  - exfalso. apply Hy. rewrite <- Heq. apply list_elem_of_In. now apply in_map.
  - now apply IH.
Qed.

(** *** Rows added for a user *)

Lemma adds_for_refl (user : User) (db : Store) : adds_for user db db.
Proof. exists [], []. now rewrite !app_nil_r. Qed.

Lemma adds_for_workout (user : User) (db0 db : Store) (row : Workout.t) :
  adds_for user db0 db -> Workout.user row = user ->
  adds_for user db0 {| fitness_workouts := fitness_workouts db ++ [row];
                       fitness_exercises := fitness_exercises db |}.
Proof.
  intros (ws & es & Hw & He & Fw & Fe) Hrow.
  exists (ws ++ [row])%list, es. simpl. repeat split; trivial.
  - now rewrite Hw, <- app_assoc.
  - apply Forall_app. split; [exact Fw | now constructor].
  - eapply Forall_impl; [exact Fe |]. simpl. intros e (w & Hin & Hpk & Hu).
    exists w. repeat split; trivial. apply in_or_app. now left.
Qed.

Lemma adds_for_exercise (user : User) (db0 db : Store) (e : Exercise.t)
    (w : Workout.t) :
  adds_for user db0 db -> In w (fitness_workouts db) ->
  Workout.pk w = Exercise.workout e -> Workout.user w = user ->
  adds_for user db0 {| fitness_workouts := fitness_workouts db;
                       fitness_exercises := fitness_exercises db ++ [e] |}.
Proof.
  intros (ws & es & Hw & He & Fw & Fe) Hin Hpk Hu.
  exists ws, (es ++ [e])%list. simpl. repeat split; trivial.
  - now rewrite He, <- app_assoc.
  - apply Forall_app. split; [exact Fe |]. constructor; [| constructor].
    exists w. now repeat split.
Qed.

Section Keeping.
Variables (user : User) (db0 : Store).

(** The store is sound and is [db0] with rows added for [user]. *)
Let kept (db : Store) : Prop := integrity db /\ adds_for user db0 db.

(** The store holds the row of the instance, and the instance is a workout
    of [user]. *)
Let held (w : Workout.t) (db : Store) : Prop :=
  In (stored_row w) (fitness_workouts db) /\ Workout.user w = user.

Lemma found_held (c : counts) name d db w :
  kept db -> Workout_filter_first user name d db = (db, Ok (Some w)) ->
  held w db.
Proof.
  intros [Hint _] H. apply filter_first_in in H as [Hin Hm].
  pose proof (calories_filled db Hint) as Hcf.
  rewrite Forall_forall in Hcf. split.
  - rewrite (Hcf w) by now apply list_elem_of_In. exact Hin.
  - unfold workout_matches in Hm. rewrite !andb_true_iff in Hm.
    now apply Nat.eqb_eq.
Qed.

Lemma create_kept (c : counts) name ty dur cal notes d :
  triple kept (Workout_objects_create user name ty dur cal notes d)
    (fun w db => kept db /\ held w db) kept.
Proof.
  intros db [Hint Hadd].
  destruct (Workout_objects_create _ _ _ _ _ _ _ db) as [db' r] eqn:Hc.
  apply create_result in Hc as [[-> ->] | (-> & Hchk & ->)]; [now split |].
  set (instance := Workout.Build _ _ _ _ _ _ _ _) in *.
  split; [split | split; [| reflexivity]].
  - apply integrity_add_workout; trivial.
    + now apply stored_row_checked.
    + apply stored_row_idem.
    + apply next_pk_not_in.
  - now apply adds_for_workout.
  - simpl. apply in_or_app. right. now left.
Qed.

Lemma exercise_kept (c : counts) w name category sets reps weight rest_time
    notes :
  triple (fun db => kept db /\ held w db)
    (Exercise_objects_create w name category sets reps weight rest_time notes)
    (fun _ db => kept db /\ held w db) kept.
Proof.
  intros db [[Hint Hadd] [Hin Hu]].
  destruct (Exercise_objects_create _ _ _ _ _ _ _ _ db) as [db' r] eqn:Hc.
  apply exercise_create_result in Hc
    as [[-> ->] | (He & [(-> & _ & ->) | (-> & _ & ->)])]; [now split | |].
  all: set (e := Exercise.Build _ _ _ _ _ _ _ _ _) in *.
  all: assert (Hkey : In (Exercise.workout e) (keys db))
         by (apply (in_map Workout.pk) in Hin; exact Hin).
  - split.
    + now apply integrity_add_exercise.
    + now apply (adds_for_exercise user db0 db e (stored_row w)).
  - rewrite (upsert_present _ _ (workout_keys db Hint) Hin).
    split; [split | split; trivial].
    + now apply integrity_add_exercise.
    + now apply (adds_for_exercise user db0 db e (stored_row w)).
Qed.

Lemma import_kept data_file ow :
  triple kept (import_data user data_file ow) (fun _ => kept) kept.
Proof.
  apply (import_data_keeps user (fun _ => kept) held kept).
  - trivial.
  - exact found_held.
  - exact create_kept.
  - exact exercise_kept.
Qed.

End Keeping.

Lemma import_integrity_adds (user : User) (data_file : upload) (ow : bool)
    (db : Store) :
  integrity db ->
  integrity (fst (import_data user data_file ow db)) /\
  adds_for user db (fst (import_data user data_file ow db)).
Proof.
  intros Hint.
  pose proof (import_kept user db data_file ow db
                (conj Hint (adds_for_refl user db))) as Ht.
  now destruct (import_data user data_file ow db) as [db' [c|e]].
Qed.


(** * What an import leaves alone *)

Lemma insert_by_date_In (w x : Workout.t) (sorted : list Workout.t) :
  In x (insert_by_date w sorted) <-> x = w \/ In x sorted.
Proof.
  induction sorted as [|y l IH]; simpl; [intuition congruence |].
  destruct (date_ltb _ _); simpl; [intuition congruence |].
  rewrite IH. intuition congruence.
Qed.

Lemma sorted_In (x : Workout.t) (rows : list Workout.t) :
  In x (fold_right insert_by_date [] rows) <-> In x rows.
Proof.
  induction rows as [|y l IH]; simpl; [reflexivity |].
  rewrite insert_by_date_In, IH. intuition congruence.
Qed.

(** The workouts that an export lists are the rows of the user. *)
Lemma user_workouts_In (db : Store) (user : User) (w : Workout.t) :
  In w (user_workouts db user) <->
  In w (fitness_workouts db) /\ Workout.user w = user.
Proof.
  unfold user_workouts. rewrite sorted_In, filter_In, Nat.eqb_eq. reflexivity.
Qed.

Lemma filter_none {T} (f : T -> bool) (l : list T) :
  Forall (fun x => f x = false) l -> List.filter f l = [].
Proof.
  induction 1 as [|x l Hx _ IH]; simpl; [reflexivity | now rewrite Hx].
Qed.

Lemma exports_agree (db db' : Store) (workouts : list Workout.t) :
  (forall w, In w workouts -> exercises_of db' w = exercises_of db w) ->
  export_json_data db' workouts = export_json_data db workouts /\
  export_csv_data db' workouts = export_csv_data db workouts /\
  export_text_data db' workouts = export_text_data db workouts.
Proof.
  intros H. unfold export_json_data, export_csv_data, export_text_data.
  assert (Hj : map (export_json_workout db') workouts =
               map (export_json_workout db) workouts).
  { apply map_ext_in. intros w Hw. unfold export_json_workout. now rewrite H. }
  assert (Hc : map (export_csv_workout db') workouts =
               map (export_csv_workout db) workouts).
  { apply map_ext_in. intros w Hw. unfold export_csv_workout. now rewrite H. }
  assert (Ht : map (export_text_workout db') workouts =
               map (export_text_workout db) workouts).
  { apply map_ext_in. intros w Hw. unfold export_text_workout. now rewrite H. }
  now rewrite Hj, Hc, Ht.
Qed.

(** Rows added for a user are not rows of another user. *)
Lemma adds_for_other (user other : User) (db db' : Store) :
  integrity db' -> adds_for user db db' -> other <> user ->
  user_workouts db' other = user_workouts db other /\
  forall w, In w (fitness_workouts db) -> Workout.user w = other ->
            exercises_of db' w = exercises_of db w.
Proof.
  intros Hint (ws & es & Hw & He & Fw & Fe) Hne. split.
  - unfold user_workouts. rewrite Hw, List.filter_app.
    rewrite (filter_none _ ws), app_nil_r; [reflexivity |].
    eapply Forall_impl; [exact Fw |]. simpl. intros w ->.
    apply Nat.eqb_neq. congruence.
  - intros w Hin Hu. unfold exercises_of. rewrite He, List.filter_app.
    rewrite (filter_none _ es), app_nil_r; [reflexivity |].
    eapply Forall_impl; [exact Fe |]. simpl. intros e (w' & Hin' & Hpk & Hu').
    apply Nat.eqb_neq. intros Heq.
    assert (w' = w).
    { apply (same_key_same_row (fitness_workouts db')); trivial.
      - exact (workout_keys db' Hint).
      - rewrite Hw. apply in_or_app. now left.
      - congruence. }
    subst w'. congruence.
Qed.


(** X4. An import for one user leaves what every other user exports as it
    was, in the three formats of the import and of the export, with either
    value of [overwrite_existing], whether the import returns or raises. *)
Theorem import_leaves_other_users (user other : User) (data_file : upload)
    (overwrite_existing : bool) (db : Store) (format : file_type) :
  integrity db -> other <> user ->
  export_data (fst (import_data user data_file overwrite_existing db)) other
    format =
  export_data db other format.
Proof.
  intros Hint Hne.
  destruct (import_integrity_adds user data_file overwrite_existing db Hint)
    as [Hint' Hadd].
  destruct (adds_for_other user other db _ Hint' Hadd Hne) as [Hws Hes].
  unfold export_data. rewrite Hws.
  destruct (exports_agree db (fst (import_data user data_file overwrite_existing db))
              (user_workouts db other)) as (Hj & Hc & Ht).
  { intros w Hw. apply user_workouts_In in Hw as [Hin Hu]. now apply Hes. }
  destruct format; now rewrite ?Hj, ?Hc, ?Ht.
Qed.



Lemma import_leaves_other_users_witness :
  snd (import_data 1%nat (txt two_workouts_text) true two_users_store) =
    Ok (Counts 2 2) /\
  export_data
    (fst (import_data 1%nat (txt two_workouts_text) true two_users_store))
    2%nat txt_format =
  export_data two_users_store 2%nat txt_format.
Proof.
  split; [vm_compute; reflexivity |].
  apply (import_leaves_other_users 1%nat 2%nat (txt two_workouts_text) true
           two_users_store txt_format); [sound_store | lia].
Defined.

(** * Adding an exercise to a workout *)

Lemma stored_row_checks (w : Workout.t) :
  workout_checked (stored_row w) -> workout_checked w.
Proof.
  unfold workout_checked, stored_row. simpl.
  destruct (Workout.calories_burned w =? 0) eqn:Hz; [| trivial].
  apply Z.eqb_eq in Hz. rewrite Hz. intros [Hd _]. split; [exact Hd | lia].
Qed.

Lemma held_checked (db : Store) (w : Workout.t) :
  integrity db -> In (stored_row w) (fitness_workouts db) -> workout_checked w.
Proof.
  intros Hint Hin. apply stored_row_checks.
  pose proof (workout_checks db Hint) as Hc. rewrite Forall_forall in Hc.
  now apply Hc, list_elem_of_In.
Qed.

(** The exercise is added, and the workouts table is as before. *)
Lemma exercise_create_ok (db : Store) (w : Workout.t)
    (name category : string) (sets reps : Z) (weight : pyfloat)
    (rest_time : Z) (notes : string) :
  integrity db -> In (stored_row w) (fitness_workouts db) ->
  0 <= sets -> 0 <= reps -> 0 <= rest_time ->
  Exercise_objects_create w name category sets reps weight rest_time notes db =
    ({| fitness_workouts := fitness_workouts db;
        fitness_exercises :=
          fitness_exercises db ++
          [Exercise.Build (next_pk (map Exercise.pk (fitness_exercises db)))
             (Workout.pk w) name category sets reps weight rest_time notes] |},
     Ok tt).
Proof.
  intros Hint Hin Hsets Hreps Hrest.
  destruct (exercise_create_checked w name category sets reps weight
              rest_time notes db (held_checked db w Hint Hin) Hsets Hreps Hrest)
    as (db1 & Hrun & _).
  rewrite Hrun. f_equal.
  apply exercise_create_result in Hrun
    as [[[=] _] | (_ & [([=] & _) | (_ & _ & ->)])].
  f_equal. exact (upsert_present _ _ (workout_keys db Hint) Hin).
Qed.



(** * Milestones of a new workout *)

(** A workout that was created with values that pass the checks. *)
Lemma create_ok user name ty dur cal notes d db :
  0 <= dur -> 0 <= cal ->
  let instance := Workout.Build (next_pk (keys db)) user name ty d dur cal notes in
  Workout_objects_create user name ty dur cal notes d db =
    ({| fitness_workouts := fitness_workouts db ++ [stored_row instance];
        fitness_exercises := fitness_exercises db |}, Ok instance).
Proof.
  intros Hdur Hcal instance.
  destruct (Workout_objects_create user name ty dur cal notes d db)
    as [db' r] eqn:Hrun.
  pose proof Hrun as Hres.
  apply create_result in Hres as [[-> ->] | (-> & _ & ->)]; [| reflexivity].
  exfalso. unfold Workout_objects_create, bind in Hrun.
  destruct (save_checked (Workout.Build (next_pk (map Workout.pk (fitness_workouts db)))
                            user name ty d dur cal notes) db) as (db1 & Hs & _).
  { split; assumption. }
  rewrite Hs in Hrun. discriminate.
Qed.

Section NewWorkout.
Variables (db db' : Store) (user : User) (name ty : string) (dur cal : Z)
  (notes : string) (d : pydate) (instance : Workout.t).
Hypothesis created :
  Workout_objects_create user name ty dur cal notes d db = (db', Ok instance).

Lemma created_instance :
  instance = Workout.Build (next_pk (keys db)) user name ty d dur cal notes /\
  fitness_workouts db' = (fitness_workouts db ++ [stored_row instance])%list.
Proof.
  pose proof created as H.
  apply create_result in H as [[[=] _] | ([= <-] & _ & ->)]. now split.
Qed.

Lemma created_count : workouts_count db' user = S (workouts_count db user).
Proof.
  destruct created_instance as [-> Hw]. unfold workouts_count.
  rewrite Hw, List.filter_app, length_app. simpl.
  rewrite Nat.eqb_refl. simpl. lia.
Qed.

Lemma created_total :
  cal <> 0 -> total_calories db' user = total_calories db user + cal.
Proof.
  intros Hcal. destruct created_instance as [-> Hw]. unfold total_calories.
  rewrite Hw, List.filter_app, map_app, fold_left_app. simpl.
  rewrite Nat.eqb_refl. simpl.
  now rewrite (proj2 (Z.eqb_neq _ _) Hcal).
Qed.

End NewWorkout.

(** X6. When a workout has been created, [check_workout_milestones] sends
    [workout_milestone_reached] exactly when the number of workouts that the
    user had before, plus one, is 1, 5, 10, 25, 50, 100, 250 or 500, and
    sends it with that number; for a workout that is saved again it sends
    nothing. *)
Theorem workout_milestone_on_create (db db' : Store) (user : User)
    (name ty : string) (dur cal : Z) (notes : string) (d : pydate)
    (instance : Workout.t) (milestone : nat) :
  Workout_objects_create user name ty dur cal notes d db = (db', Ok instance) ->
  (check_workout_milestones db' instance true = Some milestone <->
   milestone = S (workouts_count db user) /\ In milestone workout_milestones) /\
  check_workout_milestones db' instance false = None.
Proof.
  intros Hrun. split; [| reflexivity].
  pose proof (created_count _ _ _ _ _ _ _ _ _ _ Hrun) as Hcount.
  destruct (created_instance _ _ _ _ _ _ _ _ _ _ Hrun) as [Hinst _].
  unfold check_workout_milestones.
  replace (Workout.user instance) with user by now rewrite Hinst.
  rewrite Hcount.
  destruct (existsb _ workout_milestones) eqn:Hex.
  - apply existsb_exists in Hex as (m & Hin & ->%Nat.eqb_eq).
    split; [intros [= <-]; now split | intros [-> _]; reflexivity].
  - split; [discriminate |]. intros [-> Hin]. exfalso.
    assert (existsb (Nat.eqb (S (workouts_count db user))) workout_milestones = true)
      as Hc by (apply existsb_exists; eexists; split; [exact Hin | apply Nat.eqb_refl]).
    congruence.
Qed.

Lemma workout_milestone_on_create_witness :
  check_workout_milestones
    (fst (Workout_objects_create 3%nat "First" "other" 10 0 "" (Date 2024 1 1)
            two_users_store))
    (Workout.Build 3 3%nat "First" "other" (Date 2024 1 1) 10 0 "")
    true = Some 1%nat.
Proof.
  apply (workout_milestone_on_create two_users_store _ 3%nat "First" "other"
           10 0 "" (Date 2024 1 1)).
  - vm_compute. reflexivity.
  - split; [reflexivity | now left].
Defined.

(** X7. When a workout has been created, [check_calories_milestones] sends
    [calories_milestone_reached] exactly when the workout was created with
    calories above 0 and these calories take the total of the user's
    workouts from below a milestone to that milestone or beyond; it sends
    the highest milestone that the new total reaches, once, also when
    several milestones are passed at a time. A workout created with 0
    calories sends nothing, although its row gets calories filled in. *)
Theorem calories_milestone_on_create (db db' : Store) (user : User)
    (name ty : string) (dur cal : Z) (notes : string) (d : pydate)
    (instance : Workout.t) (milestone total : Z) :
  Workout_objects_create user name ty dur cal notes d db = (db', Ok instance) ->
  check_calories_milestones db' instance true = Some (milestone, total) <->
  0 < cal /\
  total = total_calories db user + cal /\
  In milestone calorie_milestones /\
  total_calories db user < milestone <= total /\
  forall m, In m calorie_milestones -> m <= total -> m <= milestone.
Proof.
  intros Hrun.
  destruct (created_instance _ _ _ _ _ _ _ _ _ _ Hrun) as [Hinst _].
  unfold check_calories_milestones.
  replace (Workout.user instance) with user by now rewrite Hinst.
  replace (Workout.calories_burned instance) with cal by now rewrite Hinst.
  cbn [andb]. destruct (Z.ltb_spec 0 cal) as [Hpos | Hneg].
  2:{ split; [discriminate | intros [H _]; lia]. }
  rewrite (created_total _ _ _ _ _ _ _ _ _ _ Hrun) by lia.
  set (before := total_calories db user).
  replace (before + cal - cal) with before by lia.
  unfold calorie_milestones. cbn [highest_reached].
  repeat match goal with
         | |- context [?a <=? ?b] => destruct (Z.leb_spec a b)
         end; cbn [Z.eqb];
    repeat match goal with
           | |- context [?a <? ?b] => destruct (Z.ltb_spec a b)
           end;
    (split;
     [intros [= <- <-] || discriminate || idtac
     | intros (_ & -> & Hin & Hbound & Hmax)]);
    try lia;
    try (repeat split; simpl; try tauto; try lia;
         intros m [<- | [<- | [<- | [<- | [<- | [<- | []]]]]]]; lia);
    try (simpl in Hin;
         destruct Hin as [<- | [<- | [<- | [<- | [<- | [<- | []]]]]]];
         try lia; try reflexivity;
         exfalso;
         first [ specialize (Hmax 1000 ltac:(simpl; tauto)); lia
               | specialize (Hmax 5000 ltac:(simpl; tauto)); lia
               | specialize (Hmax 10000 ltac:(simpl; tauto)); lia
               | specialize (Hmax 25000 ltac:(simpl; tauto)); lia
               | specialize (Hmax 50000 ltac:(simpl; tauto)); lia
               | specialize (Hmax 100000 ltac:(simpl; tauto)); lia ]).
Qed.

Lemma calories_milestone_on_create_witness :
  total_calories two_users_store 1%nat = 270 /\
  check_calories_milestones
    (fst (Workout_objects_create 1%nat "Long Ride" "cardio" 100 800 ""
            (Date 2024 1 5) two_users_store))
    (Workout.Build 3 1%nat "Long Ride" "cardio" (Date 2024 1 5) 100 800 "")
    true = Some (1000, 1070).
Proof.
  split; [reflexivity |].
  apply (calories_milestone_on_create two_users_store _ 1%nat "Long Ride"
           "cardio" 100 800 "" (Date 2024 1 5)).
  - vm_compute. reflexivity.
  - repeat split; try (vm_compute; congruence).
    + now left.
    + intros m [<- | [<- | [<- | [<- | [<- | [<- | []]]]]]];
        vm_compute; congruence.
Defined.

(** * What is written is read back: fields *)

(** *** Splitting *)

Lemma split_without (sep : ascii) (s : string) :
  has_char sep s = false -> split sep s = [s].
Proof.
  induction s as [|c s IH]; simpl; [reflexivity |].
  intros [Hc Hs]%orb_false_elim. rewrite Hc, (IH Hs). reflexivity.
Qed.

Lemma split_append (sep : ascii) (s t : string) :
  has_char sep s = false ->
  split sep (s +:+ String sep t) = s :: split sep t.
Proof.
  induction s as [|c s IH]; simpl.
  - intros _. now rewrite Ascii.eqb_refl.
  - intros [Hc Hs]%orb_false_elim. rewrite Hc, (IH Hs). reflexivity.
Qed.

Lemma has_char_append (c : ascii) (s t : string) :
  has_char c (s +:+ t) = has_char c s || has_char c t.
Proof.
  induction s as [|a s IH]; simpl; [reflexivity |].
  now rewrite IH, orb_assoc.
Qed.

(** *** Checking a range of numbers *)

Lemma range_check (f : Z -> bool) (lo hi : Z) :
  forallb (fun k => f (lo + Z.of_nat k)) (seq 0 (Z.to_nat (hi - lo + 1))) = true ->
  forall z, lo <= z <= hi -> f z = true.
Proof.
  intros H z Hz. rewrite forallb_forall in H.
  specialize (H (Z.to_nat (z - lo))).
  replace (lo + Z.of_nat (Z.to_nat (z - lo))) with z in H by lia.
  apply H. apply in_seq. lia.
Qed.

(** *** Dates *)

Lemma year_field (y : Z) :
  1 <= y <= 9999 ->
  has_char "-" (zero_pad 4 (str_of_int y)) = false /\
  read_Y (zero_pad 4 (str_of_int y)) = Some y.
Proof.
  intros Hy.
  pose proof (range_check
                (fun y => negb (has_char "-" (zero_pad 4 (str_of_int y))) &&
                          bool_decide (read_Y (zero_pad 4 (str_of_int y)) = Some y))
                1 9999) as H.
  cbv beta in H. specialize (H ltac:(vm_compute; reflexivity) y ltac:(lia)).
  apply andb_true_iff in H as [H1 H2]. apply negb_true_iff in H1.
  apply bool_decide_eq_true in H2. now split.
Qed.

Lemma month_field (m : Z) :
  1 <= m <= 12 ->
  has_char "-" (zero_pad 2 (str_of_int m)) = false /\
  read_m (zero_pad 2 (str_of_int m)) = Some m.
Proof.
  intros Hm.
  pose proof (range_check
                (fun m => negb (has_char "-" (zero_pad 2 (str_of_int m))) &&
                          bool_decide (read_m (zero_pad 2 (str_of_int m)) = Some m))
                1 12) as H.
  cbv beta in H. specialize (H ltac:(vm_compute; reflexivity) m ltac:(lia)).
  apply andb_true_iff in H as [H1 H2]. apply negb_true_iff in H1.
  apply bool_decide_eq_true in H2. now split.
Qed.

Lemma day_field (d : Z) :
  1 <= d <= 31 ->
  has_char "-" (zero_pad 2 (str_of_int d)) = false /\
  read_d (zero_pad 2 (str_of_int d)) = Some d.
Proof.
  intros Hd.
  pose proof (range_check
                (fun d => negb (has_char "-" (zero_pad 2 (str_of_int d))) &&
                          bool_decide (read_d (zero_pad 2 (str_of_int d)) = Some d))
                1 31) as H.
  cbv beta in H. specialize (H ltac:(vm_compute; reflexivity) d ltac:(lia)).
  apply andb_true_iff in H as [H1 H2]. apply negb_true_iff in H1.
  apply bool_decide_eq_true in H2. now split.
Qed.

Lemma days_in_month_le (y m : Z) : days_in_month y m <= 31.
Proof.
  unfold days_in_month.
  repeat match goal with |- context [if ?b then _ else _] => destruct b end; lia.
Qed.

(** The date that the exporters write is the date that the importers
    read. *)
Lemma strptime_strftime (d : pydate) :
  valid_date (year d) (month d) (day d) = true -> strptime (strftime d) = Some d.
Proof.
  destruct d as [y m dd]. simpl. intros Hv. pose proof Hv as Hvalid.
  unfold valid_date in Hv. rewrite !andb_true_iff, !Z.leb_le in Hv.
  pose proof (days_in_month_le y m) as Hle.
  destruct (year_field y) as [Hy1 Hy2]; [lia |].
  destruct (month_field m) as [Hm1 Hm2]; [lia |].
  destruct (day_field dd) as [Hd1 Hd2]; [lia |].
  unfold strptime, strftime. simpl year. simpl month. simpl day.
  set (ys := zero_pad 4 (str_of_int y)) in *.
  set (ms := zero_pad 2 (str_of_int m)) in *.
  set (ds := zero_pad 2 (str_of_int dd)) in *.
  change (ys +:+ "-" +:+ ms +:+ "-" +:+ ds)
    with (ys +:+ String "-" (ms +:+ String "-" ds)).
  rewrite (split_append "-" _ _ Hy1), (split_append "-" _ _ Hm1),
    (split_without "-" _ Hd1).
  rewrite Hy2, Hm2, Hd2. simpl. now rewrite Hvalid.
Qed.

(** * What is written is read back: the hierarchical document *)

Lemma next_pk_snoc (pks : list nat) :
  next_pk (pks ++ [next_pk pks]) = S (next_pk pks).
Proof. unfold next_pk. rewrite max_list_app_max. simpl. lia. Qed.

Lemma copy_exercises_same (pk workout : nat) (es : list Exercise.t) :
  Forall2 same_exercise es (copy_exercises pk workout es).
Proof.
  revert pk. induction es as [|e es IH]; intros pk; simpl; constructor.
  - now repeat split.
  - apply IH.
Qed.

Lemma copy_exercises_workout (pk workout : nat) (es : list Exercise.t) :
  Forall (fun e => Exercise.workout e = workout) (copy_exercises pk workout es).
Proof.
  revert pk. induction es as [|e es IH]; intros pk; simpl; constructor;
    [reflexivity | apply IH].
Qed.

Lemma copy_exercises_length (pk workout : nat) (es : list Exercise.t) :
  length (copy_exercises pk workout es) = length es.
Proof.
  revert pk. induction es as [|e es IH]; intros pk; simpl; [| rewrite IH];
    reflexivity.
Qed.

(** The exercises of a workout, created again for a workout that the store
    holds. *)
Section CopyExercises.
Variable create_again : Workout.t -> Exercise.t -> counts -> M counts.
Variable instance : Workout.t.
Hypothesis create_again_eq : forall e c,
  create_again instance e c =
  (Exercise_objects_create instance (Exercise.exercise_name e)
     (Exercise.category e) (Exercise.sets e) (Exercise.reps e)
     (Exercise.weight e) (Exercise.rest_time e) (Exercise.notes e) ;;;
   ret (add_exercise c)).

Lemma exercises_copied (es : list Exercise.t) : forall c db,
  integrity db -> In (stored_row instance) (fitness_workouts db) ->
  Forall exercise_checked es ->
  let db' :=
    {| fitness_workouts := fitness_workouts db;
       fitness_exercises :=
         fitness_exercises db ++
         copy_exercises (next_pk (map Exercise.pk (fitness_exercises db)))
           (Workout.pk instance) es |} in
  for_each (create_again instance) es c db =
    (db', Ok (Counts (imported c) (exercises c + length es))) /\
  integrity db'.
Proof.
  induction es as [|e es IH]; intros c db Hint Hin Hes; cbv zeta.
  - simpl. rewrite app_nil_r, Nat.add_0_r. destruct db, c. now split.
  - inversion Hes as [|? ? (Hs & Hr & Ht) Hes']; subst.
    pose proof (exercise_create_ok db instance (Exercise.exercise_name e)
                  (Exercise.category e) (Exercise.sets e) (Exercise.reps e)
                  (Exercise.weight e) (Exercise.rest_time e) (Exercise.notes e)
                  Hint Hin Hs Hr Ht) as Hrun.
    set (e' := Exercise.Build _ _ _ _ _ _ _ _ _) in Hrun.
    set (db1 := {| fitness_workouts := fitness_workouts db;
                   fitness_exercises := fitness_exercises db ++ [e'] |}) in Hrun.
    assert (Hint1 : integrity db1).
    { apply integrity_add_exercise; trivial.
      - now repeat split.
      - apply (in_map Workout.pk) in Hin. exact Hin. }
    destruct (IH (add_exercise c) db1 Hint1 Hin Hes') as [Hrest Hint2].
    cbv zeta in Hrest, Hint2.
    replace (next_pk (map Exercise.pk (fitness_exercises db1)))
      with (S (next_pk (map Exercise.pk (fitness_exercises db))))
      in Hrest, Hint2
      by (unfold db1; simpl; rewrite map_app; simpl;
          now rewrite next_pk_snoc).
    simpl copy_exercises. fold e'.
    replace (fitness_exercises db ++
             e' :: copy_exercises (S (next_pk (map Exercise.pk (fitness_exercises db))))
                     (Workout.pk instance) es)%list
      with (fitness_exercises db1 ++
            copy_exercises (S (next_pk (map Exercise.pk (fitness_exercises db))))
              (Workout.pk instance) es)%list
      by (unfold db1; simpl; now rewrite <- app_assoc).
    split; [| exact Hint2].
    simpl for_each. rewrite create_again_eq.
    rewrite (bind_ok _ _ db db1 (add_exercise c));
      [| now rewrite (bind_ok _ _ db db1 tt Hrun)].
    rewrite Hrest. simpl. do 3 f_equal. lia.
Qed.

End CopyExercises.

(** * Workouts that are created again *)

Lemma date_eqb_eq (a b : pydate) : date_eqb a b = true -> a = b.
Proof.
  destruct a, b. unfold date_eqb. simpl.
  rewrite !andb_true_iff, !Z.eqb_eq. intros [[-> ->] ->]. reflexivity.
Qed.

Lemma filter_first_none user name d db :
  has_workout db user name d = false ->
  Workout_filter_first user name d db = (db, Ok None).
Proof.
  unfold has_workout, Workout_filter_first. rewrite <- filter_last_truth.
  now destruct (last _).
Qed.

Lemma create_again_copies user w es c db :
  integrity db -> workout_checked w -> Forall exercise_checked es ->
  create_again user w es c db =
    (copied_store user w es db,
     Ok (Counts (S (imported c)) (exercises c + length es))) /\
  integrity (copied_store user w es db).
Proof.
  intros Hint [Hdur Hcal] Hes. unfold create_again.
  pose proof (create_ok user (Workout.name w) (Workout.workout_type w)
                (Workout.duration w) (Workout.calories_burned w)
                (Workout.notes w) (Workout.date w) db Hdur Hcal) as Hrun.
  cbv zeta in Hrun.
  set (instance := Workout.Build _ _ _ _ _ _ _ _) in Hrun.
  set (db1 := {| fitness_workouts := fitness_workouts db ++ [stored_row instance];
                 fitness_exercises := fitness_exercises db |}) in Hrun.
  assert (Hint1 : integrity db1).
  { apply integrity_add_workout; trivial.
    - apply stored_row_checked. now split.
    - apply stored_row_idem.
    - apply next_pk_not_in. }
  assert (Hin : In (stored_row instance) (fitness_workouts db1)).
  { unfold db1. simpl. apply in_or_app. right. now left. }
  destruct (exercises_copied create_exercise_again instance
              (fun e c => eq_refl) es (add_workout c) db1 Hint1 Hin Hes)
    as [Hloop Hint2].
  cbv zeta in Hloop, Hint2.
  rewrite (bind_ok _ _ db db1 instance Hrun). split.
  - rewrite Hloop. reflexivity.
  - exact Hint2.
Qed.

(** *** The store with a copy *)

Lemma copied_extends user w es db : extends db (copied_store user w es db).
Proof.
  unfold copied_store. cbv zeta. eexists _, _. simpl.
  split; [reflexivity |]. split; [reflexivity |]. split.
  - constructor; [| constructor]. simpl. unfold next_pk, top_pk, keys. lia.
  - eapply Forall_impl; [apply copy_exercises_workout |]. simpl.
    intros e ->. unfold next_pk, top_pk, keys. lia.
Qed.

Lemma copied_has_workout user w es db name d :
  has_workout (copied_store user w es db) user name d =
  has_workout db user name d ||
  (String.eqb (Workout.name w) name && date_eqb (Workout.date w) d).
Proof.
  unfold has_workout, copied_store. simpl. rewrite existsb_app. simpl.
  unfold workout_matches at 2. simpl.
  now rewrite Nat.eqb_refl, orb_false_r.
Qed.

Lemma copied_exercises user w es db :
  integrity db ->
  exercises_of (copied_store user w es db)
    (Workout.Build (next_pk (keys db)) user (Workout.name w)
       (Workout.workout_type w) (Workout.date w) (Workout.duration w)
       (Workout.calories_burned (stored_row w)) (Workout.notes w)) =
  copy_exercises (next_pk (map Exercise.pk (fitness_exercises db)))
    (next_pk (keys db)) es.
Proof.
  intros Hint. unfold exercises_of, copied_store. simpl.
  rewrite List.filter_app, filter_none.
  - simpl. apply forallb_filter_id.
    pose proof (copy_exercises_workout
                  (next_pk (map Exercise.pk (fitness_exercises db)))
                  (next_pk (keys db)) es) as H.
    apply forallb_forall. rewrite Forall_forall in H.
    intros e He. apply Nat.eqb_eq, H. now apply list_elem_of_In.
  - eapply Forall_impl; [exact (foreign_keys db Hint) |]. simpl.
    intros e He. apply Nat.eqb_neq. intros Heq. rewrite Heq in He.
    now apply next_pk_not_in in He.
Qed.

(** *** A run over workouts that creates each of them again *)

(** [kept w] are the exercises of [w] that the run creates again, and
    [good] is what the run asks of a workout. *)
Section CopyWorkouts.
Variables (user : User) (ow : bool) (db0 : Store).
Variable kept : Workout.t -> list Exercise.t.
Variable good : Workout.t -> Prop.
Variables (Idx State : Type) (count : State -> counts).
Variable run : Idx -> list Workout.t -> State -> M State.

Hypothesis source_sound : integrity db0.
Hypothesis kept_checked : forall w, Forall exercise_checked (kept w).
Hypothesis run_nil : forall i s db, run i [] s db = (db, Ok s).
Hypothesis run_cons : forall i w l s db,
  In w (fitness_workouts db0) -> good w -> integrity db ->
  (ow = false ->
   has_workout db user (Workout.name w) (Workout.date w) = false) ->
  exists i' s',
    count s' = Counts (S (imported (count s)))
                 (exercises (count s) + length (kept w)) /\
    run i (w :: l) s db = run i' l s' (copied_store user w (kept w) db).

Lemma source_exercises_checked (w : Workout.t) :
  Forall exercise_checked (exercises_of db0 w).
Proof.
  pose proof (exercise_checks db0 source_sound) as H.
  rewrite Forall_forall in *. intros e He. apply H.
  apply list_elem_of_In. apply list_elem_of_In in He.
  unfold exercises_of in He. now apply filter_In in He.
Qed.

Lemma source_workout_checked (w : Workout.t) :
  In w (fitness_workouts db0) -> workout_checked w /\ stored_row w = w.
Proof.
  intros Hin.
  pose proof (workout_checks db0 source_sound) as H1.
  pose proof (calories_filled db0 source_sound) as H2.
  rewrite Forall_forall in H1, H2.
  split; [apply H1 | apply H2]; now apply list_elem_of_In.
Qed.

Lemma run_copies (l : list Workout.t) : forall i s db,
  Forall (fun w => In w (fitness_workouts db0)) l -> Forall good l ->
  integrity db ->
  (ow = false -> all_new db user l) ->
  exists db2 copies s2,
    run i l s db = (db2, Ok s2) /\
    count s2 = Counts (imported (count s) + length l)
                 (exercises (count s) + length (concat (map kept l))) /\
    fitness_workouts db2 = (fitness_workouts db ++ copies)%list /\
    extends db db2 /\ integrity db2 /\
    Forall2 (fun w w' => copy_with (kept w) db2 user w w') l copies.
Proof.
  induction l as [|w l IH]; intros i s db Hl Hgood Hint Hnew.
  - exists db, [], s. rewrite run_nil. simpl. rewrite !Nat.add_0_r, app_nil_r.
    split; [reflexivity |]. split; [now destruct (count s) |].
    split; [reflexivity |]. split; [apply extends_refl |].
    split; [exact Hint | constructor].
  - inversion Hl as [|? ? Hw Hl']; subst.
    inversion Hgood as [|? ? Hgw Hgood']; subst.
    destruct (source_workout_checked w Hw) as [Hchk Hfilled].
    set (es := kept w).
    set (db1 := copied_store user w es db).
    destruct (create_again_copies user w es (count s) db Hint Hchk
                (kept_checked w)) as [_ Hint1].
    fold db1 in Hint1.
    destruct (run_cons i w l s db Hw Hgw Hint) as (i' & s' & Hcount & Hrun).
    { intros Hf. destruct (Hnew Hf) as [_ Hfresh].
      now inversion Hfresh. }
    fold es db1 in Hrun, Hcount.
    destruct (IH i' s' db1 Hl' Hgood' Hint1) as (db2 & copies & s2 & Hrest & Hc2 & Hws & Hext & Hint2 & Hcopies).
    { intros Hf. destruct (Hnew Hf) as [Hnd Hfresh].
      simpl in Hnd. apply NoDup_cons in Hnd as [Hnotin Hnd].
      inversion Hfresh as [|? ? _ Hfresh']; subst.
      split; [exact Hnd |].
      rewrite Forall_forall in *. intros w2 Hw2.
      unfold db1. rewrite copied_has_workout, (Hfresh' w2 Hw2). simpl.
      apply not_true_is_false. intros [Hn Hd]%andb_true_iff.
      apply String.eqb_eq in Hn. apply date_eqb_eq in Hd.
      apply Hnotin. apply list_elem_of_In, in_map_iff.
      exists w2. split; [| now apply list_elem_of_In].
      unfold name_and_date. now rewrite Hn, Hd. }
    set (w' := Workout.Build (next_pk (keys db)) user (Workout.name w)
                 (Workout.workout_type w) (Workout.date w) (Workout.duration w)
                 (Workout.calories_burned (stored_row w)) (Workout.notes w)).
    exists db2, (w' :: copies), s2. rewrite Hrun, Hrest.
    split; [reflexivity |]. split; [| split; [| split; [| split]]].
    + rewrite Hc2, Hcount. simpl. rewrite length_app. fold es. f_equal; lia.
    + rewrite Hws. unfold db1, copied_store. simpl. fold w'.
      now rewrite <- app_assoc.
    + apply (extends_trans db db1 db2); [apply copied_extends | exact Hext].
    + exact Hint2.
    + constructor; [| exact Hcopies].
      split; [reflexivity |]. split.
      * unfold same_workout, w'.
        cbn [Workout.name Workout.workout_type Workout.date Workout.duration
             Workout.calories_burned Workout.notes].
        now rewrite Hfilled.
      * assert (Hin' : In w' (fitness_workouts db1)).
        { unfold db1, copied_store. simpl. apply in_or_app. right. now left. }
        rewrite (extends_exercises_of db1 db2 w' Hext Hin').
        unfold db1, w'. rewrite (copied_exercises user w es db Hint).
        apply copy_exercises_same.
Qed.

End CopyWorkouts.

(** * The hierarchical document that was exported, imported *)

Lemma json_exercise_again (instance : Workout.t) (e : Exercise.t) (c : counts) :
  import_json_exercise instance (export_json_exercise e) c =
  create_exercise_again instance e c.
Proof. reflexivity. Qed.

Lemma json_exercises_again (instance : Workout.t) (es : list Exercise.t) :
  forall c db,
    for_each (import_json_exercise instance) (map export_json_exercise es) c db =
    for_each (create_exercise_again instance) es c db.
Proof.
  induction es as [|e es IH]; intros c db; simpl; [reflexivity |].
  rewrite json_exercise_again. unfold bind.
  destruct (create_exercise_again instance e c db) as [db1 [c1|ex]];
    [apply IH | reflexivity].
Qed.

(** The reading of a document whose keys are known. *)
Ltac read_json :=
  cbv beta iota zeta delta
    [bind getitem dict_get or_raise ret raise as_str as_int dict_lookup
     from_option id iterate truth andb negb String.eqb Ascii.eqb Bool.eqb].

(** A sub-document that [export_json_data] wrote for a workout is read
    as that workout. *)
Lemma json_workout_again (user : User) (ow : bool) (db0 db : Store)
    (w : Workout.t) (c : counts) :
  dated w ->
  (ow = false -> has_workout db user (Workout.name w) (Workout.date w) = false) ->
  forall r,
    create_again user w (exercises_of db0 w) c db = (fst r, Ok (snd r)) ->
    import_json_workout user ow (export_json_workout db0 w) c db =
      (fst r, Ok (snd r)).
Proof.
  intros [Hdate _] Hnew r Hrun.
  unfold import_json_workout, try_except.
  match goal with
  | |- match ?body db with _ => _ end = _ =>
      assert (Hbody : body db = create_again user w (exercises_of db0 w) c db)
  end.
  2:{ rewrite Hbody, Hrun. reflexivity. }
  unfold export_json_workout. read_json.
  rewrite (strptime_strftime _ Hdate).
  destruct ow.
  - read_json. unfold create_again, bind.
    destruct (Workout_objects_create _ _ _ _ _ _ _ db) as [db1 [inst|ex]];
      [| reflexivity].
    apply json_exercises_again.
  - rewrite (filter_first_none _ _ _ _ (Hnew eq_refl)).
    read_json. unfold create_again, bind.
    destruct (Workout_objects_create _ _ _ _ _ _ _ db) as [db1 [inst|ex]];
      [| reflexivity].
    apply json_exercises_again.
Qed.

Section JsonCopies.
Variables (user importer : User) (ow : bool) (db0 : Store).
Hypothesis source_sound : integrity db0.
Hypothesis source_dated : Forall dated (fitness_workouts db0).

Let run (_ : unit) (workouts : list Workout.t) (c : counts) : M counts :=
  for_each (import_json_workout importer ow)
    (map (export_json_workout db0) workouts) c.

Lemma json_run_cons (i : unit) w l c db :
  In w (fitness_workouts db0) -> True -> integrity db ->
  (ow = false ->
   has_workout db importer (Workout.name w) (Workout.date w) = false) ->
  exists (i' : unit) c',
    c' = Counts (S (imported c)) (exercises c + length (exercises_of db0 w)) /\
    run i (w :: l) c db =
      run i' l c' (copied_store importer w (exercises_of db0 w) db).
Proof.
  intros Hw _ Hint Hnew.
  exists tt, (Counts (S (imported c)) (exercises c + length (exercises_of db0 w))).
  split; [reflexivity |].
  destruct (source_workout_checked db0 source_sound w Hw) as [Hchk _].
  destruct (create_again_copies importer w (exercises_of db0 w) c db Hint Hchk
              (source_exercises_checked db0 source_sound w)) as [Hrun _].
  assert (Hd : dated w).
  { rewrite Forall_forall in source_dated.
    now apply source_dated, list_elem_of_In. }
  unfold run. simpl.
  now rewrite (bind_ok _ _ _ _ _
                 (json_workout_again importer ow db0 db w c Hd Hnew
                    (_, _) Hrun)).
Qed.

Lemma json_copies (db1 : Store) :
  integrity db1 ->
  (ow = false -> all_new db1 importer (user_workouts db0 user)) ->
  exists db2 copies,
    import_data importer (export_data db0 user json_format) ow db1 =
      (db2, Ok (Counts (length (user_workouts db0 user))
                  (length (concat (map (exercises_of db0)
                                     (user_workouts db0 user)))))) /\
    fitness_workouts db2 = (fitness_workouts db1 ++ copies)%list /\
    extends db1 db2 /\ integrity db2 /\
    Forall2 (copy_of db0 db2 importer) (user_workouts db0 user) copies.
Proof.
  intros Hint Hnew.
  destruct (run_copies importer ow db0 (exercises_of db0) (fun _ => True)
              unit counts (fun c => c) run
              source_sound (source_exercises_checked db0 source_sound)
              (fun _ _ _ => eq_refl) json_run_cons
              (user_workouts db0 user) tt (Counts 0 0) db1)
    as (db2 & copies & c2 & Hrun & Hc & Hrest); trivial.
  { apply Forall_forall. intros w Hw. apply list_elem_of_In in Hw.
    now apply user_workouts_In in Hw. }
  { now apply Forall_forall. }
  exists db2, copies. split; [| exact Hrest].
  simpl in Hc. subst c2. exact Hrun.
Qed.

End JsonCopies.

(** X8. The workouts of a user, exported as a hierarchical document and
    imported for a user into a store, are created there once each, in the
    order of the export, with the name, type, date, duration, calories and
    notes they have, each with its exercises in order and with their fields;
    the import reports as many workouts and exercises as the user has, and
    the rows that the store held are left as they were. The stores are
    sound and the dates are dates of the years 1000 to 9999; with
    [overwrite_existing] off, the exported workouts differ in name or date
    and the importing user has none of them yet. *)
Theorem json_export_import_copies (db db1 : Store) (user importer : User)
    (overwrite_existing : bool) :
  integrity db -> Forall dated (fitness_workouts db) -> integrity db1 ->
  (overwrite_existing = false ->
   all_new db1 importer (user_workouts db user)) ->
  exists db2 copies,
    import_data importer (export_data db user json_format) overwrite_existing
      db1 =
      (db2, Ok (Counts (length (user_workouts db user))
                  (length (concat (map (exercises_of db)
                                     (user_workouts db user)))))) /\
    fitness_workouts db2 = (fitness_workouts db1 ++ copies)%list /\
    extends db1 db2 /\
    Forall2 (copy_of db db2 importer) (user_workouts db user) copies.
Proof.
  intros Hint Hdated Hint1 Hnew.
  destruct (json_copies user importer overwrite_existing db Hint Hdated db1
              Hint1 Hnew) as (db2 & copies & Hrun & Hws & Hext & _ & Hcopies).
  now exists db2, copies.
Qed.

Lemma json_export_import_copies_witness :
  exists db2 copies,
    import_data 3%nat (export_data two_users_store 1%nat json_format) false
      two_users_store = (db2, Ok (Counts 1 1)) /\
    fitness_workouts db2 = (fitness_workouts two_users_store ++ copies)%list /\
    extends two_users_store db2 /\
    Forall2 (copy_of two_users_store db2 3%nat)
      (user_workouts two_users_store 1%nat) copies.
Proof.
  apply (json_export_import_copies two_users_store two_users_store 1%nat 3%nat
           false).
  - sound_store.
  - repeat constructor; vm_compute; congruence.
  - sound_store.
  - intros _. split.
    + vm_compute. apply NoDup_singleton.
    + repeat constructor.
Defined.

(** * What is written is read back: numbers *)

Lemma only_has_char (p : ascii -> bool) (c : ascii) (s : string) :
  only p s = true -> p c = false -> has_char c s = false.
Proof.
  intros Hs Hc. induction s as [|a s IH]; simpl in *; [reflexivity |].
  apply andb_true_iff in Hs as [Ha Hs]. rewrite (IH Hs), orb_false_r.
  destruct (Ascii.eqb_spec a c); [congruence | reflexivity].
Qed.

Lemma only_impl (p q : ascii -> bool) (s : string) :
  (forall c, p c = true -> q c = true) -> only p s = true -> only q s = true.
Proof.
  intros Hpq. induction s as [|a s IH]; simpl; [trivial |].
  intros [Ha Hs]%andb_true_iff. now rewrite (Hpq a Ha), IH.
Qed.

Lemma only_append (p : ascii -> bool) (s t : string) :
  only p (s +:+ t) = only p s && only p t.
Proof.
  induction s as [|a s IH]; simpl; [reflexivity |].
  now rewrite IH, andb_assoc.
Qed.

(** *** White space at the ends *)

Lemma lstrip_length (s : string) :
  lstrip s = s \/ (String.length (lstrip s) < String.length s)%nat.
Proof.
  induction s as [|c s IH]; simpl; [now left |].
  destruct (isspace c); [right | now left].
  destruct IH as [-> | IH]; lia.
Qed.

Lemma rstrip_length (s : string) :
  (String.length (rstrip s) <= String.length s)%nat.
Proof.
  induction s as [|c s IH]; simpl; [lia |].
  destruct (rstrip s); [destruct (isspace c) |]; simpl in *; lia.
Qed.

(** A string that [strip] leaves as it is has no white space at its
    ends. *)
Lemma strip_fixed (s : string) : strip s = s -> lstrip s = s /\ rstrip s = s.
Proof.
  unfold strip. intros H.
  destruct (lstrip_length s) as [Hl | Hl].
  - rewrite Hl in H. now split.
  - pose proof (rstrip_length (lstrip s)) as Hr. rewrite H in Hr. lia.
Qed.

Lemma rstrip_space (s : string) : rstrip (s +:+ " ") = rstrip s.
Proof.
  induction s as [|c s IH]; simpl; [reflexivity | now rewrite IH].
Qed.

Lemma strip_padded (s : string) : strip s = s -> strip (" " +:+ s +:+ " ") = s.
Proof.
  intros [Hl Hr]%strip_fixed. unfold strip. simpl.
  destruct s as [|c s]; [reflexivity |].
  simpl in Hl. simpl. destruct (isspace c) eqn:Hc.
  - exfalso. destruct (lstrip_length s) as [H | H]; rewrite Hl in H; simpl in H.
    + apply (f_equal String.length) in H. simpl in H. lia.
    + lia.
  - change (String c (s +:+ " ")) with (String c s +:+ " ").
    now rewrite rstrip_space.
Qed.

Lemma strip_led (s : string) : strip s = s -> strip (" " +:+ s) = s.
Proof. intros H. unfold strip in *. simpl. exact H. Qed.

Lemma strip_only (s : string) :
  only (fun c => negb (isspace c)) s = true -> strip s = s.
Proof.
  intros H. unfold strip.
  assert (Hl : lstrip s = s).
  { destruct s as [|c s]; [reflexivity |]. simpl in *.
    apply andb_true_iff in H as [Hc _]. apply negb_true_iff in Hc.
    now rewrite Hc. }
  rewrite Hl. induction s as [|c s IH]; simpl in *; [reflexivity |].
  apply andb_true_iff in H as [Hc Hs]. apply negb_true_iff in Hc.
  rewrite IH; trivial.
  - destruct s; [now rewrite Hc | reflexivity].
  - destruct s as [|a s]; [reflexivity |]. simpl in *.
    apply andb_true_iff in Hs as [Ha _]. apply negb_true_iff in Ha.
    now rewrite Ha.
Qed.

(** *** Digits *)

Lemma digit_not_space (c : ascii) : is_digit c = true -> negb (isspace c) = true.
Proof.
  destruct c as [[] [] [] [] [] [] [] []]; vm_compute; congruence.
Qed.

Lemma digits_only (u : Decimal.uint) :
  only is_digit (NilEmpty.string_of_uint u) = true.
Proof. induction u; simpl; trivial. Qed.

Lemma int_digits_uint (u : Decimal.uint) : forall acc,
  int_digits acc true (NilEmpty.string_of_uint u) = Some (uint_value acc u).
Proof. induction u; intros acc; simpl; trivial; apply IHu. Qed.

Lemma dec_digits_uint (u : Decimal.uint) : forall acc count,
  dec_digits acc count (NilEmpty.string_of_uint u) =
  Some (uint_value acc u, (count + Decimal.nb_digits u)%nat).
Proof.
  induction u; intros acc count; simpl;
    try (rewrite IHu; do 2 f_equal; lia).
  now rewrite Nat.add_0_r.
Qed.

Lemma uint_value_acc (u : Decimal.uint) (acc : positive) :
  uint_value (Z.pos acc) u = Z.pos (Pos.of_uint_acc u acc).
Proof.
  revert acc. induction u; intros acc; simpl; trivial;
    rewrite <- IHu; f_equal; lia.
Qed.

Lemma uint_value_of_uint (u : Decimal.uint) :
  uint_value 0 u = Z.of_N (Pos.of_uint u).
Proof.
  induction u; simpl; trivial; apply uint_value_acc.
Qed.

(** What [str] writes for an integer: digits, after a sign when it is
    negative. *)
Lemma str_of_int_digits (n : Z) :
  exists u, u <> Decimal.Nil /\ uint_value 0 u = Z.abs n /\
            str_of_int n =
            (if n <? 0 then "-" else "") +:+ NilEmpty.string_of_uint u.
Proof.
  destruct n as [|p|p].
  - exists (Decimal.D0 Decimal.Nil). now repeat split.
  - exists (Pos.to_uint p). repeat split.
    + apply DecimalPos.Unsigned.to_uint_nonnil.
    + now rewrite uint_value_of_uint, DecimalPos.Unsigned.of_to.
    + unfold str_of_int. simpl.
      pose proof (DecimalPos.Unsigned.to_uint_nonnil p). now destruct (Pos.to_uint p).
  - exists (Pos.to_uint p). repeat split.
    + apply DecimalPos.Unsigned.to_uint_nonnil.
    + now rewrite uint_value_of_uint, DecimalPos.Unsigned.of_to.
    + unfold str_of_int. simpl.
      pose proof (DecimalPos.Unsigned.to_uint_nonnil p). now destruct (Pos.to_uint p).
Qed.

Lemma py_int_unsigned (s : string) :
  only is_digit s = true -> py_int s = int_digits 0 false s.
Proof.
  intros H. unfold py_int.
  rewrite strip_only by (eapply only_impl; [apply digit_not_space | exact H]).
  destruct s as [|c s]; [reflexivity |]. simpl in H.
  apply andb_true_iff in H as [Hc _].
  destruct c as [[] [] [] [] [] [] [] []]; try discriminate Hc; reflexivity.
Qed.

Lemma int_digits_start (u : Decimal.uint) :
  u <> Decimal.Nil ->
  int_digits 0 false (NilEmpty.string_of_uint u) = Some (uint_value 0 u).
Proof.
  destruct u; [congruence | ..]; intros _; simpl; apply int_digits_uint.
Qed.

(** The integer that the exporters write is the integer that the importers
    read. *)
Lemma py_int_str (n : Z) : py_int (str_of_int n) = Some n.
Proof.
  destruct (str_of_int_digits n) as (u & Hu & Hval & ->).
  destruct (Z.ltb_spec n 0) as [Hneg | Hpos].
  - change ("-" +:+ NilEmpty.string_of_uint u)
      with (String "-" (NilEmpty.string_of_uint u)).
    unfold py_int.
    assert (Hs : strip (String "-" (NilEmpty.string_of_uint u)) =
                 String "-" (NilEmpty.string_of_uint u)).
    { apply strip_only. simpl. eapply only_impl;
        [apply digit_not_space | apply digits_only]. }
    rewrite Hs, (int_digits_start u Hu), Hval. simpl. f_equal. lia.
  - change ("" +:+ NilEmpty.string_of_uint u)
      with (NilEmpty.string_of_uint u).
    rewrite py_int_unsigned by apply digits_only.
    rewrite (int_digits_start u Hu), Hval. f_equal. lia.
Qed.

(** *** Floats *)

Lemma dec_digits_acc (s : string) : forall acc count,
  dec_digits acc count s =
  match dec_digits 0 0 s with
  | Some (v, k) => Some (acc * 10 ^ Z.of_nat k + v, (count + k)%nat)
  | None => None
  end.
Proof.
  induction s as [|c s IH]; intros acc count; simpl.
  - do 2 f_equal; [lia | lia].
  - destruct (is_digit c); [| reflexivity].
    rewrite (IH (10 * acc + digit_value c) (S count)).
    rewrite (IH (10 * 0 + digit_value c) 1%nat).
    destruct (dec_digits 0 0 s) as [[v k]|]; [| reflexivity].
    do 2 f_equal; [| lia].
    replace (Z.of_nat (1 + k)) with (Z.succ (Z.of_nat k)) by lia.
    rewrite Z.pow_succ_r by lia. ring.
Qed.

Lemma dec_digits_str (n : Z) :
  0 <= n ->
  exists k, dec_digits 0 0 (str_of_int n) = Some (n, S k) /\
            only is_digit (str_of_int n) = true.
Proof.
  intros Hn. destruct (str_of_int_digits n) as (u & Hu & Hval & ->).
  rewrite (proj2 (Z.ltb_ge n 0) Hn).
  change ("" +:+ NilEmpty.string_of_uint u) with (NilEmpty.string_of_uint u).
  rewrite dec_digits_uint, Hval, Z.abs_eq by exact Hn.
  destruct u; [congruence | ..]; eexists; (split; [reflexivity |]);
    apply (digits_only (_ u)).
Qed.

Lemma frac_field (p : nat) (r : Z) :
  (1 <= p <= 4)%nat -> 0 <= r < 10 ^ Z.of_nat p ->
  dec_digits 0 0 (zero_pad p (str_of_int r)) = Some (r, p) /\
  only is_digit (zero_pad p (str_of_int r)) = true.
Proof.
  intros Hp Hr.
  pose (check := fun (p : nat) (r : Z) =>
    match dec_digits 0 0 (zero_pad p (str_of_int r)) with
    | Some (v, k) => (v =? r) && (k =? p)%nat
    | None => false
    end && only is_digit (zero_pad p (str_of_int r))).
  assert (H : check p r = true).
  { destruct p as [|[|[|[|[|p]]]]]; try lia.
    - apply (range_check (check 1%nat) 0 9);
        [vm_compute; reflexivity | simpl in Hr; lia].
    - apply (range_check (check 2%nat) 0 99);
        [vm_compute; reflexivity | simpl in Hr; lia].
    - apply (range_check (check 3%nat) 0 999);
        [vm_compute; reflexivity | simpl in Hr; lia].
    - apply (range_check (check 4%nat) 0 9999);
        [vm_compute; reflexivity | simpl in Hr; lia]. }
  unfold check in H. apply andb_true_iff in H as [H1 H2].
  split; [| exact H2].
  destruct (dec_digits 0 0 (zero_pad p (str_of_int r))) as [[v k]|];
    [| discriminate H1].
  apply andb_true_iff in H1 as [Hv Hk].
  apply Z.eqb_eq in Hv. apply Nat.eqb_eq in Hk. now subst.
Qed.

Lemma float_norm_places (d : Z) (p : nat) : (places (float_norm d p) <= p)%nat.
Proof.
  revert d. induction p as [|p IH]; intros d; simpl; [lia |].
  destruct (_ =? 0); [| simpl; lia]. specialize (IH (d / 10)). lia.
Qed.

(** A float in normal form with decimals has a last decimal that is not
    0. *)
Lemma float_norm_fixed (d : Z) (p : nat) :
  float_norm d (S p) = Float d (S p) -> d mod 10 <> 0.
Proof.
  simpl. destruct (Z.eqb_spec (d mod 10) 0) as [Hz | Hz]; [| trivial].
  intros H. pose proof (float_norm_places (d / 10) p) as Hle.
  rewrite H in Hle. simpl in Hle. lia.
Qed.

Lemma float_unsigned_plain (a : Z) (p : nat) :
  0 <= a -> (p <= 4)%nat -> float_norm a p = Float a p ->
  let s := str_of_int (a / 10 ^ Z.of_nat p) +:+ "." +:+
           match p with
           | O => "0"
           | S n => zero_pad (S n) (str_of_int (a mod 10 ^ Z.of_nat p))
           end in
  float_unsigned s = Some (Float a p) /\
  only (fun c => is_digit c || Ascii.eqb c ".") s = true /\
  exists c rest, s = String c rest /\ is_digit c = true.
Proof.
  intros Ha Hp Hnorm s.
  assert (Hscale : 0 < 10 ^ Z.of_nat p) by (apply Z.pow_pos_nonneg; lia).
  assert (Hq : 0 <= a / 10 ^ Z.of_nat p) by (apply Z.div_pos; lia).
  destruct (dec_digits_str _ Hq) as (k & Hip & Hdig).
  set (ip := str_of_int (a / 10 ^ Z.of_nat p)) in *.
  set (fp := match p with
             | O => "0"
             | S n => zero_pad (S n) (str_of_int (a mod 10 ^ Z.of_nat p))
             end) in *.
  assert (Hfp : dec_digits 0 0 fp =
                Some (if Nat.eqb p 0 then 0 else a mod 10 ^ Z.of_nat p,
                      if Nat.eqb p 0 then 1%nat else p) /\
                only is_digit fp = true).
  { destruct p as [|p']; [now split |].
    apply (frac_field (S p')); [lia |]. apply Z.mod_pos_bound. lia. }
  destruct Hfp as [Hfp Hfdig].
  assert (Hdot : forall t, only is_digit t = true -> has_char "." t = false).
  { intros t Ht. now apply (only_has_char is_digit). }
  assert (Hboth : forall t, only is_digit t = true ->
                            only (fun c => is_digit c || Ascii.eqb c ".") t = true).
  { intros t. apply only_impl. intros c ->. reflexivity. }
  split; [| split].
  - unfold float_unsigned, s.
    change (ip +:+ "." +:+ fp) with (ip +:+ String "." fp).
    rewrite (split_append "." ip fp (Hdot ip Hdig)), (split_without "." fp (Hdot fp Hfdig)).
    rewrite Hip, (dec_digits_acc fp), Hfp.
    destruct p as [|p']; simpl Nat.eqb; cbv iota.
    + simpl Nat.add. cbv iota.
      replace (a / 10 ^ Z.of_nat 0) with a by (simpl; now rewrite Z.div_1_r).
      f_equal. replace (a * 10 ^ Z.of_nat 1 + 0) with (a * 10) by lia.
      unfold float_norm. rewrite Z_mod_mult. simpl (0 =? 0). cbv iota.
      now rewrite Z_div_mult by lia.
    + cbn [Nat.add]. rewrite Z.mul_comm, <- Z.div_mod by lia.
      now rewrite Hnorm.
  - unfold s. change (ip +:+ "." +:+ fp) with (ip +:+ String "." fp).
    rewrite only_append. simpl. now rewrite (Hboth ip Hdig), (Hboth fp Hfdig).
  - unfold s. destruct ip as [|c rest] eqn:Hipeq; [discriminate Hip |].
    exists c, (rest +:+ "." +:+ fp). split; [reflexivity |].
    simpl in Hdig. now apply andb_true_iff in Hdig as [Hc _].
Qed.

Lemma point_not_space (c : ascii) :
  is_digit c || Ascii.eqb c "." = true -> negb (isspace c) = true.
Proof.
  destruct c as [[] [] [] [] [] [] [] []]; vm_compute; congruence.
Qed.

Lemma py_float_unsigned (s : string) (c : ascii) (rest : string) :
  strip s = s -> s = String c rest -> is_digit c = true ->
  py_float s = float_unsigned s.
Proof.
  intros Hstrip -> Hc. unfold py_float. rewrite Hstrip.
  destruct c as [[] [] [] [] [] [] [] []]; try discriminate Hc; reflexivity.
Qed.

(** The float that the exporters write is the float that the importers
    read. *)
Lemma py_float_str (x : pyfloat) : plain x -> py_float (str_of_float x) = Some x.
Proof.
  destruct x as [d p]. unfold plain. simpl. intros (Hnorm & Hp & _).
  assert (Hnorm' : float_norm (Z.abs d) p = Float (Z.abs d) p).
  { destruct p as [|p']; [reflexivity |].
    apply float_norm_fixed in Hnorm. simpl.
    destruct (Z.eqb_spec (Z.abs d mod 10) 0) as [Hz | Hz]; [| reflexivity].
    exfalso. apply Hnorm. apply Z.mod_divide; [lia |].
    apply Z.mod_divide in Hz; [| lia]. exact (proj1 (Z.divide_abs_r 10 d) Hz). }
  destruct (float_unsigned_plain (Z.abs d) p (Z.abs_nonneg d) Hp Hnorm')
    as (Hread & Honly & c & rest & Hs & Hc).
  cbv zeta in Hread, Honly, Hs.
  set (s := str_of_int (Z.abs d / 10 ^ Z.of_nat p) +:+ "." +:+
            match p with
            | O => "0"
            | S n => zero_pad (S n) (str_of_int (Z.abs d mod 10 ^ Z.of_nat p))
            end) in *.
  change (str_of_float (Float d p)) with ((if d <? 0 then "-" else "") +:+ s).
  assert (Hstrip : forall t, only (fun c => negb (isspace c)) t = true ->
                             strip t = t) by apply strip_only.
  assert (Hns : only (fun c => negb (isspace c)) s = true).
  { eapply only_impl; [apply point_not_space | exact Honly]. }
  destruct (Z.ltb_spec d 0) as [Hneg | Hpos].
  - change ("-" +:+ s) with (String "-" s). unfold py_float.
    rewrite (Hstrip (String "-" s)) by exact Hns.
    rewrite Hread. simpl. do 2 f_equal. lia.
  - change ("" +:+ s) with s.
    rewrite (py_float_unsigned s c rest (Hstrip s Hns) Hs Hc), Hread.
    now rewrite Z.abs_eq by lia.
Qed.

(** * What is written is read back: the lines of the structured text *)

Lemma append_assoc (a b c : string) : (a +:+ b) +:+ c = a +:+ (b +:+ c).
Proof.
  induction a as [|x a IH]; [reflexivity |].
  change ((String x a +:+ b) +:+ c) with (String x ((a +:+ b) +:+ c)).
  change (String x a +:+ (b +:+ c)) with (String x (a +:+ (b +:+ c))).
  now rewrite IH.
Qed.

Lemma append_nil_r (a : string) : a +:+ "" = a.
Proof.
  induction a as [|x a IH]; [reflexivity |].
  change (String x a +:+ "") with (String x (a +:+ "")). now rewrite IH.
Qed.

Lemma append_nonempty (a b : string) : b <> "" -> a +:+ b <> "".
Proof. destruct a; [trivial | discriminate]. Qed.

(** *** Numbers and dates among the fields *)

Lemma numeric_digit (c : ascii) : is_digit c = true -> numeric c = true.
Proof. unfold numeric. now intros ->. Qed.

Lemma numeric_not_space (c : ascii) : numeric c = true -> negb (isspace c) = true.
Proof.
  destruct c as [[] [] [] [] [] [] [] []]; vm_compute; congruence.
Qed.

Lemma only_numeric_int (n : Z) : only numeric (str_of_int n) = true.
Proof.
  destruct (str_of_int_digits n) as (u & _ & _ & ->).
  rewrite only_append, (only_impl _ _ _ numeric_digit (digits_only u)).
  now destruct (n <? 0).
Qed.

Lemma only_numeric_pad (k : nat) (s : string) :
  only numeric s = true -> only numeric (zero_pad k s) = true.
Proof.
  intros H. unfold zero_pad. rewrite only_append, H, andb_true_r.
  induction (k - String.length s)%nat as [|m IH]; [reflexivity |].
  change (only numeric (zeros (S m))) with (numeric "0" && only numeric (zeros m)).
  now rewrite IH.
Qed.

Lemma only_numeric_date (d : pydate) : only numeric (strftime d) = true.
Proof.
  unfold strftime.
  rewrite !only_append, !only_numeric_pad by apply only_numeric_int.
  reflexivity.
Qed.

Lemma only_numeric_float (x : pyfloat) : only numeric (str_of_float x) = true.
Proof.
  destruct x as [d p]. unfold str_of_float. cbn [digits places].
  rewrite !only_append, only_numeric_int.
  destruct p; [| rewrite only_numeric_pad by apply only_numeric_int];
    now destruct (d <? 0).
Qed.

Lemma numeric_clean (s : string) : only numeric s = true -> clean s.
Proof.
  intros H. split; [| split].
  - apply strip_only. eapply only_impl; [apply numeric_not_space | exact H].
  - now apply (only_has_char numeric).
  - now apply (only_has_char numeric).
Qed.

Lemma str_of_int_nonempty (n : Z) : str_of_int n <> "".
Proof.
  intros H. pose proof (py_int_str n) as Hread. rewrite H in Hread.
  discriminate Hread.
Qed.

(** *** Fields *)

Lemma padded_cons (f g : string) (rest : list string) :
  padded_fields (f :: g :: rest) =
  String " " (f +:+ String " " (String "|" (padded_fields (g :: rest)))).
Proof. reflexivity. Qed.

Lemma padded_nonempty (fields : list string) :
  fields <> [] -> padded_fields fields <> "".
Proof. destruct fields as [|f [|g rest]]; [congruence | discriminate..]. Qed.

(** The fields come back from the line, one by one. *)
Lemma parts_of_padded (fields : list string) :
  fields <> [] -> Forall clean fields ->
  parts_of (padded_fields fields) = fields.
Proof.
  induction fields as [|f rest IH]; [congruence |]. intros _ Hall.
  apply Forall_cons in Hall as [(Hstrip & Hbar & _) Hrest].
  destruct rest as [|g rest].
  - unfold parts_of. change (padded_fields [f]) with (String " " f).
    rewrite split_without by exact Hbar.
    cbn [map]. f_equal. exact (strip_led f Hstrip).
  - rewrite padded_cons.
    replace (String " " (f +:+ String " " (String "|" (padded_fields (g :: rest)))))
      with (String " " (f +:+ " ") +:+ String "|" (padded_fields (g :: rest))).
    2:{ change (String " " (f +:+ " ") +:+ String "|" (padded_fields (g :: rest)))
          with (String " " ((f +:+ " ") +:+ String "|" (padded_fields (g :: rest)))).
        now rewrite append_assoc. }
    unfold parts_of. rewrite split_append.
    2:{ change (String " " (f +:+ " ")) with (" " +:+ (f +:+ " ")).
        rewrite !has_char_append, Hbar. reflexivity. }
    cbn [map]. f_equal.
    + exact (strip_padded f Hstrip).
    + apply IH; [discriminate | exact Hrest].
Qed.

Lemma has_char_padded (c : ascii) (fields : list string) :
  Ascii.eqb " " c = false -> Ascii.eqb "|" c = false ->
  Forall (fun f => has_char c f = false) fields ->
  has_char c (padded_fields fields) = false.
Proof.
  intros Hs Hb. induction fields as [|f rest IH]; [reflexivity |].
  intros [Hf Hrest]%Forall_cons. destruct rest as [|g rest].
  - change (padded_fields [f]) with (String " " f).
    cbn [has_char]. now rewrite Hs, Hf.
  - rewrite padded_cons. cbn [has_char]. rewrite Hs, has_char_append, Hf.
    cbn [has_char]. rewrite Hs, Hb. now apply IH.
Qed.

(** *** White space at the end of a line *)

Lemma rstrip_cons (c : ascii) (b : string) :
  b <> "" -> rstrip b = b -> rstrip (String c b) = String c b.
Proof. intros Hb H. simpl. rewrite H. destruct b; [congruence | reflexivity]. Qed.

Lemma rstrip_append (a b : string) :
  b <> "" -> rstrip b = b -> rstrip (a +:+ b) = a +:+ b.
Proof.
  intros Hb H. induction a as [|c a IH]; [exact H |].
  change (String c a +:+ b) with (String c (a +:+ b)).
  apply rstrip_cons; [now apply append_nonempty | exact IH].
Qed.

Lemma rstrip_newline (s : string) : rstrip (s +:+ String newline "") = rstrip s.
Proof.
  induction s as [|c s IH]; [reflexivity |].
  change (String c s +:+ String newline "") with (String c (s +:+ String newline "")).
  simpl. now rewrite IH.
Qed.

Lemma rstrip_padded (fields : list string) :
  fields <> [] -> Forall clean fields ->
  (forall l, last fields = Some l -> l <> "") ->
  rstrip (padded_fields fields) = padded_fields fields.
Proof.
  induction fields as [|f rest IH]; [congruence |].
  intros _ [Hf Hrest]%Forall_cons Hlast. destruct rest as [|g rest].
  - change (padded_fields [f]) with (String " " f).
    apply rstrip_cons; [now apply Hlast | apply strip_fixed, Hf].
  - rewrite padded_cons.
    change (String " " (f +:+ String " " (String "|" (padded_fields (g :: rest)))))
      with (" " +:+ (f +:+ (" |" +:+ padded_fields (g :: rest)))).
    rewrite <- !append_assoc. apply rstrip_append.
    + now apply padded_nonempty.
    + apply IH; [discriminate | exact Hrest | exact Hlast].
Qed.

(** A line of a marker and fields is read as it is written: [strip] leaves
    it, and it holds no line feed. *)
Lemma marked_line (c : ascii) (marker : string) (fields : list string) :
  isspace c = false -> has_char newline (String c marker) = false ->
  fields <> [] -> Forall clean fields ->
  (forall l, last fields = Some l -> l <> "") ->
  strip (String c marker +:+ padded_fields fields) =
    String c marker +:+ padded_fields fields /\
  has_char newline (String c marker +:+ padded_fields fields) = false.
Proof.
  intros Hc Hnl Hne Hclean Hlast. split.
  - unfold strip.
    change (String c marker +:+ padded_fields fields)
      with (String c (marker +:+ padded_fields fields)) at 1.
    cbn [lstrip]. rewrite Hc.
    change (String c (marker +:+ padded_fields fields))
      with (String c marker +:+ padded_fields fields).
    apply rstrip_append; [now apply padded_nonempty | now apply rstrip_padded].
  - rewrite has_char_append, Hnl. apply has_char_padded; [reflexivity.. |].
    eapply Forall_impl; [exact Hclean |]. now intros f (_ & _ & H).
Qed.

(** *** The lines of a workout and of an exercise *)

Lemma workout_line (db : Store) (w : Workout.t) :
  export_text_workout db w =
  ("WORKOUT:" +:+ padded_fields (workout_fields w))
  :: (map export_text_exercise (exercises_of db w) ++ [""])%list.
Proof.
  unfold export_text_workout, workout_fields. f_equal.
  destruct (bool_decide (Workout.notes w = "")); cbv iota;
    [rewrite append_nil_r |]; reflexivity.
Qed.

Lemma exercise_line (e : Exercise.t) :
  export_text_exercise e = "EXERCISE:" +:+ padded_fields (exercise_fields e).
Proof.
  unfold export_text_exercise, exercise_fields.
  destruct (bool_decide (Exercise.notes e = "")); cbv iota;
    [rewrite append_nil_r |]; reflexivity.
Qed.

Lemma workout_fields_clean (w : Workout.t) :
  writable w -> Forall clean (workout_fields w).
Proof.
  intros (Hname & Htype & Hnotes). unfold workout_fields.
  apply Forall_app. split.
  - repeat (apply Forall_cons_2 || apply Forall_nil_2); trivial;
      apply numeric_clean;
      (apply only_numeric_date || apply only_numeric_int).
  - destruct (bool_decide _); [apply Forall_nil_2 |].
    apply Forall_cons_2; [exact Hnotes | apply Forall_nil_2].
Qed.

Lemma workout_fields_last (w : Workout.t) (l : string) :
  last (workout_fields w) = Some l -> l <> "".
Proof.
  unfold workout_fields. case_bool_decide as Hnotes; cbn; intros [= <-];
    [apply str_of_int_nonempty | exact Hnotes].
Qed.

Lemma exercise_fields_clean (e : Exercise.t) :
  writable_exercise e -> Forall clean (exercise_fields e).
Proof.
  intros (Hname & Hcat & Hnotes & _). unfold exercise_fields.
  apply Forall_app. split.
  - repeat (apply Forall_cons_2 || apply Forall_nil_2); trivial;
      apply numeric_clean;
      (apply only_numeric_float || apply only_numeric_int).
  - destruct (bool_decide _); [apply Forall_nil_2 |].
    apply Forall_cons_2; [exact Hnotes | apply Forall_nil_2].
Qed.

Lemma exercise_fields_last (e : Exercise.t) (l : string) :
  last (exercise_fields e) = Some l -> l <> "".
Proof.
  unfold exercise_fields. case_bool_decide as Hnotes; cbn; intros [= <-];
    [apply str_of_int_nonempty | exact Hnotes].
Qed.

Lemma workout_line_marked (w : Workout.t) :
  writable w ->
  let line := "WORKOUT:" +:+ padded_fields (workout_fields w) in
  strip line = line /\ has_char newline line = false.
Proof.
  intros Hw. apply (marked_line "W" "ORKOUT:" (workout_fields w)).
  - reflexivity.
  - reflexivity.
  - unfold workout_fields. discriminate.
  - now apply workout_fields_clean.
  - apply workout_fields_last.
Qed.

Lemma exercise_line_marked (e : Exercise.t) :
  writable_exercise e ->
  let line := "EXERCISE:" +:+ padded_fields (exercise_fields e) in
  strip line = line /\ has_char newline line = false.
Proof.
  intros He. apply (marked_line "E" "XERCISE:" (exercise_fields e)).
  - reflexivity.
  - reflexivity.
  - unfold exercise_fields. discriminate.
  - now apply exercise_fields_clean.
  - apply exercise_fields_last.
Qed.

(** *** Reading a line *)

Ltac read_text :=
  cbv beta iota zeta delta
    [bind item or_raise ret raise lookup list_lookup length Nat.ltb Nat.leb
     negb app].

(** The line of a workout is read as the workout, which is created. *)
Lemma workout_line_again (user : User) (ow : bool) (w : Workout.t) (n : nat)
    (st : text_state) (db db1 : Store) (instance : Workout.t) :
  dated w -> writable w ->
  (ow = false -> has_workout db user (Workout.name w) (Workout.date w) = false) ->
  Workout_objects_create user (Workout.name w) (Workout.workout_type w)
    (Workout.duration w) (Workout.calories_burned w) (Workout.notes w)
    (Workout.date w) db = (db1, Ok instance) ->
  import_text_line user ow
    (n, "WORKOUT:" +:+ padded_fields (workout_fields w)) st db =
  (db1, Ok (TextState (Some instance) (add_workout (tally st)))).
Proof.
  intros [Hdate _] Hw Hnew Hcreate.
  destruct (workout_line_marked w Hw) as [Hstrip _]. cbv zeta in Hstrip.
  rewrite import_text_line_workout by (rewrite Hstrip; reflexivity).
  rewrite Hstrip. unfold try_except.
  match goal with
  | |- match ?body with _ => _ end = _ =>
      assert (Hbody : body =
                (db1, Ok (TextState (Some instance) (add_workout (tally st)))));
      [| now rewrite Hbody]
  end.
  unfold import_workout_line.
  change (slice_from 8 ("WORKOUT:" +:+ padded_fields (workout_fields w)))
    with (padded_fields (workout_fields w)).
  rewrite parts_of_padded;
    [| unfold workout_fields; discriminate | now apply workout_fields_clean].
  unfold workout_fields.
  case_bool_decide as Hnotes; [rewrite Hnotes in Hcreate |];
    read_text; rewrite (strptime_strftime _ Hdate);
    read_text; rewrite py_int_str; read_text; rewrite py_int_str; read_text;
    (destruct ow;
     [| rewrite (filter_first_none _ _ _ _ (Hnew eq_refl))]);
    read_text; rewrite Hcreate; reflexivity.
Qed.

(** The line of an exercise is read as the exercise, which is created for
    the workout of the lines above. *)
Lemma exercise_line_again (user : User) (ow : bool) (e : Exercise.t) (n : nat)
    (instance : Workout.t) (c : counts) (db db1 : Store) :
  writable_exercise e ->
  Exercise_objects_create instance (Exercise.exercise_name e)
    (Exercise.category e) (Exercise.sets e) (Exercise.reps e)
    (Exercise.weight e) (Exercise.rest_time e) (Exercise.notes e) db =
    (db1, Ok tt) ->
  import_text_line user ow
    (n, "EXERCISE:" +:+ padded_fields (exercise_fields e))
    (TextState (Some instance) c) db =
  (db1, Ok (TextState (Some instance) (add_exercise c))).
Proof.
  intros He Hcreate.
  destruct (exercise_line_marked e He) as [Hstrip _]. cbv zeta in Hstrip.
  pose proof He as (_ & _ & _ & Hplain).
  rewrite import_text_line_exercise by (rewrite Hstrip; reflexivity).
  rewrite Hstrip. unfold try_except.
  match goal with
  | |- match ?body with _ => _ end = _ =>
      assert (Hbody : body =
                (db1, Ok (TextState (Some instance) (add_exercise c))));
      [| now rewrite Hbody]
  end.
  unfold import_exercise_line. cbn [current_workout tally].
  change (slice_from 9 ("EXERCISE:" +:+ padded_fields (exercise_fields e)))
    with (padded_fields (exercise_fields e)).
  rewrite parts_of_padded;
    [| unfold exercise_fields; discriminate
     | now apply exercise_fields_clean].
  unfold exercise_fields.
  case_bool_decide as Hnotes; [rewrite Hnotes in Hcreate |];
    read_text; rewrite py_int_str; read_text; rewrite py_int_str; read_text;
    rewrite (py_float_str _ Hplain); read_text; rewrite py_int_str; read_text;
    rewrite Hcreate; reflexivity.
Qed.

(** A blank line and a comment change nothing. *)
Lemma text_line_skipped (user : User) (ow : bool) (n : nat) (line : string)
    (st : text_state) (db : Store) :
  strip line = "" \/ startswith (strip line) "#" = true ->
  import_text_line user ow (n, line) st db = (db, Ok st).
Proof.
  intros H. unfold import_text_line. cbn [fst snd].
  destruct H as [-> | ->]; [reflexivity | now rewrite orb_true_r].
Qed.

(** The lines of the exercises of a workout, after its line. *)
Lemma exercise_lines_again (user : User) (ow : bool) (instance : Workout.t)
    (es : list Exercise.t) : forall n c db db' c',
  Forall writable_exercise es ->
  for_each (create_exercise_again instance) es c db = (db', Ok c') ->
  for_each (import_text_line user ow)
    (enumerate (map export_text_exercise es) n)
    (TextState (Some instance) c) db =
  (db', Ok (TextState (Some instance) c')).
Proof.
  induction es as [|e es IH]; intros n c db db' c' Hes Hrun.
  - injection Hrun as <- <-. reflexivity.
  - apply Forall_cons in Hes as [He Hes].
    cbn [for_each] in Hrun.
    apply bind_inv in Hrun as [(db1 & c1 & Hx & Hrest) | (ex & _ & Hr)];
      [| discriminate Hr].
    unfold create_exercise_again in Hx.
    apply bind_inv in Hx as [(db1' & [] & Hcreate & Hret) | (ex & _ & Hr)];
      [| discriminate Hr].
    injection Hret as <- <-.
    cbn [map enumerate for_each]. rewrite exercise_line.
    rewrite (bind_ok _ _ _ _ _
               (exercise_line_again user ow e n instance c db db1' He Hcreate)).
    now apply IH.
Qed.

(** * The structured text that was exported, imported *)

(** *** The lines of a file *)

Lemma join_lines_cons (l : string) (rest : list string) :
  rest <> [] ->
  join_lines (l :: rest) = l +:+ String newline (join_lines rest).
Proof. destruct rest; [congruence | reflexivity]. Qed.

Lemma join_lines_snoc (ls : list string) (l : string) :
  ls <> [] -> join_lines (ls ++ [l]) = join_lines ls +:+ String newline l.
Proof.
  induction ls as [|x ls IH]; [congruence |]. intros _.
  destruct ls as [|y ls]; [reflexivity |].
  change ((x :: y :: ls) ++ [l])%list with (x :: ((y :: ls) ++ [l]))%list.
  rewrite join_lines_cons by discriminate.
  rewrite IH by discriminate.
  rewrite (join_lines_cons x (y :: ls)) by discriminate.
  now rewrite append_assoc.
Qed.

Lemma split_join_lines (ls : list string) :
  ls <> [] -> Forall (fun l => has_char newline l = false) ls ->
  split newline (join_lines ls) = ls.
Proof.
  induction ls as [|x ls IH]; [congruence |].
  intros _ [Hx Hrest]%Forall_cons. destruct ls as [|y ls].
  - now apply split_without.
  - rewrite join_lines_cons by discriminate.
    rewrite split_append by exact Hx. f_equal.
    apply IH; [discriminate | exact Hrest].
Qed.

Lemma rstrip_join (ls : list string) :
  ls <> [] ->
  (forall l, last ls = Some l -> l <> "" /\ rstrip l = l) ->
  rstrip (join_lines ls) = join_lines ls /\ join_lines ls <> "".
Proof.
  induction ls as [|x ls IH]; [congruence |]. intros _ Hlast.
  destruct ls as [|y ls].
  - destruct (Hlast x eq_refl) as [Hne Hfix]. now split.
  - rewrite join_lines_cons by discriminate.
    destruct IH as [IH1 IH2]; [discriminate | exact Hlast |].
    split.
    + replace (x +:+ String newline (join_lines (y :: ls)))
        with ((x +:+ String newline "") +:+ join_lines (y :: ls))
        by (now rewrite append_assoc).
      now apply rstrip_append.
    + apply append_nonempty. discriminate.
Qed.

(** [strip] on the file takes the line feed after its last line, and no
    more. *)
Lemma strip_lines (c : ascii) (h : string) (rest : list string) :
  isspace c = false ->
  (forall l, last (String c h :: rest) = Some l -> l <> "" /\ rstrip l = l) ->
  strip (join_lines ((String c h :: rest) ++ [""])) =
  join_lines (String c h :: rest).
Proof.
  intros Hc Hlast. rewrite join_lines_snoc by discriminate.
  destruct (rstrip_join (String c h :: rest)) as [Hfix _];
    [discriminate | exact Hlast |].
  assert (Hhead : exists r, join_lines (String c h :: rest) = String c r).
  { destruct rest; eexists; reflexivity. }
  destruct Hhead as [r Hr]. unfold strip. rewrite Hr in *.
  change (String c r +:+ String newline "")
    with (String c (r +:+ String newline "")).
  cbn [lstrip]. rewrite Hc.
  change (String c (r +:+ String newline ""))
    with (String c r +:+ String newline "").
  now rewrite rstrip_newline.
Qed.

Lemma export_text_lines (db : Store) (workouts : list Workout.t) :
  export_text_data db workouts =
  join_lines (text_header ++ concat (map (export_text_workout db) workouts)).
Proof. reflexivity. Qed.

Lemma text_lines_no_newline (db : Store) (workouts : list Workout.t) :
  Forall writable workouts ->
  (forall w, Forall writable_exercise (exercises_of db w)) ->
  Forall (fun l => has_char newline l = false)
    (text_header ++ concat (map (export_text_workout db) workouts)).
Proof.
  intros Hws Hes. apply Forall_app. split; [now repeat constructor |].
  induction workouts as [|w ws IH]; [constructor |].
  apply Forall_cons in Hws as [Hw Hws]. cbn [map concat].
  apply Forall_app. split; [| now apply IH].
  rewrite workout_line. apply Forall_cons_2; [now apply workout_line_marked |].
  apply Forall_app. split; [| now repeat constructor].
  apply List.Forall_map. eapply Forall_impl; [exact (Hes w) |].
  intros e He. rewrite exercise_line. now apply exercise_line_marked.
Qed.

(** The file ends with a blank line, after a line that is not blank. *)
Lemma text_lines_shape (db : Store) (workouts : list Workout.t) :
  Forall writable workouts ->
  (forall w, Forall writable_exercise (exercises_of db w)) ->
  exists rest,
    (text_header ++ concat (map (export_text_workout db) workouts))%list =
    (("# Fitness Tracker Data Export" :: rest) ++ [""])%list /\
    forall l, last ("# Fitness Tracker Data Export" :: rest) = Some l ->
              l <> "" /\ rstrip l = l.
Proof.
  intros Hws Hes. destruct workouts as [|w0 ws0 _] using rev_ind.
  - eexists (firstn 2 (tl text_header)). split; [reflexivity |].
    intros l [= <-]. split; [discriminate | reflexivity].
  - apply Forall_app in Hws as [_ Hw]. apply Forall_cons in Hw as [Hw _].
    rewrite map_app, concat_app. cbn [map concat].
    rewrite app_nil_r, workout_line.
    set (body := concat (map (export_text_workout db) ws0)).
    set (wl := "WORKOUT:" +:+ padded_fields (workout_fields w0)).
    set (exl := map export_text_exercise (exercises_of db w0)).
    exists (tl text_header ++ body ++ wl :: exl)%list. split.
    + unfold text_header. cbn [app tl]. do 4 f_equal.
      now rewrite <- app_assoc.
    + intros l Hl.
      change ("# Fitness Tracker Data Export"
              :: tl text_header ++ body ++ wl :: exl)%list
        with ((text_header ++ body) ++ wl :: exl)%list in Hl.
      rewrite last_app_cons in Hl. apply last_Some_elem_of in Hl.
      apply elem_of_cons in Hl as [-> | Hl].
      * destruct (workout_line_marked w0 Hw) as [Hstrip _].
        split; [discriminate | apply strip_fixed, Hstrip].
      * apply list_elem_of_In, in_map_iff in Hl as (e & <- & He).
        pose proof (Hes w0) as Hall. rewrite Forall_forall in Hall.
        apply list_elem_of_In, Hall in He.
        rewrite exercise_line.
        destruct (exercise_line_marked e He) as [Hstrip _].
        split; [discriminate | apply strip_fixed, Hstrip].
Qed.

(** The lines that the importer iterates over are the lines that the
    exporter joined, but for the blank one at the end. *)
Lemma text_file_lines (db : Store) (workouts : list Workout.t) :
  Forall writable workouts ->
  (forall w, Forall writable_exercise (exercises_of db w)) ->
  exists lines,
    split newline (strip (export_text_data db workouts)) = lines /\
    (lines ++ [""])%list =
    (text_header ++ concat (map (export_text_workout db) workouts))%list.
Proof.
  intros Hws Hes.
  pose proof (text_lines_no_newline db workouts Hws Hes) as Hnl.
  destruct (text_lines_shape db workouts Hws Hes) as (rest & Hall & Hlast).
  rewrite export_text_lines, Hall in *.
  exists ("# Fitness Tracker Data Export" :: rest). split; [| reflexivity].
  rewrite (strip_lines "#" " Fitness Tracker Data Export" rest eq_refl Hlast).
  apply split_join_lines; [discriminate |].
  now apply Forall_app in Hnl as [Hnl _].
Qed.

(** *** The loop *)

Section TextLoop.
Variables (user : User) (ow : bool).

Lemma lines_skipped (lines : list string) : forall n st db,
  Forall (fun l => strip l = "" \/ startswith (strip l) "#" = true) lines ->
  for_each (import_text_line user ow) (enumerate lines n) st db = (db, Ok st).
Proof.
  induction lines as [|l lines IH]; intros n st db Hall; [reflexivity |].
  apply Forall_cons in Hall as [Hl Hall]. cbn [enumerate for_each].
  rewrite (bind_ok _ _ _ _ _ (text_line_skipped user ow n l st db Hl)).
  now apply IH.
Qed.

Lemma blank_line_at_end (lines : list string) (n : nat) st db :
  for_each (import_text_line user ow) (enumerate (lines ++ [""]) n) st db =
  for_each (import_text_line user ow) (enumerate lines n) st db.
Proof.
  rewrite enumerate_app, for_each_app.
  destruct (for_each _ (enumerate lines n) st db) as [db' [st'|e]];
    [| reflexivity].
  apply lines_skipped. constructor; [now left | constructor].
Qed.

Lemma header_skipped (lines : list string) st db :
  for_each (import_text_line user ow) (enumerate (text_header ++ lines) 1) st db =
  for_each (import_text_line user ow) (enumerate lines 5) st db.
Proof.
  rewrite enumerate_app, for_each_app, lines_skipped; [reflexivity |].
  repeat constructor; (now left) || (now right).
Qed.

End TextLoop.

Section TextCopies.
Variables (user importer : User) (ow : bool) (db0 : Store).
Hypothesis source_sound : integrity db0.
Hypothesis source_dated : Forall dated (fitness_workouts db0).
Hypothesis source_writable : Forall writable (fitness_workouts db0).
Hypothesis source_exercises : Forall writable_exercise (fitness_exercises db0).

Let run (i : nat) (workouts : list Workout.t) (st : text_state)
    : M text_state :=
  for_each (import_text_line importer ow)
    (enumerate (concat (map (export_text_workout db0) workouts)) i) st.

Lemma exercises_writable (w : Workout.t) :
  Forall writable_exercise (exercises_of db0 w).
Proof.
  rewrite Forall_forall in *. intros e He. apply source_exercises.
  apply list_elem_of_In. apply list_elem_of_In in He.
  unfold exercises_of in He. now apply filter_In in He.
Qed.

Lemma text_run_cons (i : nat) w l st db :
  In w (fitness_workouts db0) -> True -> integrity db ->
  (ow = false ->
   has_workout db importer (Workout.name w) (Workout.date w) = false) ->
  exists (i' : nat) st',
    tally st' = Counts (S (imported (tally st)))
                  (exercises (tally st) + length (exercises_of db0 w)) /\
    run i (w :: l) st db =
      run i' l st' (copied_store importer w (exercises_of db0 w) db).
Proof.
  intros Hw _ Hint Hnew.
  destruct (source_workout_checked db0 source_sound w Hw) as [Hchk _].
  destruct (create_again_copies importer w (exercises_of db0 w) (tally st) db
              Hint Hchk (source_exercises_checked db0 source_sound w))
    as [Hrun _].
  unfold create_again in Hrun.
  apply bind_inv in Hrun as [(db1 & instance & Hcreate & Hloop) | (ex & _ & Hr)];
    [| discriminate Hr].
  assert (Hd : dated w /\ writable w).
  { rewrite Forall_forall in source_dated, source_writable.
    apply list_elem_of_In in Hw. split; auto. }
  destruct Hd as [Hd Hwr].
  exists (i + length (export_text_workout db0 w))%nat,
         (TextState (Some instance)
            (Counts (S (imported (tally st)))
               (exercises (tally st) + length (exercises_of db0 w)))).
  split; [reflexivity |].
  unfold run. cbn [map concat]. rewrite enumerate_app, for_each_app.
  rewrite workout_line at 1. cbn [enumerate for_each].
  rewrite (bind_ok _ _ _ _ _
             (workout_line_again importer ow w i st db db1 instance
                Hd Hwr Hnew Hcreate)).
  rewrite blank_line_at_end.
  now rewrite (exercise_lines_again importer ow instance (exercises_of db0 w)
                 (S i) _ db1 _ _ (exercises_writable w) Hloop).
Qed.

Lemma text_copies (db1 : Store) :
  integrity db1 ->
  (ow = false -> all_new db1 importer (user_workouts db0 user)) ->
  exists db2 copies,
    import_data importer (export_data db0 user txt_format) ow db1 =
      (db2, Ok (Counts (length (user_workouts db0 user))
                  (length (concat (map (exercises_of db0)
                                     (user_workouts db0 user)))))) /\
    fitness_workouts db2 = (fitness_workouts db1 ++ copies)%list /\
    extends db1 db2 /\ integrity db2 /\
    Forall2 (copy_of db0 db2 importer) (user_workouts db0 user) copies.
Proof.
  intros Hint Hnew.
  assert (Hin : Forall (fun w => In w (fitness_workouts db0))
                  (user_workouts db0 user)).
  { apply Forall_forall. intros w Hw. apply list_elem_of_In in Hw.
    now apply user_workouts_In in Hw. }
  assert (Hws : Forall writable (user_workouts db0 user)).
  { rewrite Forall_forall in *. intros w Hw.
    apply source_writable, list_elem_of_In, Hin, Hw. }
  destruct (run_copies importer ow db0 (exercises_of db0) (fun _ => True)
              nat text_state tally run
              source_sound (source_exercises_checked db0 source_sound)
              (fun _ _ _ => eq_refl) text_run_cons
              (user_workouts db0 user) 5%nat (TextState None (Counts 0 0)) db1)
    as (db2 & copies & st2 & Hrun & Hc & Hrest); trivial.
  { now apply Forall_forall. }
  exists db2, copies. split; [| exact Hrest].
  destruct (text_file_lines db0 (user_workouts db0 user) Hws exercises_writable)
    as (lines & Hlines & Hall).
  unfold export_data, import_data, import_text_data. cbv zeta.
  rewrite Hlines.
  rewrite (bind_ok _ _ db1 db2 st2).
  - unfold ret. now rewrite Hc.
  - rewrite <- blank_line_at_end, Hall, header_skipped. exact Hrun.
Qed.

End TextCopies.



(** * The rows that were exported, imported *)

Lemma date_eqb_refl (d : pydate) : date_eqb d d = true.
Proof. unfold date_eqb. now rewrite !Z.eqb_refl. Qed.

Ltac read_csv :=
  cbv beta iota zeta delta
    [bind or_raise ret raise default from_option id truth andb negb].

(** A record of a workout, with or without an exercise, is read as the
    workout, which is created, and as the exercise when it has a name. *)
Lemma csv_row_again (user : User) (ow : bool) (row : csv_row) (w : Workout.t)
    (es : list Exercise.t) (c : counts) (db : Store) :
  record_of_workout row w ->
  (row !! "exercise_name" = Some "" /\ es = [] \/
   exists e a rest,
     es = [e] /\ Exercise.exercise_name e = String a rest /\
     plain (Exercise.weight e) /\ record_of_exercise row e) ->
  dated w ->
  (ow = false -> has_workout db user (Workout.name w) (Workout.date w) = false) ->
  forall r,
    create_again user w es c db = (fst r, Ok (snd r)) ->
    import_csv_row user ow row c db = (fst r, Ok (snd r)).
Proof.
  intros (Hdate & Hname & Htype & Hdur & Hcal & Hnotes) Hex [Hd _] Hnew r Hrun.
  unfold import_csv_row, try_except.
  match goal with
  | |- match ?body db with _ => _ end = _ =>
      assert (Hbody : body db = create_again user w es c db)
  end.
  2:{ rewrite Hbody, Hrun. reflexivity. }
  unfold int_get, float_get.
  rewrite Hdate, Hname, Htype, Hdur, Hcal, Hnotes.
  destruct Hex as [[Hex ->] | (e & a & rest & -> & Hn & Hplain & Hex)].
  - rewrite Hex. read_csv. rewrite (strptime_strftime _ Hd).
    destruct ow; [| rewrite (filter_first_none _ _ _ _ (Hnew eq_refl))];
      read_csv; rewrite !py_int_str; read_csv;
      unfold create_again, bind;
      (destruct (Workout_objects_create _ _ _ _ _ _ _ db) as [db1 [inst|ex]];
       reflexivity).
  - destruct Hex as (Hex & Hcat & Hsets & Hreps & Hweight & Hrest & Hen).
    rewrite Hex, Hcat, Hsets, Hreps, Hweight, Hrest, Hen.
    read_csv. rewrite (strptime_strftime _ Hd).
    destruct ow; [| rewrite (filter_first_none _ _ _ _ (Hnew eq_refl))];
      read_csv; rewrite !py_int_str; read_csv;
      unfold create_again, bind;
      (destruct (Workout_objects_create _ _ _ _ _ _ _ db) as [db1 [inst|ex]];
       [| reflexivity]);
      rewrite Hn; read_csv; rewrite ?py_int_str; read_csv;
      rewrite (py_float_str _ Hplain); read_csv; rewrite ?py_int_str;
      cbn [for_each]; unfold create_exercise_again, bind; rewrite Hn;
      (destruct (Exercise_objects_create _ _ _ _ _ _ _ _ db1) as [db2 [[]|ex]];
       reflexivity).
Qed.

(** With [overwrite_existing] off, the further rows of a workout that the
    user has are passed over. *)
Lemma csv_rows_skipped (user : User) (w : Workout.t) (es : list Exercise.t)
    (c : counts) (db : Store) :
  dated w ->
  has_workout db user (Workout.name w) (Workout.date w) = true ->
  for_each (import_csv_row user false)
    (map (dict_of_row csv_header)
       (map (fun e => (csv_workout_fields w ++ csv_exercise_fields e)%list)
          es)) c db =
  (db, Ok c).
Proof.
  intros [Hd _] Hhas. induction es as [|e es IH]; [reflexivity |].
  cbn [map for_each]. rewrite (bind_ok _ _ db db c); [exact IH |].
  apply import_csv_row_skip.
  exists (strftime (Workout.date w)), (Workout.date w), (Workout.name w).
  split; [reflexivity |]. split; [now apply strptime_strftime |].
  split; [reflexivity | exact Hhas].
Qed.

Lemma filter_rows {A} (f : A -> list string) (l : list A) :
  (forall x, f x <> []) ->
  List.filter (fun r => negb (bool_decide (r = []))) (map f l) = map f l.
Proof.
  intros Hf. induction l as [|x l IH]; [reflexivity |]. cbn [map List.filter].
  rewrite bool_decide_eq_false_2 by apply Hf. cbn [negb]. now rewrite IH.
Qed.

Lemma export_csv_rows (db : Store) (w : Workout.t) :
  List.filter (fun r => negb (bool_decide (r = []))) (export_csv_workout db w) =
  export_csv_workout db w.
Proof.
  unfold export_csv_workout. destruct (exercises_of db w) as [|e es].
  - reflexivity.
  - apply (filter_rows
             (fun exercise =>
                (csv_workout_fields w ++ csv_exercise_fields exercise)%list)).
    intros x. discriminate.
Qed.

Section CsvCopies.
Variables (user importer : User) (ow : bool) (db0 : Store).
Hypothesis source_sound : integrity db0.
Hypothesis source_dated : Forall dated (fitness_workouts db0).
Hypothesis source_plain :
  Forall (fun e => plain (Exercise.weight e)) (fitness_exercises db0).

Let single (w : Workout.t) : Prop :=
  ow = true -> (length (exercises_of db0 w) <= 1)%nat.

Let run (_ : unit) (workouts : list Workout.t) (c : counts) : M counts :=
  for_each (import_csv_row importer ow)
    (map (dict_of_row csv_header)
       (List.filter (fun r => negb (bool_decide (r = [])))
          (concat (map (export_csv_workout db0) workouts)))) c.

Lemma csv_kept_checked (w : Workout.t) :
  Forall exercise_checked (csv_kept db0 w).
Proof.
  pose proof (source_exercises_checked db0 source_sound w) as H.
  unfold csv_kept. destruct (exercises_of db0 w) as [|e es]; [constructor |].
  apply Forall_cons in H as [He _].
  destruct (bool_decide _);
    [apply Forall_nil_2 | apply Forall_cons_2; [exact He | apply Forall_nil_2]].
Qed.

Lemma csv_run_cons (i : unit) w l c db :
  In w (fitness_workouts db0) -> single w -> integrity db ->
  (ow = false ->
   has_workout db importer (Workout.name w) (Workout.date w) = false) ->
  exists (i' : unit) c',
    c' = Counts (S (imported c)) (exercises c + length (csv_kept db0 w)) /\
    run i (w :: l) c db =
      run i' l c' (copied_store importer w (csv_kept db0 w) db).
Proof.
  intros Hw Hsingle Hint Hnew.
  exists tt, (Counts (S (imported c)) (exercises c + length (csv_kept db0 w))).
  split; [reflexivity |].
  destruct (source_workout_checked db0 source_sound w Hw) as [Hchk _].
  destruct (create_again_copies importer w (csv_kept db0 w) c db Hint Hchk
              (csv_kept_checked w)) as [Hrun _].
  assert (Hd : dated w).
  { rewrite Forall_forall in source_dated.
    now apply source_dated, list_elem_of_In. }
  assert (Hplain : Forall (fun e => plain (Exercise.weight e))
                     (exercises_of db0 w)).
  { rewrite Forall_forall in *. intros e He. apply source_plain.
    apply list_elem_of_In. apply list_elem_of_In in He.
    unfold exercises_of in He. now apply filter_In in He. }
  unfold run. cbn [map concat].
  rewrite List.filter_app, map_app, for_each_app, export_csv_rows.
  match goal with
  | |- match ?block with _ => _ end = _ =>
      assert (Hblock : block =
                (copied_store importer w (csv_kept db0 w) db,
                 Ok (Counts (S (imported c))
                       (exercises c + length (csv_kept db0 w)))));
      [| now rewrite Hblock]
  end.
  unfold single in Hsingle. unfold export_csv_workout, csv_kept in *.
  destruct (exercises_of db0 w) as [|e es].
  - cbn [map for_each].
    set (row := dict_of_row csv_header _).
    assert (H1 : record_of_workout row w) by (repeat split).
    rewrite (bind_ok _ _ _ _ _
               (csv_row_again importer ow row w [] c db H1
                  (or_introl (conj eq_refl eq_refl)) Hd Hnew (_, _) Hrun)).
    reflexivity.
  - apply Forall_cons in Hplain as [Hplain _].
    cbn [map for_each].
    set (row := dict_of_row csv_header _).
    assert (H1 : record_of_workout row w) by (repeat split).
    assert (H2 : row !! "exercise_name" = Some "" /\
                 (if bool_decide (Exercise.exercise_name e = "")
                  then [] else [e]) = [] \/
                 exists e0 a rest,
                   (if bool_decide (Exercise.exercise_name e = "")
                    then [] else [e]) = [e0] /\
                   Exercise.exercise_name e0 = String a rest /\
                   plain (Exercise.weight e0) /\ record_of_exercise row e0).
    { case_bool_decide as Hn.
      - left. split; [| reflexivity].
        change (row !! "exercise_name") with (Some (Exercise.exercise_name e)).
        now rewrite Hn.
      - right.
        assert (Hname : exists a rest, Exercise.exercise_name e = String a rest).
        { destruct (Exercise.exercise_name e); [congruence | eauto]. }
        destruct Hname as (a & rest & Hname).
        exists e, a, rest. split; [reflexivity |]. split; [exact Hname |].
        split; [exact Hplain |]. repeat split. }
    pose proof (csv_row_again importer ow row w _ c db H1 H2 Hd Hnew (_, _) Hrun)
      as Hfirst.
    cbn [fst snd] in Hfirst.
    rewrite (bind_ok _ _ _ _ _ Hfirst).
    destruct ow.
    + specialize (Hsingle eq_refl). cbn [length] in Hsingle.
      destruct es; [reflexivity | cbn [length] in Hsingle; lia].
    + apply csv_rows_skipped; [exact Hd |].
      rewrite copied_has_workout, String.eqb_refl, date_eqb_refl.
      apply orb_true_r.
Qed.

Lemma csv_copies (db1 : Store) :
  integrity db1 ->
  (ow = false -> all_new db1 importer (user_workouts db0 user)) ->
  Forall single (user_workouts db0 user) ->
  exists db2 copies,
    import_data importer (export_data db0 user csv_format) ow db1 =
      (db2, Ok (Counts (length (user_workouts db0 user))
                  (length (concat (map (csv_kept db0)
                                     (user_workouts db0 user)))))) /\
    fitness_workouts db2 = (fitness_workouts db1 ++ copies)%list /\
    extends db1 db2 /\ integrity db2 /\
    Forall2 (fun w w' => copy_with (csv_kept db0 w) db2 importer w w')
      (user_workouts db0 user) copies.
Proof.
  intros Hint Hnew Hsingle.
  destruct (run_copies importer ow db0 (csv_kept db0) single
              unit counts (fun c => c) run
              source_sound csv_kept_checked
              (fun _ _ _ => eq_refl) csv_run_cons
              (user_workouts db0 user) tt (Counts 0 0) db1)
    as (db2 & copies & c2 & Hrun & Hc & Hrest); trivial.
  { apply Forall_forall. intros w Hw. apply list_elem_of_In in Hw.
    now apply user_workouts_In in Hw. }
  exists db2, copies. split; [| exact Hrest].
  simpl in Hc. subst c2. exact Hrun.
Qed.

End CsvCopies.



(** * The dashboard after an import *)

Lemma filter_all {T} (f : T -> bool) (l : list T) :
  Forall (fun x => f x = true) l -> List.filter f l = l.
Proof.
  induction 1 as [|x l Hx _ IH]; simpl; [reflexivity | now rewrite Hx, IH].
Qed.

(** An exercise of before is owned as before, when workouts are added under
    new keys. *)
Lemma owned_by_old (db db' : Store) (ws : list Workout.t) (user : User)
    (e : Exercise.t) :
  NoDup (keys db') ->
  fitness_workouts db' = (fitness_workouts db ++ ws)%list ->
  In (Exercise.workout e) (keys db) ->
  owned_by db' user e = owned_by db user e.
Proof.
  intros Hnd Hw Hin. unfold owned_by. rewrite Hw, existsb_app.
  match goal with
  | |- _ || ?added = _ => assert (Hnone : added = false)
  end; [| now rewrite Hnone, orb_false_r].
  apply not_true_iff_false. intros (w & Hws & Hc)%existsb_exists.
  apply andb_true_iff in Hc as [Hpk _]. apply Nat.eqb_eq in Hpk.
  unfold keys in Hnd. rewrite Hw, map_app in Hnd.
  apply NoDup_app in Hnd as (_ & Hsep & _).
  apply (Hsep (Exercise.workout e)); apply list_elem_of_In; [exact Hin |].
  rewrite <- Hpk. now apply in_map.
Qed.

(** An exercise that belongs to a workout of [user] is owned by [user], and
    by nobody else. *)
Lemma owned_by_owner (db : Store) (user other : User) (e : Exercise.t)
    (w : Workout.t) :
  NoDup (keys db) -> In w (fitness_workouts db) ->
  Workout.pk w = Exercise.workout e -> Workout.user w = user ->
  owned_by db other e = Nat.eqb user other.
Proof.
  intros Hnd Hin Hpk Hu. unfold owned_by.
  destruct (Nat.eqb_spec user other) as [<- | Hne].
  - apply existsb_exists. exists w. split; [exact Hin |].
    now rewrite Hpk, Hu, !Nat.eqb_refl.
  - apply not_true_iff_false. intros (w' & Hin' & Hc)%existsb_exists.
    apply andb_true_iff in Hc as [Hpk' Hu'].
    apply Nat.eqb_eq in Hpk', Hu'.
    assert (w' = w) by (apply (same_key_same_row (fitness_workouts db));
                        trivial; congruence).
    subst w'. congruence.
Qed.

Lemma totals_after_adding (user other : User) (db db' : Store) :
  integrity db -> integrity db' -> adds_for user db db' ->
  total_workouts db' other =
    (total_workouts db other +
     if Nat.eqb user other
     then length (fitness_workouts db') - length (fitness_workouts db)
     else 0)%nat /\
  total_exercises db' other =
    (total_exercises db other +
     if Nat.eqb user other
     then length (fitness_exercises db') - length (fitness_exercises db)
     else 0)%nat.
Proof.
  intros Hint Hint' (ws & es & Hw & He & Fw & Fe).
  pose proof (workout_keys db' Hint') as Hnd. split.
  - unfold total_workouts, workouts_count.
    rewrite Hw, List.filter_app, !length_app. f_equal.
    destruct (Nat.eqb_spec user other) as [<- | Hne].
    + rewrite filter_all; [lia |].
      eapply Forall_impl; [exact Fw |]. intros w ->. apply Nat.eqb_refl.
    + rewrite filter_none; [reflexivity |].
      eapply Forall_impl; [exact Fw |]. intros w ->. now apply Nat.eqb_neq.
  - unfold total_exercises.
    rewrite He, List.filter_app, !length_app. f_equal.
    + f_equal. apply filter_ext_in. intros e Hin.
      apply (owned_by_old db db' ws); trivial.
      pose proof (foreign_keys db Hint) as Hfk. rewrite Forall_forall in Hfk.
      now apply Hfk, list_elem_of_In.
    + assert (Hown : Forall (fun e => owned_by db' other e = Nat.eqb user other) es).
      { eapply Forall_impl; [exact Fe |]. intros e (w & Hin & Hpk & Hu).
        now apply (owned_by_owner db' user other e w). }
      destruct (Nat.eqb user other).
      * rewrite filter_all by exact Hown. lia.
      * now rewrite filter_none by exact Hown.
Qed.

(** X11. After an import that returns, the dashboard of the importing user
    counts as many workouts more as the import reports, and as many
    exercises more, and the dashboard of every other user counts what it
    counted, in the three formats and with either value of
    [overwrite_existing]. *)
Theorem import_adds_to_dashboard (user other : User) (data_file : upload)
    (overwrite_existing : bool) (db db' : Store) (c : counts) :
  integrity db ->
  import_data user data_file overwrite_existing db = (db', Ok c) ->
  total_workouts db' user = (total_workouts db user + imported c)%nat /\
  total_exercises db' user = (total_exercises db user + exercises c)%nat /\
  (other <> user ->
   total_workouts db' other = total_workouts db other /\
   total_exercises db' other = total_exercises db other).
Proof.
  intros Hint Hrun.
  destruct (import_integrity_adds user data_file overwrite_existing db Hint)
    as [Hint' Hadd].
  pose proof (import_counted user (length (fitness_workouts db))
                (length (fitness_exercises db)) data_file overwrite_existing db)
    as Hcount.
  rewrite Hrun in Hint', Hadd, Hcount. cbn [fst] in Hint', Hadd.
  destruct Hcount as [Hn Hm]; [simpl; split; lia |].
  destruct (totals_after_adding user user db db' Hint Hint' Hadd) as [Hw He].
  rewrite Nat.eqb_refl in Hw, He.
  split; [lia |]. split; [lia |]. intros Hne.
  destruct (totals_after_adding user other db db' Hint Hint' Hadd) as [Hw' He'].
  assert (Hneq : Nat.eqb user other = false) by (apply Nat.eqb_neq; congruence).
  rewrite Hneq in Hw', He'. split; lia.
Qed.

Lemma import_adds_to_dashboard_witness :
  total_workouts two_users_store 1%nat = 1%nat /\
  exists db',
    import_data 1%nat (txt two_workouts_text) false two_users_store =
      (db', Ok (Counts 1 2)) /\
    total_workouts db' 1%nat = 2%nat /\ total_exercises db' 1%nat = 3%nat /\
    total_workouts db' 2%nat = 1%nat /\ total_exercises db' 2%nat = 1%nat.
Proof.
  split; [reflexivity |]. eexists. split; [vm_compute; reflexivity |].
  match goal with
  | |- total_workouts ?d _ = _ /\ _ =>
      destruct (import_adds_to_dashboard 1%nat 2%nat (txt two_workouts_text)
                  false two_users_store d (Counts 1 2))
        as (Hw & He & Hother)
  end.
  - sound_store.
  - vm_compute. reflexivity.
  - destruct Hother as [Hw' He']; [discriminate |].
    rewrite Hw, He, Hw', He'. repeat split.
Defined.

(** * The hierarchical document, imported a second time *)

Section JsonFrame.
Variable db0 : Store.

Lemma json_exercise_extends (w : Workout.t) (exercise_data : json) (c : counts) :
  (top_pk db0 < Workout.pk w)%nat ->
  triple (extends db0) (import_json_exercise w exercise_data c)
    (fun _ => extends db0) (extends db0).
Proof.
  intros Hpk. unfold import_json_exercise.
  do 14 (apply triple_bind_pure; [auto with pure_db | trivial | intros ?]).
  eapply triple_bind; [now apply exercise_create_extends | intros ?].
  now apply triple_pure, pure_ret.
Qed.

(** With [overwrite_existing] off, an entry of the document only adds rows
    to the store, whether it returns or raises. *)
Lemma json_workout_extends (user : User) (workout_data : json) (c : counts) :
  triple (extends db0) (import_json_workout user false workout_data c)
    (fun _ => extends db0) (extends db0).
Proof.
  unfold import_json_workout. apply triple_try. cbn [negb].
  do 3 (apply triple_bind_pure; [auto with pure_db | trivial | intros ?]).
  apply triple_bind_pure; [auto with pure_db | trivial | intros existing].
  destruct existing as [w|]; cbn [truth andb].
  { now apply triple_pure, pure_ret. }
  do 10 (apply triple_bind_pure; [auto with pure_db | trivial | intros ?]).
  apply (triple_bind _
           (fun p db => extends db0 db /\ (top_pk db0 < Workout.pk (fst p))%nat)).
  { eapply triple_bind; [apply create_extends |].
    intros w. apply triple_ret. intros db H. exact H. }
  intros [w c1]. cbn [fst].
  match goal with
  | |- triple _ ?m _ _ =>
      assert (Hrest : (top_pk db0 < Workout.pk w)%nat ->
                      triple (extends db0) m (fun _ => extends db0) (extends db0))
  end.
  { intros Hpk.
    do 2 (apply triple_bind_pure; [auto with pure_db | trivial | intros ?]).
    apply (triple_for_each (fun _ => extends db0) (extends db0)).
    intros x s _. now apply json_exercise_extends. }
  intros db [Hext Hpk]. exact (Hrest Hpk db Hext).
Qed.

End JsonFrame.

Lemma json_loop_extends (user : User) (workouts_data : list json) (c : counts)
    (db db' : Store) (r : result counts) :
  for_each (import_json_workout user false) workouts_data c db = (db', r) ->
  extends db db'.
Proof.
  intros H.
  pose proof (triple_for_each (fun _ => extends db) (extends db)
                (import_json_workout user false) workouts_data
                (fun x s _ => json_workout_extends db user x s)
                c db (extends_refl db)) as Ht.
  rewrite H in Ht. now destruct r.
Qed.

Lemma json_known_extends (user : User) (db db' : Store) (workout_data : json) :
  extends db db' -> json_known user db workout_data ->
  json_known user db' workout_data.
Proof.
  intros Hext (fields & date_field & d & name & -> & Hdate & Hd & Hname & Hhas).
  exists fields, date_field, d, name. repeat split; trivial.
  now apply (extends_has_workout db).
Qed.

(** An entry that ran with [overwrite_existing] off names a workout that
    the store has afterwards. *)
Lemma json_workout_known (user : User) (workout_data : json) (c : counts) :
  triple (fun _ => True) (import_json_workout user false workout_data c)
    (fun _ db => json_known user db workout_data) (fun _ => True).
Proof.
  unfold import_json_workout. apply triple_try. cbn [negb].
  destruct workout_data as [| | | | | |fields]; try (intros db _; exact I).
  cbn [getitem dict_get].
  apply triple_bind_or_raise; [trivial | intros vdate Hdate].
  destruct vdate as [| | | |date_field| |]; try (intros db _; exact I).
  apply triple_bind_ret.
  apply triple_bind_or_raise; [trivial | intros d Hd].
  apply (triple_bind _
           (fun existing db =>
              truth existing = true ->
              exists name, dict_lookup "name" fields = Some (JStr name) /\
                           has_workout db user name d = true)).
  { intros db _. unfold bind.
    destruct (dict_lookup "name" fields) as [[| | | |name| |]|]; simpl; trivial.
    intros Ht. exists name. split; [reflexivity |].
    unfold has_workout. now rewrite <- filter_last_truth. }
  intros existing. destruct existing as [w|]; cbn [truth andb].
  { apply triple_ret. intros db Hk. destruct (Hk eq_refl) as (name & Hname & Hhas).
    now exists fields, date_field, d, name. }
  apply (triple_weaken _ (fun _ => True) _
           (fun _ db => json_known user db (JDict fields)) _ (fun _ => True));
    auto.
  apply triple_bind_or_raise; [trivial | intros vname Hname].
  do 4 (apply triple_bind_pure; [auto with pure_db | trivial | intros ?]).
  destruct vname as [| | | |name| |]; try (intros db _; exact I).
  apply triple_bind_ret.
  do 4 (apply triple_bind_pure; [auto with pure_db | trivial | intros ?]).
  assert (Hknown : forall db, has_workout db user name d = true ->
                              json_known user db (JDict fields)).
  { intros db Hhas. now exists fields, date_field, d, name. }
  apply (triple_bind _
           (fun p db => has_workout db user name d = true /\
                        workout_matches user name d (fst p) = true)).
  { eapply triple_bind; [apply create_has_workout |].
    intros w. apply triple_ret. trivial. }
  intros [w c1]. cbn [fst].
  match goal with
  | |- triple _ ?m _ _ =>
      assert (Hrest : workout_matches user name d w = true ->
                      triple (fun db => has_workout db user name d = true) m
                        (fun _ db => has_workout db user name d = true)
                        (fun _ => True))
  end.
  { intros Hm.
    do 2 (apply triple_bind_pure; [auto with pure_db | trivial | intros ?]).
    apply (triple_for_each (fun _ db => has_workout db user name d = true)
             (fun _ => True)).
    intros x s _. unfold import_json_exercise.
    do 14 (apply triple_bind_pure; [auto with pure_db | trivial | intros ?]).
    apply (triple_bind _ (fun _ db => has_workout db user name d = true)).
    - intros db _.
      exact (exercise_create_has_workout user name d w _ _ _ _ _ _ _ Hm db I).
    - intros ?. apply triple_ret. trivial. }
  intros db [Hhas Hm]. specialize (Hrest Hm db Hhas).
  destruct (bind _ _ db) as [db1 [c2|e]]; [now apply Hknown | exact I].
Qed.

(** An entry that names a workout of the store is passed over. *)
Lemma json_workout_skip (user : User) (workout_data : json) (c : counts)
    (db : Store) :
  json_known user db workout_data ->
  import_json_workout user false workout_data c db = (db, Ok c).
Proof.
  intros (fields & date_field & d & name & -> & Hdate & Hd & Hname & Hhas).
  destruct (filter_first_found _ _ _ _ Hhas) as (w & Hw).
  unfold import_json_workout, try_except. cbn [negb getitem].
  rewrite Hdate, Hname. cbv [or_raise as_str]. unfold bind at 1 2 3. unfold ret at 1 2.
  rewrite Hd. cbv [or_raise]. unfold bind at 1. unfold ret at 1.
  unfold bind at 1 2 3. unfold ret at 1 2. now rewrite Hw.
Qed.

Lemma json_loop_known (user : User) (workouts_data : list json) :
  forall c db db' c',
    for_each (import_json_workout user false) workouts_data c db = (db', Ok c') ->
    Forall (json_known user db') workouts_data.
Proof.
  induction workouts_data as [|x xs IH]; intros c db db' c' H; [constructor |].
  cbn [for_each] in H.
  apply bind_inv in H as [(db1 & c1 & Hx & Hrest) | (e & _ & He)];
    [| discriminate He].
  constructor; [| exact (IH c1 db1 db' c' Hrest)].
  apply (json_known_extends user db1);
    [exact (json_loop_extends user xs c1 _ _ _ Hrest) |].
  pose proof (json_workout_known user x c db I) as Hk.
  now rewrite Hx in Hk.
Qed.

Lemma json_loop_skip (user : User) (workouts_data : list json) (c : counts)
    (db : Store) :
  Forall (json_known user db) workouts_data ->
  for_each (import_json_workout user false) workouts_data c db = (db, Ok c).
Proof.
  induction 1 as [|x xs Hx _ IH]; [reflexivity |]. cbn [for_each].
  now rewrite (bind_ok _ _ db db c) by now apply json_workout_skip.
Qed.

(** X12. When an import of a hierarchical document with
    [overwrite_existing] off returns, importing the same document again for
    the same user with [overwrite_existing] off returns too, reports no
    workout and no exercise, and leaves the store as the first import left
    it. *)
Theorem json_reimport_is_noop (user : User) (file_content : option json)
    (db db1 : Store) (c : counts) :
  import_json_data user file_content false db = (db1, Ok c) ->
  import_json_data user file_content false db1 = (db1, Ok (Counts 0 0)).
Proof.
  destruct file_content as [data|]; [| discriminate].
  unfold import_json_data, import_json_document. intros H.
  apply bind_inv in H as [(db2 & v & Hget & H) | (e & _ & He)];
    [| discriminate He].
  pose proof (pure_run _ _ _ _ (pure_dict_get data "workouts" (JList [])) Hget)
    as ->.
  apply bind_inv in H as [(db2 & items & Hiter & H) | (e & _ & He)];
    [| discriminate He].
  pose proof (pure_run _ _ _ _ (pure_iterate v) Hiter) as ->.
  assert (Hget1 : dict_get data "workouts" (JList []) db1 = (db1, Ok v)).
  { destruct data; try discriminate Hget. simpl in *. now inversion Hget. }
  assert (Hiter1 : iterate v db1 = (db1, Ok items)).
  { destruct v; try discriminate Hiter; simpl in *; now inversion Hiter. }
  rewrite (bind_ok _ _ _ _ _ Hget1), (bind_ok _ _ _ _ _ Hiter1).
  apply json_loop_skip. exact (json_loop_known user items _ _ _ _ H).
Qed.

Lemma json_reimport_is_noop_witness :
  let document :=
    Some (export_json_data journal_store (user_workouts journal_store 1%nat)) in
  let first := import_json_data 2%nat document false journal_store in
  snd first = Ok (Counts 2 2) /\
  import_json_data 2%nat document false (fst first) =
    (fst first, Ok (Counts 0 0)).
Proof.
  split; [vm_compute; reflexivity |].
  apply (json_reimport_is_noop 2%nat _ journal_store _ (Counts 2 2)).
  vm_compute. reflexivity.
Defined.
